(** * eRob CANopen demo: SDO engine, EDS object dictionary, node discovery
      and the CiA402 profile-position move handshake

    A shallow embedding of [example/pp_mode_control.c] and
    [example/quick_scan.c].  Machine integers are [Z] with the wrap-around
    of their C type written out, CAN frames are records, the globals of the
    program and the CAN socket form an explicit [world] that every
    operation threads through, and the libc text functions used by the EDS
    parser are modelled on [string]. *)

From Stdlib Require Import ZArith List String Ascii Bool Lia DecimalString.
Import ListNotations.
Open Scope Z_scope.

(** ** C integer types *)

Module CInt.

Definition u8 (x : Z) : Z := x mod 2 ^ 8.
Definition u16 (x : Z) : Z := x mod 2 ^ 16.
Definition u32 (x : Z) : Z := x mod 2 ^ 32.
Definition u64 (x : Z) : Z := x mod 2 ^ 64.

(** [~x] on a 32-bit unsigned operand. *)
Definition not32 (x : Z) : Z := u32 (Z.lnot x).

Definition ULONG_MAX : Z := 2 ^ 64 - 1.

End CInt.
Import CInt.

(** ** The libc text functions the EDS parser calls *)

Module CString.

Definition code (c : ascii) : Z := Z.of_N (N_of_ascii c).

Definition chr (n : Z) : ascii := ascii_of_N (Z.to_N n).

Definition LF : ascii := chr 10.
Definition CR : ascii := chr 13.
Definition NUL : ascii := chr 0.

(** [isspace] in the C locale. *)
Definition isspace (c : ascii) : bool :=
  (code c =? 32) || ((9 <=? code c) && (code c <=? 13)).

(** Value of a hexadecimal digit ([isxdigit]). *)
Definition xdigit (c : ascii) : option Z :=
  let n := code c in
  if (48 <=? n) && (n <=? 57) then Some (n - 48)
  else if (97 <=? n) && (n <=? 102) then Some (n - 87)
  else if (65 <=? n) && (n <=? 70) then Some (n - 55)
  else None.

(** Value of a decimal digit ([isdigit]). *)
Definition ddigit (c : ascii) : option Z :=
  let n := code c in
  if (48 <=? n) && (n <=? 57) then Some (n - 48) else None.

(** A buffer read as a C string: the characters before the first NUL. *)
Fixpoint cstr (s : string) : string :=
  match s with
  | EmptyString => EmptyString
  | String c s' => if Ascii.eqb c NUL then EmptyString else String c (cstr s')
  end.

(** [line[strcspn(line, "\r\n")] = 0]: cut the string at the first CR or LF. *)
Fixpoint cut_eol (s : string) : string :=
  match s with
  | EmptyString => EmptyString
  | String c s' =>
      if Ascii.eqb c CR || Ascii.eqb c LF then EmptyString
      else String c (cut_eol s')
  end.

(** [strchr(s, c)]: the text before the first [c] and the text from it on,
    or [None] when [c] does not occur. *)
Fixpoint strchr (s : string) (c : ascii) : option (string * string) :=
  match s with
  | EmptyString => None
  | String d s' =>
      if Ascii.eqb d c then Some (EmptyString, s)
      else match strchr s' c with
           | Some (before, from) => Some (String d before, from)
           | None => None
           end
  end.

(** [strstr(hay, needle) != NULL]. *)
Fixpoint strstr (hay needle : string) : bool :=
  match hay with
  | EmptyString => prefix needle hay
  | String _ hay' => prefix needle hay || strstr hay' needle
  end.

(** [fgets(buf, size, f)]: at most [size - 1] characters, stopping after a
    line feed; [room] is [size - 1].  Returns the characters stored and the
    rest of the file. *)
Fixpoint fgets_chars (room : nat) (f : string) : string * string :=
  match room, f with
  | O, _ => (EmptyString, f)
  | _, EmptyString => (EmptyString, EmptyString)
  | S room', String c f' =>
      if Ascii.eqb c LF then (String c EmptyString, f')
      else let (l, r) := fgets_chars room' f' in (String c l, r)
  end.

(** [fgets] returns NULL only at end of file. *)
Definition fgets (size : nat) (f : string) : option (string * string) :=
  match f with
  | EmptyString => None
  | _ => Some (fgets_chars (Nat.pred size) f)
  end.

(** The successive results of [while (fgets(line, size, file))].  Every
    call on a non-empty file consumes a character, so [length f] rounds
    reach the end of the file ([read_lines_concat] below). *)
Fixpoint read_lines (fuel : nat) (size : nat) (f : string) : list string :=
  match fuel with
  | O => []
  | S fuel' =>
      match fgets size f with
      | None => []
      | Some (l, r) => l :: read_lines fuel' size r
      end
  end.

Definition file_lines (size : nat) (f : string) : list string :=
  read_lines (String.length f) size f.

(** *** [sscanf] directives *)

(** Leading white space skipped by a numeric conversion. *)
Fixpoint skip_ws (s : string) : string :=
  match s with
  | String c s' => if isspace c then skip_ws s' else s
  | EmptyString => s
  end.

(** An ordinary character sequence of the format: it must match exactly. *)
Definition scan_lit (lit s : string) : option string :=
  if prefix lit s
  then Some (substring (String.length lit) (String.length s - String.length lit) s)
  else None.

(** The longest run of digits of the given kind, accumulated in base [b]. *)
Fixpoint scan_digits (digit : ascii -> option Z) (b : Z) (acc : Z) (n : nat)
    (s : string) : Z * nat * string :=
  match s with
  | String c s' =>
      match digit c with
      | Some d => scan_digits digit b (acc * b + d) (S n) s'
      | None => (acc, n, s)
      end
  | EmptyString => (acc, n, s)
  end.

(** [strtoul] on the collected digits: saturation at [ULONG_MAX], negation
    modulo 2^64 after a minus sign. *)
Definition strtoul_value (neg : bool) (v : Z) : Z :=
  if v >? ULONG_MAX then ULONG_MAX
  else if neg then u64 (- v) else v.

(** An optional sign in front of a number. *)
Definition scan_sign (s : string) : bool * bool * string :=
  match s with
  | String c s' =>
      if Ascii.eqb c (chr 45) then (true, true, s')
      else if Ascii.eqb c (chr 43) then (true, false, s')
      else (false, false, s)
  | EmptyString => (false, false, s)
  end.

(** [%x] as glibc reads it: white space, an optional sign, an optional
    [0x]/[0X] (the [0] counts as a digit, the [x] is consumed), then
    hexadecimal digits; no digit at all is a matching failure. *)
Definition scan_x (s : string) : option (Z * string) :=
  let '(_, neg, s1) := scan_sign (skip_ws s) in
  match s1 with
  | String c0 (String cx s2) =>
      if Ascii.eqb c0 (chr 48) && (Ascii.eqb cx (chr 120) || Ascii.eqb cx (chr 88))
      then let '(v, _, r) := scan_digits xdigit 16 0 1%nat s2 in
           Some (strtoul_value neg v, r)
      else let '(v, n, r) := scan_digits xdigit 16 0 0%nat s1 in
           if (n =? 0)%nat then None else Some (strtoul_value neg v, r)
  | _ =>
      let '(v, n, r) := scan_digits xdigit 16 0 0%nat s1 in
      if (n =? 0)%nat then None else Some (strtoul_value neg v, r)
  end.

(** [%u]: white space, an optional sign, decimal digits. *)
Definition scan_u (s : string) : option (Z * string) :=
  let '(_, neg, s1) := scan_sign (skip_ws s) in
  let '(v, n, r) := scan_digits ddigit 10 0 0%nat s1 in
  if (n =? 0)%nat then None else Some (strtoul_value neg v, r).

(** [%hx] stores an [unsigned short], [%hhu] an [unsigned char]. *)
Definition scan_hx (s : string) : option (Z * string) :=
  match scan_x s with
  | Some (v, r) => Some (u16 v, r)
  | None => None
  end.

Definition scan_hhu (s : string) : option (Z * string) :=
  match scan_u s with
  | Some (v, r) => Some (u8 v, r)
  | None => None
  end.

End CString.
Import CString.

(** ** The CAN socket

    [struct can_frame] keeps the bytes the program initialised in [data];
    a byte the program never wrote reads as 0. *)

Module Bus.

Record can_frame := mk_frame {
  can_id : Z;
  can_dlc : Z;
  data : list Z
}.

(** [frame.data[i]]. *)
Definition byte_at (f : can_frame) (i : nat) : Z := nth i (data f) 0.

(** What one round of a polling loop meets: the deadline test of the
    [while] fails ([Expired]); [select] reports nothing ([Idle]); [read]
    returns no frame ([ReadFailed]); or [read] delivers a frame. *)
Inductive slice :=
| Expired
| Idle
| ReadFailed
| Received (f : can_frame).

(** The lines the SDO engine prints about the outcome of a transaction. *)
Inductive debug_msg :=
| DbgUpload (value : Z)
| DbgDownload
| DbgError (b4 b5 b6 b7 : Z)
| DbgTimeout.

(** Observable actions: [write] on the socket with its return value,
    frames taken by [read], [usleep], and the outcome lines above.  Other
    console output is not recorded. *)
Inductive event :=
| EvWrite (f : can_frame) (ret : Z)
| EvRead (f : can_frame)
| EvSleep (usec : Z)
| EvDebug (m : debug_msg).

(** The socket: [rx] is what the successive polling rounds will meet (an
    exhausted list means nothing arrives any more and the deadline
    passes), [wr] the return values of the successive [write] calls (an
    exhausted list means every further [write] returns
    [sizeof(struct can_frame)] = 16), [trace] the actions so far. *)
Record bus := mk_bus {
  rx : list slice;
  wr : list Z;
  trace : list event
}.

Definition IO (S A : Type) : Type := S -> A * S.

Definition ret {S A} (a : A) : IO S A := fun s => (a, s).

Definition bind {S A B} (m : IO S A) (k : A -> IO S B) : IO S B :=
  fun s => let (a, s') := m s in k a s'.

Definition emit (e : event) : IO bus unit :=
  fun b => (tt, mk_bus (rx b) (wr b) (trace b ++ [e])).

(** [write(sock, &frame, sizeof(frame))]. *)
Definition sock_write (f : can_frame) : IO bus Z :=
  fun b =>
    match wr b with
    | [] => (16, mk_bus (rx b) [] (trace b ++ [EvWrite f 16]))
    | r :: more => (r, mk_bus (rx b) more (trace b ++ [EvWrite f r]))
    end.

Definition usleep (usec : Z) : IO bus unit := emit (EvSleep usec).

(** The 32-bit value assembled from bytes 4..7:
    [data[4] | data[5] << 8 | data[6] << 16 | data[7] << 24] stored in a
    [uint32_t]. *)
Definition payload_u32 (f : can_frame) : Z :=
  u32 (Z.lor (Z.lor (Z.lor (byte_at f 4) (Z.shiftl (byte_at f 5) 8))
                    (Z.shiftl (byte_at f 6) 16))
             (Z.shiftl (byte_at f 7) 24)).

End Bus.
Import Bus.

Declare Scope io_scope.
Delimit Scope io_scope with io.
Notation "x <- m ;; k" := (bind m (fun x => k))
  (at level 61, m at next level, right associativity) : io_scope.
Notation "' p <- m ;; k" := (bind m (fun x => match x with p => k end))
  (at level 61, p pattern, m at next level, right associativity) : io_scope.
Notation "m ;; k" := (bind m (fun _ => k))
  (at level 61, right associativity) : io_scope.
Open Scope io_scope.

(** ** example/pp_mode_control.c *)

Module PP.

Definition MOTOR_NODE_ID : Z := 2.
Definition MOTOR_RESOLUTION : Z := 524288.
Definition MAX_POSITION : Z := MOTOR_RESOLUTION * 2.
Definition MIN_POSITION : Z := - MOTOR_RESOLUTION * 2.

Record object_dict_entry_t := mk_entry {
  index : Z;
  subindex : Z;
  data_size : Z
}.

(** The globals of the program and its socket.  [object_dict] holds the
    first [object_dict_count] cells of the array, so its length is the
    count. *)
Record world := mk_world {
  object_dict : list object_dict_entry_t;
  detected_motor_id : Z;
  current_motor_id : Z;
  motor_enabled : Z;
  sock : bus
}.

Definition object_dict_count (w : world) : Z :=
  Z.of_nat (List.length (object_dict w)).

(** The state of the program when [main] starts. *)
Definition initial_world (b : bus) : world :=
  mk_world [] 0 MOTOR_NODE_ID 0 b.

Definition set_object_dict (d : list object_dict_entry_t) (w : world) : world :=
  mk_world d (detected_motor_id w) (current_motor_id w) (motor_enabled w) (sock w).

Definition set_motor_ids (detected current : Z) (w : world) : world :=
  mk_world (object_dict w) detected current (motor_enabled w) (sock w).

Definition set_motor_enabled (v : Z) (w : world) : world :=
  mk_world (object_dict w) (detected_motor_id w) (current_motor_id w) v (sock w).

(** Run an action of the socket inside the program. *)
Definition on_sock {A} (m : IO bus A) : IO world A :=
  fun w =>
    let (a, b) := m (sock w) in
    (a, mk_world (object_dict w) (detected_motor_id w) (current_motor_id w)
                 (motor_enabled w) b).

(** *** Object dictionary *)

Definition get_data_type_size (data_type : Z) : Z :=
  if data_type =? 0x0001 then 1
  else if data_type =? 0x0002 then 1
  else if data_type =? 0x0003 then 2
  else if data_type =? 0x0004 then 4
  else if data_type =? 0x0005 then 1
  else if data_type =? 0x0006 then 2
  else if data_type =? 0x0007 then 4
  else if data_type =? 0x0008 then 8
  else 2.

(** The locals of [parse_eds_file] together with the table it fills. *)
Record eds_state := mk_eds {
  current_index : Z;
  current_subindex : Z;
  current_data_type : Z;
  in_object : bool;
  dict : list object_dict_entry_t
}.

(** [line[0] == '[' && strchr(line, ']')]: the text between the bracket
    that opens the line and the first closing bracket. *)
Definition section_header (line : string) : option string :=
  match line with
  | String c _ =>
      if Ascii.eqb c (chr 91) then
        match strchr line (chr 93) with
        | Some (String _ object_id, _) => Some object_id
        | _ => None
        end
      else None
  | EmptyString => None
  end.

(** [sscanf(object_id, "%hxsub%hhu", &current_index, &current_subindex)]:
    each conversion that succeeds stores its value, the first failure
    stops the scan. *)
Definition sscanf_index_sub (object_id : string) (ci cs : Z) : Z * Z :=
  match scan_hx object_id with
  | None => (ci, cs)
  | Some (i, r) =>
      match scan_lit "sub" r with
      | None => (i, cs)
      | Some r' =>
          match scan_hhu r' with
          | None => (i, cs)
          | Some (s, _) => (i, s)
          end
      end
  end.

(** [sscanf(object_id, "%hx", &current_index)]. *)
Definition sscanf_index (object_id : string) (ci : Z) : Z :=
  match scan_hx object_id with
  | None => ci
  | Some (i, _) => i
  end.

(** [sscanf(line, "DataType=0x%hx", &current_data_type)]. *)
Definition sscanf_data_type (line : string) (dt : Z) : Z :=
  match scan_lit "DataType=0x" line with
  | None => dt
  | Some r =>
      match scan_hx r with
      | None => dt
      | Some (v, _) => v
      end
  end.

(** The body of the [while (fgets(...))] loop for one buffer. *)
Definition parse_line (buf : string) (st : eds_state) : eds_state :=
  let line := cut_eol (cstr buf) in
  match section_header line with
  | Some object_id =>
      let '(ci, cs) :=
        if strstr object_id "sub"
        then sscanf_index_sub object_id (current_index st) (current_subindex st)
        else (sscanf_index object_id (current_index st), 0) in
      mk_eds ci cs 0 true (dict st)
  | None =>
      if in_object st && strstr line "DataType=" then
        let dt := sscanf_data_type line (current_data_type st) in
        let dt := if current_index st =? 0x6040 then 0x0006 else dt in
        mk_eds (current_index st) (current_subindex st) dt (in_object st) (dict st)
      else if in_object st && strstr line "AccessType=" then
        let d :=
          if (current_data_type st >? 0)
             && (Z.of_nat (List.length (dict st)) <? 100)
          then dict st ++ [mk_entry (current_index st) (current_subindex st)
                                    (get_data_type_size (current_data_type st))]
          else dict st in
        mk_eds (current_index st) (current_subindex st) (current_data_type st)
               false d
      else st
  end.

Definition parse_lines (lines : list string) (st : eds_state) : eds_state :=
  fold_left (fun s l => parse_line l s) lines st.

(** [parse_eds_file]: [file] is the content of the file, [None] when
    [fopen] fails.  The buffer is [char line[256]]. *)
Definition parse_eds_file (file : option string) : IO world Z :=
  fun w =>
    match file with
    | None => (-1, w)
    | Some f =>
        let st := parse_lines (file_lines 256 f)
                              (mk_eds 0 0 0 false (object_dict w)) in
        (0, set_object_dict (dict st) w)
    end.

Definition get_object_size (d : list object_dict_entry_t) (idx sub : Z) : Z :=
  match find (fun e => (index e =? idx) && (subindex e =? sub)) d with
  | Some e => data_size e
  | None =>
      if idx =? 0x6040 then 2
      else if idx =? 0x6060 then 1
      else if (idx =? 0x6081) || (idx =? 0x6083) || (idx =? 0x6084) then 4
      else 4
  end.

(** *** SDO transactions *)

(** The frame [send_sdo_request] fills in. *)
Definition sdo_request_frame (w : world) (idx sub data is_write : Z) : can_frame :=
  let data_size := get_object_size (object_dict w) idx sub in
  if negb (is_write =? 0) then
    mk_frame (0x600 + current_motor_id w) 8
      [ (if data_size =? 1 then 0x2F else if data_size =? 2 then 0x2B else 0x23);
        u8 (Z.land idx 0xFF);
        u8 (Z.land (Z.shiftr idx 8) 0xFF);
        u8 sub;
        u8 (Z.land data 0xFF);
        u8 (Z.land (Z.shiftr data 8) 0xFF);
        u8 (Z.land (Z.shiftr data 16) 0xFF);
        u8 (Z.land (Z.shiftr data 24) 0xFF) ]
  else
    mk_frame (0x600 + current_motor_id w) 8
      [ 0x40;
        u8 (Z.land idx 0xFF);
        u8 (Z.land (Z.shiftr idx 8) 0xFF);
        u8 sub;
        0; 0; 0; 0 ].

Definition send_sdo_request (idx sub data is_write : Z) : IO world Z :=
  fun w => on_sock (sock_write (sdo_request_frame w idx sub data is_write)) w.

(** The polling loop of [receive_sdo_response] over what the socket
    delivers: return value, [*data], what is left of [rx], actions. *)
Fixpoint sdo_poll (node : Z) (rx : list slice) (data : Z)
    : Z * Z * list slice * list event :=
  match rx with
  | [] => (-1, data, [], [EvDebug DbgTimeout])
  | Expired :: rest => (-1, data, rest, [EvDebug DbgTimeout])
  | Idle :: rest => sdo_poll node rest data
  | ReadFailed :: rest => sdo_poll node rest data
  | Received f :: rest =>
      let ignore :=
        let '(r, d, rx', evs) := sdo_poll node rest data in
        (r, d, rx', EvRead f :: evs) in
      if can_id f =? 0x580 + node then
        if Z.land (byte_at f 0) 0xE0 =? 0x40 then
          (0, payload_u32 f, rest, [EvRead f; EvDebug (DbgUpload (payload_u32 f))])
        else if Z.land (byte_at f 0) 0xE0 =? 0x60 then
          (0, 0, rest, [EvRead f; EvDebug DbgDownload])
        else if Z.land (byte_at f 0) 0xE0 =? 0x80 then
          (-1, data, rest,
           [EvRead f;
            EvDebug (DbgError (byte_at f 4) (byte_at f 5) (byte_at f 6) (byte_at f 7))])
        else ignore
      else ignore
  end.

(** [receive_sdo_response(sock, &data)]: [data] is the value the caller's
    variable holds before the call; the result is the return value and the
    value it holds afterwards. *)
Definition receive_sdo_response (data : Z) : IO world (Z * Z) :=
  fun w =>
    let '(r, d, rx', evs) := sdo_poll (current_motor_id w) (rx (sock w)) data in
    ((r, d),
     mk_world (object_dict w) (detected_motor_id w) (current_motor_id w)
              (motor_enabled w)
              (mk_bus rx' (wr (sock w)) (trace (sock w) ++ evs))).

(** [write_sdo]; the local [response_data] is never read. *)
Definition write_sdo (idx sub data : Z) : IO world Z :=
  r <- send_sdo_request idx sub data 1 ;;
  if r <? 0 then ret (-1)
  else
    '(r, _) <- receive_sdo_response 0 ;;
    if r <? 0 then ret (-1) else ret 0.

(** [read_sdo(sock, index, subindex, &data)]. *)
Definition read_sdo (idx sub data : Z) : IO world (Z * Z) :=
  r <- send_sdo_request idx sub 0 0 ;;
  if r <? 0 then ret (-1, data)
  else
    '(r, d) <- receive_sdo_response data ;;
    if r <? 0 then ret (-1, d) else ret (0, d).

(** *** Node discovery *)

(** The device types [auto_detect_motor] takes for a CiA402 drive. *)
Definition is_cia402_motor (device_type : Z) : bool :=
  (device_type =? 0x00020192) || (device_type =? 0x00020193)
  || (device_type =? 0x00020194) || (device_type =? 0x00020195).

(** The upload request for object 0x1000:0 that the scan writes itself. *)
Definition probe_frame (node_id : Z) : can_frame :=
  mk_frame (0x600 + node_id) 8 [0x40; 0x00; 0x10; 0x00; 0; 0; 0; 0].

(** The 200 ms polling loop of the scan: [Some device_type] when [found]. *)
Fixpoint detect_poll (temp_server_cob : Z) (rx : list slice)
    : option Z * list slice * list event :=
  match rx with
  | [] => (None, [], [])
  | Expired :: rest => (None, rest, [])
  | Idle :: rest => detect_poll temp_server_cob rest
  | ReadFailed :: rest => detect_poll temp_server_cob rest
  | Received f :: rest =>
      if (can_id f =? temp_server_cob)
         && (Z.land (byte_at f 0) 0xE0 =? 0x40)
      then (Some (payload_u32 f), rest, [EvRead f])
      else
        let '(r, rx', evs) := detect_poll temp_server_cob rest in
        (r, rx', EvRead f :: evs)
  end.

Definition await_device_type (node_id : Z) : IO bus (option Z) :=
  fun b =>
    let '(r, rx', evs) := detect_poll (0x580 + node_id) (rx b) in
    (r, mk_bus rx' (wr b) (trace b ++ evs)).

(** The body of the [for] loop over the node ids still to visit, and what
    follows the loop when none is left. *)
Fixpoint detect_nodes (nodes : list Z) : IO world Z :=
  match nodes with
  | [] =>
      fun w => (MOTOR_NODE_ID, set_motor_ids 0 MOTOR_NODE_ID w)
  | node_id :: more =>
      r <- on_sock (sock_write (probe_frame node_id)) ;;
      if r <? 0 then detect_nodes more
      else
        found <- on_sock (await_device_type node_id) ;;
        match found with
        | Some device_type =>
            if is_cia402_motor device_type
            then fun w => (node_id, set_motor_ids node_id node_id w)
            else on_sock (usleep 50000) ;; detect_nodes more
        | None => on_sock (usleep 50000) ;; detect_nodes more
        end
  end.

(** [for (uint8_t node_id = 1; node_id <= 20; node_id++)]. *)
Definition scan_range : list Z := map Z.of_nat (seq 1 20).

Definition auto_detect_motor : IO world Z := detect_nodes scan_range.

(** *** Drive state machine *)

Definition send_nmt_command (command node_id : Z) : IO world Z :=
  on_sock (sock_write (mk_frame 0x000 2 [command; node_id])).

Definition init_pp_mode : IO world Z :=
  (fun w => send_nmt_command 0x02 (current_motor_id w) w) ;;
  on_sock (usleep 200000) ;;
  (fun w => send_nmt_command 0x82 (current_motor_id w) w) ;;
  on_sock (usleep 1000000) ;;
  (fun w => send_nmt_command 0x01 (current_motor_id w) w) ;;
  on_sock (usleep 1000000) ;;
  write_sdo 0x6060 0 0x01 ;;
  on_sock (usleep 200000) ;;
  write_sdo 0x6081 0 5566 ;;
  on_sock (usleep 200000) ;;
  write_sdo 0x6083 0 5566 ;;
  on_sock (usleep 200000) ;;
  write_sdo 0x6084 0 5566 ;;
  on_sock (usleep 200000) ;;
  write_sdo 0x6040 0 0x80 ;;
  on_sock (usleep 500000) ;;
  write_sdo 0x6040 0 0x06 ;;
  on_sock (usleep 500000) ;;
  write_sdo 0x6040 0 0x07 ;;
  on_sock (usleep 500000) ;;
  write_sdo 0x6040 0 0x0F ;;
  on_sock (usleep 500000) ;;
  (fun w => (0, set_motor_enabled 1 w)).

(** [print_command_help] reads the actual position and prints. *)
Definition print_command_help : IO world unit :=
  read_sdo 0x6064 0 0 ;; ret tt.

(** Step 4 of the move: [while (timeout_count < 50)] polling the status
    word for bit 12 set.  Returns [timeout_count] and [status_word] at the
    exit of the loop.  [fuel] bounds the rounds; 50 rounds from
    [timeout_count = 0] always reach the exit through the guard or the
    [break]. *)
Fixpoint wait_setpoint_ack (fuel : nat) (timeout_count status_word : Z)
    : IO world (Z * Z) :=
  match fuel with
  | O => ret (timeout_count, status_word)
  | S fuel' =>
      if timeout_count <? 50 then
        '(r, sw) <- read_sdo 0x6041 0 status_word ;;
        if (r =? 0) && negb (Z.land sw 0x1000 =? 0)
        then ret (timeout_count, sw)
        else
          on_sock (usleep 100000) ;;
          wait_setpoint_ack fuel' (timeout_count + 1) sw
      else ret (timeout_count, status_word)
  end.

(** Step 6 of the move: the same loop waiting for bit 12 cleared. *)
Fixpoint wait_setpoint_clear (fuel : nat) (timeout_count status_word : Z)
    : IO world (Z * Z) :=
  match fuel with
  | O => ret (timeout_count, status_word)
  | S fuel' =>
      if timeout_count <? 50 then
        '(r, sw) <- read_sdo 0x6041 0 status_word ;;
        if (r =? 0) && (Z.land sw 0x1000 =? 0)
        then ret (timeout_count, sw)
        else
          on_sock (usleep 100000) ;;
          wait_setpoint_clear fuel' (timeout_count + 1) sw
      else ret (timeout_count, status_word)
  end.

(** [execute_position_move].  A local the source leaves uninitialised
    ([current_position], [current_control_word], [status_word]) starts at
    0 here; the source reads none of them before a successful [read_sdo]
    has stored into it, except to print. *)
Definition execute_position_move (target_position : Z) : IO world Z :=
  if target_position >? MAX_POSITION then ret (-1)
  else if target_position <? MIN_POSITION then ret (-1)
  else
    read_sdo 0x6064 0 0 ;;
    r <- write_sdo 0x607A 0 (u32 target_position) ;;
    if r <? 0 then ret (-1)
    else
      '(r, current_control_word) <- read_sdo 0x6040 0 0 ;;
      if r <? 0 then ret (-1)
      else
        let new_control_word := u32 (Z.lor current_control_word 0x10) in
        r <- write_sdo 0x6040 0 new_control_word ;;
        if r <? 0 then ret (-1)
        else
          '(timeout_count, status_word) <- wait_setpoint_ack 50 0 0 ;;
          if timeout_count >=? 50 then ret (-1)
          else
            let release_control_word :=
              Z.land new_control_word (not32 0x10) in
            r <- write_sdo 0x6040 0 release_control_word ;;
            if r <? 0 then ret (-1)
            else
              wait_setpoint_clear 50 0 status_word ;;
              on_sock (usleep 1000000) ;;
              read_sdo 0x6064 0 0 ;;
              print_command_help ;;
              ret 0.

End PP.

(** ** example/quick_scan.c *)

Module QuickScan.

Definition QUICK_TIMEOUT_MS : Z := 100.

(** The frame [send_sdo_request] fills in: always an upload request. *)
Definition sdo_request_frame (node_id idx sub : Z) : can_frame :=
  mk_frame (0x600 + node_id) 8
    [ 0x40;
      u8 (Z.land idx 0xFF);
      u8 (Z.land (Z.shiftr idx 8) 0xFF);
      u8 sub;
      0; 0; 0; 0 ].

Definition send_sdo_request (node_id idx sub : Z) : IO bus Z :=
  sock_write (sdo_request_frame node_id idx sub).

(** The polling loop of [receive_sdo_response]: only an upload response of
    the node ends it before the deadline. *)
Fixpoint sdo_poll (node_id : Z) (rx : list slice) (data : Z)
    : Z * Z * list slice * list event :=
  match rx with
  | [] => (-1, data, [], [])
  | Expired :: rest => (-1, data, rest, [])
  | Idle :: rest => sdo_poll node_id rest data
  | ReadFailed :: rest => sdo_poll node_id rest data
  | Received f :: rest =>
      let ignore :=
        let '(r, d, rx', evs) := sdo_poll node_id rest data in
        (r, d, rx', EvRead f :: evs) in
      if can_id f =? 0x580 + node_id then
        if Z.land (byte_at f 0) 0xE0 =? 0x40 then
          (0, payload_u32 f, rest, [EvRead f])
        else ignore
      else ignore
  end.

(** [receive_sdo_response(sock, node_id, &data, timeout_ms)]; the deadline
    is met as an [Expired] round whatever [timeout_ms] is. *)
Definition receive_sdo_response (node_id data timeout_ms : Z) : IO bus (Z * Z) :=
  fun b =>
    let '(r, d, rx', evs) := sdo_poll node_id (rx b) data in
    ((r, d), mk_bus rx' (wr b) (trace b ++ evs)).

(** [quick_scan_node]: 0 for a motor drive, -1 otherwise. *)
Definition quick_scan_node (node_id : Z) : IO bus Z :=
  r <- send_sdo_request node_id 0x1000 0 ;;
  if r <? 0 then ret (-1)
  else
    '(r, data) <- receive_sdo_response node_id 0 QUICK_TIMEOUT_MS ;;
    if r <? 0 then ret (-1)
    else
      let device_type := u16 (Z.land data 0xFFFF) in
      if negb (device_type =? 0x92) && negb (device_type =? 0x0192)
      then ret (-1)
      else ret 0.

End QuickScan.

(** ** Vocabulary for the statements

    None of the definitions below is part of the program: they describe
    inputs (what a line of EDS text declares, which frame answers a node)
    and observations (which frames a run has written), or name a stretch
    of a function of the program so that a statement can speak of the
    state between two of its steps. *)

Module Eds.
Import PP.

(** The buffer as the parser tests it. *)
Definition text (buf : string) : string := cut_eol (cstr buf).

(** A section header [[<hex-index>]] or [[<hex-index>sub<subindex>]] whose
    numbers all scan: the object it opens. *)
Definition header_key (buf : string) : option (Z * Z) :=
  match section_header (text buf) with
  | None => None
  | Some object_id =>
      match scan_hx object_id with
      | None => None
      | Some (i, r) =>
          if strstr object_id "sub" then
            match scan_lit "sub" r with
            | None => None
            | Some r' =>
                match scan_hhu r' with
                | None => None
                | Some (s, _) => Some (i, s)
                end
            end
          else Some (i, 0)
      end
  end.

(** A line [DataType=0x<hex>]: the type code it declares. *)
Definition declared_type (buf : string) : option Z :=
  match section_header (text buf) with
  | Some _ => None
  | None =>
      if strstr (text buf) "DataType=" then
        match scan_lit "DataType=0x" (text buf) with
        | None => None
        | Some r =>
            match scan_hx r with
            | None => None
            | Some (v, _) => Some v
            end
        end
      else None
  end.

(** A line [AccessType=...], the end-of-entry marker. *)
Definition access_line (buf : string) : bool :=
  match section_header (text buf) with
  | Some _ => false
  | None => negb (strstr (text buf) "DataType=") && strstr (text buf) "AccessType="
  end.

(** Any other line of a section (ParameterName=, ObjectType=, ...). *)
Definition plain_line (buf : string) : bool :=
  match section_header (text buf) with
  | Some _ => false
  | None =>
      negb (strstr (text buf) "DataType=") && negb (strstr (text buf) "AccessType=")
  end.

(** The table [parse_eds_file] leaves when it starts from an empty one. *)
Definition parsed (f : string) : list object_dict_entry_t :=
  dict (parse_lines (file_lines 256 f) (mk_eds 0 0 0 false [])).

(** [(idx, sub)] has no entry in the table. *)
Definition absent (d : list object_dict_entry_t) (idx sub : Z) : Prop :=
  find (fun e => (index e =? idx) && (subindex e =? sub)) d = None.

(** The size table of the specification: as [get_data_type_size], with
    REAL32 on 4 bytes. *)
Definition dataTypeToSize (data_type : Z) : Z :=
  if (data_type =? 0x0001) || (data_type =? 0x0002) || (data_type =? 0x0005) then 1
  else if (data_type =? 0x0003) || (data_type =? 0x0006) then 2
  else if (data_type =? 0x0004) || (data_type =? 0x0007) || (data_type =? 0x0008) then 4
  else 2.

(** The invariant behind the control word's size: entries of 0x6040 are
    2 bytes wide, and while the current section is 0x6040 the captured
    type is none or UNSIGNED16. *)
Definition controlword_inv (st : eds_state) : Prop :=
  Forall (fun e => index e = 0x6040 -> data_size e = 2) (dict st)
  /\ (current_index st = 0x6040 ->
      current_data_type st = 0 \/ current_data_type st = 0x0006).

End Eds.


(** ** Sample inputs *)

Module Samples.
Import PP Eds.

Definition nl : string := String LF EmptyString.

Definition dec (n : nat) : string :=
  NilEmpty.string_of_uint (Nat.to_uint n).

(** One EDS section as the drive's data sheet writes it. *)
Definition entry_text (header data_type : string) : string :=
  ("[" ++ header ++ "]" ++ nl ++ "ParameterName=Object" ++ nl
   ++ "DataType=0x" ++ data_type ++ nl ++ "AccessType=rw" ++ nl)%string.

(** Mode of operation (INTEGER8) and target position (INTEGER32). *)
Definition eds_two : string :=
  (entry_text "6060" "0002" ++ entry_text "607A" "0004")%string.

(** [n] sections 0x2000sub0 .. 0x2000sub(n-1), all UNSIGNED8. *)
Definition eds_many (n : nat) : string :=
  String.concat ""
    (map (fun k => entry_text ("2000sub" ++ dec k) "0005") (seq 0 n)).

(** A socket on which nothing ever arrives. *)
Definition silent_bus : bus := mk_bus [] [] [].

End Samples.


Module Sdo.
Import PP.

(** The command specifier of a frame, [frame.data[0] & 0xE0]. *)
Definition command (f : can_frame) : Z := Z.land (byte_at f 0) 0xE0.

(** A response of the node's SDO server: its COB-ID is 0x580 + node and
    its command is one of upload response, download response, abort. *)
Definition sdo_response_of (node : Z) (f : can_frame) : bool :=
  (can_id f =? 0x580 + node)
  && ((command f =? 0x40) || (command f =? 0x60) || (command f =? 0x80)).

(** An upload response of the node. *)
Definition upload_response_of (node : Z) (f : can_frame) : bool :=
  (can_id f =? 0x580 + node) && (command f =? 0x40).

(** A polling round that ends no wait for a frame picked by [accept]:
    the deadline has not passed and what arrives, if anything, is not
    picked. *)
Definition passes (accept : can_frame -> bool) (s : slice) : bool :=
  match s with
  | Expired => false
  | Idle => true
  | ReadFailed => true
  | Received f => negb (accept f)
  end.

(** The frames read during a stretch of rounds. *)
Definition reads_of (rounds : list slice) : list event :=
  flat_map (fun s => match s with Received f => [EvRead f] | _ => [] end) rounds.

(** The bytes of a frame are bytes. *)
Definition byte_frame (f : can_frame) : Prop :=
  Forall (fun x => 0 <= x < 256) (data f).

(** The program's state with another socket. *)
Definition with_sock (b : bus) (w : world) : world :=
  mk_world (object_dict w) (detected_motor_id w) (current_motor_id w)
           (motor_enabled w) b.

End Sdo.


Module Frames.
Import PP.

(** The program's globals are the same in both states. *)
Definition same_globals (w w' : world) : Prop :=
  object_dict w' = object_dict w
  /\ detected_motor_id w' = detected_motor_id w
  /\ current_motor_id w' = current_motor_id w
  /\ motor_enabled w' = motor_enabled w.

(** An action that leaves the globals alone, whatever it does on the
    socket. *)
Definition keeps_globals {A} (m : IO world A) : Prop :=
  forall w, same_globals w (snd (m w)).

End Frames.


Module Discovery.
Import PP.

(** One turn of the scan loop for a node, up to the decision: the device
    type found, if any, with the 50 ms delay done unless the turn ends
    the scan (a motor drive) or was cut short by a failed [write]. *)
Definition probe_node (node_id : Z) : IO world (option Z) :=
  r <- on_sock (sock_write (probe_frame node_id)) ;;
  if r <? 0 then ret None
  else
    found <- on_sock (await_device_type node_id) ;;
    match found with
    | Some device_type =>
        if is_cia402_motor device_type then ret found
        else on_sock (usleep 50000) ;; ret found
    | None => on_sock (usleep 50000) ;; ret None
    end.

(** The turn found a CiA402 motor drive. *)
Definition is_hit (found : option Z) : bool :=
  match found with
  | Some device_type => is_cia402_motor device_type
  | None => false
  end.

(** Probed one after the other from [w], none of [nodes] is a hit. *)
Fixpoint all_miss (nodes : list Z) (w : world) : bool :=
  match nodes with
  | [] => true
  | node_id :: more =>
      let (found, w1) := probe_node node_id w in
      negb (is_hit found) && all_miss more w1
  end.

(** The state after the turns of [nodes]. *)
Definition after_turns (nodes : list Z) (w : world) : world :=
  fold_left (fun w node_id => snd (probe_node node_id w)) nodes w.

(** The frames a run has written, in order. *)
Definition writes_of (tr : list event) : list can_frame :=
  flat_map (fun e => match e with EvWrite f _ => [f] | _ => [] end) tr.

End Discovery.


Module Move.
Import PP.

(** What a run has written and how long it has slept, seen through
    [on_write] and [on_sleep]; frames read and printed lines count for
    nothing. *)
Definition tally {X} (on_write : can_frame -> list X) (on_sleep : Z -> list X)
    (tr : list event) : list X :=
  flat_map (fun e => match e with
                     | EvWrite f _ => on_write f
                     | EvSleep usec => on_sleep usec
                     | _ => []
                     end) tr.

(** An expedited download to object 0x6040. *)
Definition is_controlword_download (f : can_frame) : bool :=
  ((byte_at f 0 =? 0x2F) || (byte_at f 0 =? 0x2B) || (byte_at f 0 =? 0x23))
  && (byte_at f 1 =? 0x40) && (byte_at f 2 =? 0x60).

(** An upload request for object 0x6041. *)
Definition is_statusword_read (f : can_frame) : bool :=
  (byte_at f 0 =? 0x40) && (byte_at f 1 =? 0x41) && (byte_at f 2 =? 0x60).

(** The values written to the control word, in order. *)
Definition controlword_writes (tr : list event) : list Z :=
  tally (fun f => if is_controlword_download f then [payload_u32 f] else [])
        (fun _ => []) tr.

(** How many times the status word was asked for. *)
Definition status_polls (tr : list event) : Z :=
  Z.of_nat (List.length
              (tally (fun f => if is_statusword_read f then [tt] else [])
                     (fun _ => []) tr)).

(** How many 100 ms pauses were taken. *)
Definition poll_sleeps (tr : list event) : Z :=
  Z.of_nat (List.length
              (tally (fun _ => [])
                     (fun usec => if usec =? 100000 then [tt] else []) tr)).

(** The range check and steps 1 to 3 of [execute_position_move]:
    [Some new_control_word] once the control word with bit 4 set is
    written, [None] when the function has returned -1 before that. *)
Definition request_setpoint (target_position : Z) : IO world (option Z) :=
  if target_position >? MAX_POSITION then ret None
  else if target_position <? MIN_POSITION then ret None
  else
    read_sdo 0x6064 0 0 ;;
    r <- write_sdo 0x607A 0 (u32 target_position) ;;
    if r <? 0 then ret None
    else
      '(r, current_control_word) <- read_sdo 0x6040 0 0 ;;
      if r <? 0 then ret None
      else
        let new_control_word := u32 (Z.lor current_control_word 0x10) in
        r <- write_sdo 0x6040 0 new_control_word ;;
        if r <? 0 then ret None else ret (Some new_control_word).

(** The state in which step 2 reads the control word. *)
Definition before_controlword_read (target_position : Z) (w : world) : world :=
  snd (write_sdo 0x607A 0 (u32 target_position) (snd (read_sdo 0x6064 0 0 w))).

(** The value step 5 writes. *)
Definition release_value (new_control_word : Z) : Z :=
  Z.land new_control_word (not32 0x10).

(** Steps 6 and 7 and the end of the function, after the release write. *)
Definition finish_move (status_word : Z) : IO world Z :=
  wait_setpoint_clear 50 0 status_word ;;
  on_sock (usleep 1000000) ;;
  read_sdo 0x6064 0 0 ;;
  print_command_help ;;
  ret 0.

(** A status read that shows bit 12. *)
Definition ack_seen (r status_word : Z) : bool :=
  (r =? 0) && negb (Z.land status_word 0x1000 =? 0).

(** A status read that shows bit 12 cleared. *)
Definition clear_seen (r status_word : Z) : bool :=
  (r =? 0) && (Z.land status_word 0x1000 =? 0).

(** [k] polls of the status word in a row, 100 ms apart, none of which
    shows what [seen] looks for. *)
Fixpoint polls_unseen (seen : Z -> Z -> bool) (k : nat) (status_word : Z)
    (w : world) : bool :=
  match k with
  | O => true
  | S k' =>
      let '((r, sw), w1) := read_sdo 0x6041 0 status_word w in
      negb (seen r sw)
      && polls_unseen seen k' sw (snd (on_sock (usleep 100000) w1))
  end.

(** The polling loop of steps 4 and 6 with the test of the status word
    left open; [wait_setpoint_ack] and [wait_setpoint_clear] are its two
    instances ([wait_setpoint_ack_loop], [wait_setpoint_clear_loop]). *)
Fixpoint poll_loop (seen : Z -> Z -> bool) (fuel : nat)
    (timeout_count status_word : Z) : IO world (Z * Z) :=
  match fuel with
  | O => ret (timeout_count, status_word)
  | S fuel' =>
      if timeout_count <? 50 then
        '(r, sw) <- read_sdo 0x6041 0 status_word ;;
        if seen r sw then ret (timeout_count, sw)
        else
          on_sock (usleep 100000) ;;
          poll_loop seen fuel' (timeout_count + 1) sw
      else ret (timeout_count, status_word)
  end.

End Move.


Module SampleFrames.

(** Responses of node 2: an upload response carrying 0x1234, a download
    acknowledgment, two aborts with different codes (0x06090011 and
    0x08000000), and an upload response of node 3. *)
Definition upload_1234 : can_frame :=
  mk_frame 0x582 8 [0x43; 0x41; 0x60; 0x00; 0x34; 0x12; 0x00; 0x00].

Definition download_ack : can_frame :=
  mk_frame 0x582 8 [0x60; 0x40; 0x60; 0x00; 0x00; 0x00; 0x00; 0x00].

Definition abort_06090011 : can_frame :=
  mk_frame 0x582 8 [0x80; 0x40; 0x60; 0x00; 0x11; 0x00; 0x09; 0x06].

Definition abort_08000000 : can_frame :=
  mk_frame 0x582 8 [0x80; 0x40; 0x60; 0x00; 0x00; 0x00; 0x00; 0x08].

Definition upload_node3 : can_frame :=
  mk_frame 0x583 8 [0x43; 0x41; 0x60; 0x00; 0x78; 0x56; 0x00; 0x00].

(** Node 2 answering a read of 0x1000 with device type 0x00020192. *)
Definition device_type_reply : can_frame :=
  mk_frame 0x582 8 [0x43; 0x00; 0x10; 0x00; 0x92; 0x01; 0x02; 0x00].

(** The program's initial state (node 2) on a socket that delivers [rx]. *)
Definition hears (rx : list slice) : PP.world :=
  PP.initial_world (mk_bus rx [] []).

(** The state after [init_pp_mode] when the drive acknowledges each of
    its eight writes and then falls silent. *)
Definition initialised : PP.world :=
  snd (PP.init_pp_mode (hears (repeat (Received download_ack) 8))).

(** Node 2 reporting a control word 0x000F, an actual position 0, and
    status words with bit 12 clear (0x0237) and set (0x1237). *)
Definition controlword_000F : can_frame :=
  mk_frame 0x582 8 [0x4B; 0x40; 0x60; 0x00; 0x0F; 0x00; 0x00; 0x00].

Definition position_0 : can_frame :=
  mk_frame 0x582 8 [0x43; 0x64; 0x60; 0x00; 0x00; 0x00; 0x00; 0x00].

Definition status_0237 : can_frame :=
  mk_frame 0x582 8 [0x4B; 0x41; 0x60; 0x00; 0x37; 0x02; 0x00; 0x00].

Definition status_1237 : can_frame :=
  mk_frame 0x582 8 [0x4B; 0x41; 0x60; 0x00; 0x37; 0x12; 0x00; 0x00].

(** The drive's side of steps 1 to 3 of a move: position, acknowledgment
    of the target, control word, acknowledgment of the set-point. *)
Definition setpoint_accepted : list slice :=
  [Received position_0; Received download_ack;
   Received controlword_000F; Received download_ack].

(** A whole move: bit 12 set at the third poll, the release
    acknowledged, bit 12 still set twice and cleared at the third poll,
    then the two position reads. *)
Definition move_dialogue : list slice :=
  setpoint_accepted
  ++ [Received status_0237; Received status_0237; Received status_1237;
      Received download_ack;
      Received status_1237; Received status_1237; Received status_0237;
      Received position_0; Received position_0].

(** A move the drive accepts without ever acknowledging the set-point. *)
Definition unacknowledged : list slice := setpoint_accepted.

(** A move whose release is acknowledged but whose bit 12 never clears:
    the drive falls silent after the release. *)
Definition never_cleared : list slice :=
  setpoint_accepted ++ [Received status_1237; Received download_ack].

End SampleFrames.

(** ** More of libc: signed conversions and string offsets *)

Module CNumbers.

(** Conversion to [int]. *)
Definition s32 (x : Z) : Z := (x + 2 ^ 31) mod 2 ^ 32 - 2 ^ 31.

Definition LONG_MAX : Z := 2 ^ 63 - 1.
Definition LONG_MIN : Z := - 2 ^ 63.

(** [strtol] on the collected digits: saturation at [LONG_MAX] and
    [LONG_MIN]. *)
Definition strtol_value (neg : bool) (v : Z) : Z :=
  if neg then (if v >? 2 ^ 63 then LONG_MIN else - v)
  else (if v >? LONG_MAX then LONG_MAX else v).

(** [%d]: white space, an optional sign, decimal digits, stored in an
    [int]. *)
Definition scan_d (s : string) : option (Z * string) :=
  let '(_, neg, s1) := scan_sign (skip_ws s) in
  let '(v, n, r) := scan_digits ddigit 10 0 0%nat s1 in
  if (n =? 0)%nat then None else Some (s32 (strtol_value neg v), r).

(** [atoi(s)], that is [(int) strtol(s, NULL, 10)]: 0 when no number
    starts the text. *)
Definition atoi (s : string) : Z :=
  match scan_d s with
  | Some (v, _) => v
  | None => 0
  end.

(** [input[strcspn(input, "\n")] = 0]. *)
Fixpoint cut_lf (s : string) : string :=
  match s with
  | EmptyString => EmptyString
  | String c s' => if Ascii.eqb c LF then EmptyString else String c (cut_lf s')
  end.

Definition strlen (s : string) : Z := Z.of_nat (String.length s).

(** [s + n] for [n] within the string. *)
Fixpoint advance (n : nat) (s : string) : string :=
  match n, s with
  | O, _ => s
  | S n', String _ s' => advance n' s'
  | S _, EmptyString => EmptyString
  end.

End CNumbers.
Import CNumbers.

(** ** The rest of example/pp_mode_control.c: start-up, the command
    loop of [main] and the monitor *)

Module PPMain.
Import PP.

(** *** Choice of the node at start-up *)

(** The first part of [main]: [argv1] is the command-line argument when
    there is one, [stdin] what is typed otherwise.  [None] is
    [return 1]. *)
Definition choose_node (argv1 : option string) (stdin : string) : option Z :=
  match argv1 with
  | Some arg =>
      let input_id := atoi (cstr arg) in
      if (input_id >=? 1) && (input_id <=? 127) then Some (u8 input_id)
      else None
  | None =>
      match scan_d stdin with
      | Some (input_id, _) =>
          if (input_id >=? 1) && (input_id <=? 127) then Some (u8 input_id)
          else Some MOTOR_NODE_ID
      | None => Some MOTOR_NODE_ID
      end
  end.

(** [check_can_connection]: NMT start to all nodes. *)
Definition check_can_connection : IO world Z :=
  r <- on_sock (sock_write (mk_frame 0x000 2 [0x01; 0x00])) ;;
  if r <? 0 then ret (-1)
  else on_sock (usleep 500000) ;; ret 0.

(** *** The command loop *)

(** The motion parameters and [running], with the rest of the program's
    state. *)
Record session := mk_session {
  current_target_position : Z;
  current_profile_velocity : Z;
  current_profile_acceleration : Z;
  current_profile_deceleration : Z;
  running : Z;
  prog : world
}.

(** The session when [main] starts, on the program state [w]. *)
Definition initial_session (w : world) : session :=
  mk_session 0 5566 5566 5566 1 w.

Definition in_prog {A} (m : IO world A) : IO session A :=
  fun s =>
    let (a, w) := m (prog s) in
    (a, mk_session (current_target_position s) (current_profile_velocity s)
                   (current_profile_acceleration s) (current_profile_deceleration s)
                   (running s) w).

Definition set_target (v : Z) : IO session unit :=
  fun s => (tt, mk_session v (current_profile_velocity s)
                           (current_profile_acceleration s)
                           (current_profile_deceleration s) (running s) (prog s)).

Definition set_velocity (v : Z) : IO session unit :=
  fun s => (tt, mk_session (current_target_position s) v
                           (current_profile_acceleration s)
                           (current_profile_deceleration s) (running s) (prog s)).

Definition set_acceleration (v : Z) : IO session unit :=
  fun s => (tt, mk_session (current_target_position s) (current_profile_velocity s)
                           v (current_profile_deceleration s) (running s) (prog s)).

Definition set_deceleration (v : Z) : IO session unit :=
  fun s => (tt, mk_session (current_target_position s) (current_profile_velocity s)
                           (current_profile_acceleration s) v (running s) (prog s)).

Definition set_running (v : Z) : IO session unit :=
  fun s => (tt, mk_session (current_target_position s) (current_profile_velocity s)
                           (current_profile_acceleration s)
                           (current_profile_deceleration s) v (prog s)).

Definition get {A} (field : session -> A) : IO session A :=
  fun s => (field s, s).

(** [case '+'] and [case '-'] of the command switch, on [input[1]]. *)
Definition adjust_parameter (plus : bool) (which : ascii) : IO session unit :=
  if Ascii.eqb which "v" then
    v <- get current_profile_velocity ;;
    if plus then
      set_velocity (u32 (v + 100)) ;;
      in_prog (write_sdo 0x6081 0 (u32 (v + 100))) ;; ret tt
    else if v >? 100 then
      set_velocity (v - 100) ;;
      in_prog (write_sdo 0x6081 0 (v - 100)) ;; ret tt
    else ret tt
  else if Ascii.eqb which "a" then
    v <- get current_profile_acceleration ;;
    if plus then
      set_acceleration (u32 (v + 100)) ;;
      in_prog (write_sdo 0x6083 0 (u32 (v + 100))) ;; ret tt
    else if v >? 100 then
      set_acceleration (v - 100) ;;
      in_prog (write_sdo 0x6083 0 (v - 100)) ;; ret tt
    else ret tt
  else if Ascii.eqb which "d" then
    v <- get current_profile_deceleration ;;
    if plus then
      set_deceleration (u32 (v + 100)) ;;
      in_prog (write_sdo 0x6084 0 (u32 (v + 100))) ;; ret tt
    else if v >? 100 then
      set_deceleration (v - 100) ;;
      in_prog (write_sdo 0x6084 0 (v - 100)) ;; ret tt
    else ret tt
  else ret tt.

(** The body of [while (running)] in [main] for one line [buf] read by
    [fgets]. *)
Definition handle_command (buf : string) : IO session unit :=
  let input := cut_lf (cstr buf) in
  if strlen input =? 0 then ret tt
  else
    match input with
    | EmptyString => ret tt
    | String cmd rest =>
        let parsed_value :=
          if strlen input >? 2 then
            match scan_d (advance 2 input) with
            | Some (v, _) => v
            | None => 0
            end
          else 0 in
        if Ascii.eqb cmd "p" then
          if strlen input >? 2 then
            set_target parsed_value ;;
            in_prog (execute_position_move parsed_value) ;; ret tt
          else ret tt
        else if Ascii.eqb cmd "v" then
          (if parsed_value >? 0 then
             set_velocity (u32 parsed_value) ;;
             in_prog (write_sdo 0x6081 0 (u32 parsed_value)) ;; ret tt
           else ret tt) ;;
          in_prog print_command_help
        else if Ascii.eqb cmd "a" then
          (if parsed_value >? 0 then
             set_acceleration (u32 parsed_value) ;;
             in_prog (write_sdo 0x6083 0 (u32 parsed_value)) ;; ret tt
           else ret tt) ;;
          in_prog print_command_help
        else if Ascii.eqb cmd "d" then
          (if parsed_value >? 0 then
             set_deceleration (u32 parsed_value) ;;
             in_prog (write_sdo 0x6084 0 (u32 parsed_value)) ;; ret tt
           else ret tt) ;;
          in_prog print_command_help
        else if Ascii.eqb cmd "+" then
          match rest with
          | String which _ => adjust_parameter true which
          | EmptyString => ret tt
          end
        else if Ascii.eqb cmd "-" then
          match rest with
          | String which _ => adjust_parameter false which
          | EmptyString => ret tt
          end
        else if Ascii.eqb cmd "s" then
          in_prog (write_sdo 0x6040 0 0x06) ;;
          in_prog print_command_help
        else if Ascii.eqb cmd "q" then set_running 0
        else ret tt
    end.

(** What follows the loop in [main]: the shutdown write. *)
Definition shutdown : IO session Z :=
  in_prog (write_sdo 0x6040 0 0x06) ;;
  in_prog (on_sock (usleep 200000)) ;;
  ret 0.

(** *** The monitor *)




End PPMain.

(** ** The rest of example/quick_scan.c: the detailed read and the scan
    loop of [main] *)

Module QuickScanMain.
Import QuickScan.



(** [max_nodes] as [main] sets it from its second argument. *)
Definition max_nodes_of (argv2 : option string) : Z :=
  match argv2 with
  | None => 20
  | Some a => let m := atoi (cstr a) in if m >? 127 then 127 else m
  end.

(** The scan loop of [main] over the node ids still to visit, when no
    signal stops it: the final [found_count]. *)
Fixpoint scan_nodes (nodes : list Z) (found_count : Z) : IO bus Z :=
  match nodes with
  | [] => ret found_count
  | node_id :: more =>
      r <- quick_scan_node (u8 node_id) ;;
      usleep 10000 ;;
      scan_nodes more (if r =? 0 then found_count + 1 else found_count)
  end.

(** [for (int node_id = 1; node_id <= max_nodes; node_id++)]. *)
Definition quick_scan (max_nodes : Z) : IO bus Z :=
  scan_nodes (map Z.of_nat (seq 1 (Z.to_nat max_nodes))) 0.

End QuickScanMain.

(** ** Vocabulary for the further properties *)

Module Further.
Import PP Eds.

(** The sizes [get_data_type_size] can give. *)
Definition wire_size (n : Z) : Prop := n = 1 \/ n = 2 \/ n = 4 \/ n = 8.


(** The next [write] on the socket will not fail. *)
Definition send_ok (b : bus) : bool :=
  match wr b with
  | [] => true
  | r :: _ => 0 <=? r
  end.

(** The upload response of [node] that carries back bytes 1..7 of the
    request [f]. *)
Definition echo_of (node : Z) (f : can_frame) : can_frame :=
  mk_frame (0x580 + node) 8 (0x43 :: tl (data f)).

(** The frames written and the pauses taken by a run, in order. *)
Definition acts (tr : list event) : list (can_frame + Z) :=
  Move.tally (fun f => [inl f]) (fun usec => [inr usec]) tr.

(** The two states build the same request frames: same table, same
    node. *)
Definition same_wire (w w' : world) : Prop :=
  object_dict w' = object_dict w /\ current_motor_id w' = current_motor_id w.

(** An action that only adds to what was written and slept. *)
Definition grows {A} (m : IO world A) : Prop :=
  forall w, exists more,
    acts (trace (sock (snd (m w)))) = acts (trace (sock w)) ++ more.

(** An action that writes the frames and takes the pauses [L w], in this
    order, whatever the socket delivers, and keeps table and node. *)
Definition plays {A} (m : IO world A) (L : world -> list (can_frame + Z)) : Prop :=
  forall w,
    same_wire w (snd (m w))
    /\ acts (trace (sock (snd (m w)))) = acts (trace (sock w)) ++ L w.

(** A list of frames and pauses that depends on table and node only. *)
Definition wire_stable (L : world -> list (can_frame + Z)) : Prop :=
  forall w w', same_wire w w' -> L w' = L w.

(** The NMT frame [send_nmt_command] writes. *)
Definition nmt_frame (command node_id : Z) : can_frame :=
  mk_frame 0x000 2 [command; node_id].

End Further.

(** ** Vocabulary for the command loop *)

Module Commands.
Import PP PPMain Further.

(** The argument of a command: what [sscanf(input + 2, "%d", ...)]
    leaves in [parsed_value], for the text [rest] after the command
    letter ([parsed_value] starts at 0 and the call is made only when
    [strlen(input) > 2]). *)
Definition argument_of (rest : string) : Z :=
  match rest with
  | String _ (String x r) =>
      match scan_d (String x r) with
      | Some (v, _) => v
      | None => 0
      end
  | _ => 0
  end.

(** The object behind each of the parameter letters v, a and d. *)
Definition parameter_object (which : ascii) : option Z :=
  if Ascii.eqb which "v" then Some 0x6081
  else if Ascii.eqb which "a" then Some 0x6083
  else if Ascii.eqb which "d" then Some 0x6084
  else None.

(** The variable behind each of the parameter letters. *)
Definition parameter_of (which : ascii) (s : session) : Z :=
  if Ascii.eqb which "v" then current_profile_velocity s
  else if Ascii.eqb which "a" then current_profile_acceleration s
  else current_profile_deceleration s.

(** The index a request frame carries in bytes 1 and 2. *)
Definition object_of (f : can_frame) : Z := byte_at f 1 + 256 * byte_at f 2.

(** Expedited download requests of 1, 2 and 4 bytes; upload requests. *)
Definition is_download (f : can_frame) : bool :=
  (byte_at f 0 =? 0x2F) || (byte_at f 0 =? 0x2B) || (byte_at f 0 =? 0x23).

Definition is_upload (f : can_frame) : bool := byte_at f 0 =? 0x40.

(** The download requests for object [idx] among the frames written. *)
Definition downloads_to (idx : Z) (tr : list event) : list can_frame :=
  flat_map (fun a => match a with
                     | inl f => if is_download f && (object_of f =? idx)
                                then [f] else []
                     | inr _ => []
                     end) (acts tr).

(** What a position move may put on the bus: reads of the actual
    position, the control word and the status word, downloads of the
    target position and the control word; and the pauses it may take. *)
Definition move_action (a : can_frame + Z) : bool :=
  match a with
  | inl f =>
      (can_dlc f =? 8)
      && (is_upload f
          && ((object_of f =? 0x6064) || (object_of f =? 0x6040)
              || (object_of f =? 0x6041))
          || is_download f
             && ((object_of f =? 0x607A) || (object_of f =? 0x6040)))
  | inr usec => (usec =? 100000) || (usec =? 1000000)
  end.

(** An action that adds only frames and pauses that pass [allowed]. *)
Definition emits {A} (allowed : can_frame + Z -> bool) (m : IO world A) : Prop :=
  forall w, exists more,
    acts (trace (sock (snd (m w)))) = acts (trace (sock w)) ++ more
    /\ forallb allowed more = true.

End Commands.

(** ** Vocabulary for the scanner *)

Module Scan.
Import QuickScan QuickScanMain Sdo.

(** The test [quick_scan_node] makes on the device type it has read. *)
Definition accepts_device_type (data : Z) : bool :=
  let device_type := u16 (Z.land data 0xFFFF) in
  negb (negb (device_type =? 0x92) && negb (device_type =? 0x0192)).

(** The upload responses of [node_id] among the frames read. *)
Definition answers (node_id : Z) (tr : list event) : list can_frame :=
  flat_map (fun e => match e with
                     | EvRead f => if upload_response_of node_id f then [f] else []
                     | _ => []
                     end) tr.


(** The pauses taken, in order. *)
Definition sleeps_of (tr : list event) : list Z :=
  flat_map (fun e => match e with EvSleep usec => [usec] | _ => [] end) tr.

End Scan.

(** ** [main] of example/pp_mode_control.c, from the arguments to the
    exit *)

Module PPRun.
Import PP PPMain Further.

(** [while (running)] over the lines [fgets] delivers, one command
    each. *)
Fixpoint command_loop (lines : list string) : IO session unit :=
  match lines with
  | [] => ret tt
  | buf :: more =>
      fun s =>
        if running s =? 0 then (tt, s)
        else (handle_command buf ;; command_loop more) s
  end.

(** [main], once the CAN socket is opened and bound on [b]: [argv1] and
    [stdin] as for [choose_node], [eds] the content of the EDS file as
    for [parse_eds_file], [lines] what the command loop reads.  The
    result is the exit status, or [None] when the input ends with the
    loop still running: [fgets] then returns [NULL] for ever and the
    loop spins.  Signals are not part of the model. *)
Definition main_run (argv1 : option string) (stdin : string)
    (eds : option string) (lines : list string) (b : bus) : option Z * world :=
  match choose_node argv1 stdin with
  | None => (Some 1, initial_world b)
  | Some node =>
      let w0 := set_motor_ids (detected_motor_id (initial_world b)) node
                              (initial_world b) in
      let w1 := snd (parse_eds_file eds w0) in
      let (r, w2) := check_can_connection w1 in
      if r <? 0 then (Some 1, w2)
      else
        let (r, w3) := init_pp_mode w2 in
        if r <? 0 then (Some 1, w3)
        else
          let w4 := snd (print_command_help w3) in
          let s := snd (command_loop lines (initial_session w4)) in
          if running s =? 0 then (Some 0, prog (snd (shutdown s)))
          else (None, prog s)
  end.

(** A frame the program may write when it drives [node]: an NMT frame
    (COB-ID 0, two bytes) or an SDO request to the node (COB-ID
    0x600 + node, eight bytes). *)
Definition addressed (node : Z) (a : can_frame + Z) : bool :=
  match a with
  | inl f =>
      (can_id f =? 0x000) && (can_dlc f =? 2)
      || (can_id f =? 0x600 + node) && (can_dlc f =? 8)
  | inr _ => true
  end.

(** An action that, run for [node], stays with it, records no detected
    node and writes only frames [addressed] to it. *)
Definition sends_to {A} (node : Z) (m : IO world A) : Prop :=
  forall w, current_motor_id w = node ->
    current_motor_id (snd (m w)) = node
    /\ detected_motor_id (snd (m w)) = detected_motor_id w
    /\ exists more,
         acts (trace (sock (snd (m w)))) = acts (trace (sock w)) ++ more
         /\ forallb (addressed node) more = true.

(** A line that starts with the letter q. *)
Definition quits (buf : string) : bool := String.prefix "q" (cut_lf (cstr buf)).

End PPRun.

(** * Properties *)

(** ** Reading the file *)

Section FileLines.

Lemma fgets_chars_split (room : nat) (f : string) :
  (fst (fgets_chars room f) ++ snd (fgets_chars room f))%string = f.
Proof.
  revert f; induction room as [|room IH]; intros f; simpl.
  - reflexivity.
  - destruct f as [|c f']; simpl; [reflexivity|].
    destruct (Ascii.eqb c LF); simpl; [reflexivity|].
    specialize (IH f'). destruct (fgets_chars room f') as [l r]; simpl in *.
    now rewrite IH.
Qed.

Lemma fgets_chars_progress (room : nat) (c : ascii) (f : string) :
  (String.length (snd (fgets_chars (S room) (String c f))) <= String.length f)%nat.
Proof.
  revert c f; induction room as [|room IH]; intros c f; simpl.
  - destruct (Ascii.eqb c LF); simpl; lia.
  - destruct (Ascii.eqb c LF); simpl; [lia|].
    destruct f as [|d f']; simpl; [lia|].
    specialize (IH d f'). simpl in IH.
    destruct (Ascii.eqb d LF); simpl in *; [lia|].
    destruct (fgets_chars room f') as [l r]; simpl in *. lia.
Qed.

Lemma concat_nosep_cons (x : string) (xs : list string) :
  String.concat "" (x :: xs) = (x ++ String.concat "" xs)%string.
Proof.
  destruct xs as [|y ys]; simpl.
  - induction x; simpl; congruence.
  - reflexivity.
Qed.

(** The buffers handed to the loop body, put end to end, are the file:
    the loop stops at the end of the file and on nothing else. *)
Lemma read_lines_concat (fuel : nat) (size : nat) (f : string) :
  (2 <= size)%nat -> (String.length f <= fuel)%nat ->
  String.concat "" (read_lines fuel size f) = f.
Proof.
  intros Hsize. revert f; induction fuel as [|fuel IH]; intros f Hlen.
  - destruct f; simpl in *; [reflexivity|lia].
  - destruct f as [|c f']; [reflexivity|].
    cbn [read_lines fgets].
    destruct size as [|[|room]]; try lia. cbn [Nat.pred].
    pose proof (fgets_chars_split (S room) (String c f')) as Hs.
    pose proof (fgets_chars_progress room c f') as Hp.
    destruct (fgets_chars (S room) (String c f')) as [l r]; simpl fst in *; simpl snd in *.
    rewrite concat_nosep_cons, IH by (simpl in Hlen; lia).
    exact Hs.
Qed.

Lemma file_lines_concat (f : string) :
  String.concat "" (file_lines 256 f) = f.
Proof. apply read_lines_concat; lia. Qed.

End FileLines.


(** ** The object dictionary *)

Section ObjectDictionary.
Import PP Eds.

(** What one buffer does to the table: nothing, or one entry appended
    from the parser's current section. *)
Lemma parse_line_dict (buf : string) (st : eds_state) :
  dict (parse_line buf st) = dict st
  \/ (dict (parse_line buf st)
      = dict st ++ [mk_entry (current_index st) (current_subindex st)
                             (get_data_type_size (current_data_type st))]
      /\ current_index (parse_line buf st) = current_index st
      /\ current_data_type st > 0
      /\ (List.length (dict st) < 100)%nat).
Proof.
  unfold parse_line.
  destruct (section_header (cut_eol (cstr buf))) as [oid|].
  - destruct (strstr oid "sub").
    + destruct (sscanf_index_sub _ _ _); simpl; auto.
    + simpl; auto.
  - destruct (in_object st && strstr _ "DataType="); [simpl; auto|].
    destruct (in_object st && strstr _ "AccessType="); [|auto].
    destruct (current_data_type st >? 0) eqn:Hdt; simpl; [|auto].
    destruct (Z.of_nat (List.length (dict st)) <? 100) eqn:Hc; simpl; [|auto].
    right. repeat split; lia.
Qed.

Lemma parse_lines_cons (l : string) (lines : list string) (st : eds_state) :
  parse_lines (l :: lines) st = parse_lines lines (parse_line l st).
Proof. reflexivity. Qed.

(** The table only grows at its end. *)
Lemma parse_lines_extends (lines : list string) (st : eds_state) :
  exists more, dict (parse_lines lines st) = dict st ++ more.
Proof.
  revert st; induction lines as [|l lines IH]; intros st.
  - exists []. now rewrite app_nil_r.
  - rewrite parse_lines_cons.
    destruct (IH (parse_line l st)) as [more Hm]. rewrite Hm.
    destruct (parse_line_dict l st) as [E|[E _]]; rewrite E.
    + now exists more.
    + rewrite <- app_assoc. now eexists.
Qed.

Lemma parse_line_controlword_inv (buf : string) (st : eds_state) :
  controlword_inv st -> controlword_inv (parse_line buf st).
Proof.
  intros [Hd Hc]. unfold parse_line.
  destruct (section_header (cut_eol (cstr buf))) as [oid|].
  - destruct (strstr oid "sub").
    + destruct (sscanf_index_sub _ _ _); split; simpl; auto.
    + split; simpl; auto.
  - destruct (in_object st && strstr _ "DataType=").
    + split; simpl; [exact Hd|].
      intros E. rewrite E. simpl. now right.
    + destruct (in_object st && strstr _ "AccessType="); [|now split].
      split; simpl; [|exact Hc].
      destruct ((current_data_type st >? 0) && _) eqn:G; [|exact Hd].
      apply andb_prop in G as [G _].
      apply Forall_app; split; [exact Hd|].
      constructor; [|constructor]. simpl. intros E.
      destruct (Hc E) as [Z0|Z6]; rewrite ?Z0, ?Z6 in *; [discriminate|reflexivity].
Qed.

Lemma parse_lines_controlword_inv (lines : list string) (st : eds_state) :
  controlword_inv st -> controlword_inv (parse_lines lines st).
Proof.
  revert st; induction lines as [|l lines IH]; intros st H; [exact H|].
  rewrite parse_lines_cons. apply IH, parse_line_controlword_inv, H.
Qed.

Lemma get_object_size_controlword (d : list object_dict_entry_t) (sub : Z) :
  Forall (fun e => index e = 0x6040 -> data_size e = 2) d ->
  get_object_size d 0x6040 sub = 2.
Proof.
  intros H. unfold get_object_size.
  destruct (find _ d) as [e|] eqn:F; [|reflexivity].
  apply find_some in F as [Hin Hk].
  apply andb_prop in Hk as [Hi _]. apply Z.eqb_eq in Hi.
  rewrite Forall_forall in H. now apply H.
Qed.

(** Lookup of a key whose first entry is [e]. *)
Lemma get_object_size_first (d more : list object_dict_entry_t) (e : object_dict_entry_t) :
  absent d (index e) (subindex e) ->
  get_object_size (d ++ e :: more) (index e) (subindex e) = data_size e.
Proof.
  unfold absent, get_object_size. intros H.
  induction d as [|x d IH]; simpl in *.
  - now rewrite !Z.eqb_refl.
  - destruct ((index x =? index e) && (subindex x =? subindex e)); [discriminate|].
    now apply IH.
Qed.

Lemma parse_lines_app (l1 l2 : list string) (st : eds_state) :
  parse_lines (l1 ++ l2) st = parse_lines l2 (parse_lines l1 st).
Proof. unfold parse_lines. apply fold_left_app. Qed.

Lemma parse_line_plain (buf : string) (st : eds_state) :
  plain_line buf = true -> parse_line buf st = st.
Proof.
  unfold plain_line, parse_line, text.
  destruct (section_header _); [discriminate|].
  intros H. apply andb_prop in H as [H1 H2].
  apply negb_true_iff in H1, H2. rewrite H1, H2.
  now rewrite !andb_false_r.
Qed.

Lemma parse_lines_plain (lines : list string) (st : eds_state) :
  Forall (fun l => plain_line l = true) lines -> parse_lines lines st = st.
Proof.
  induction 1 as [|l lines Hl _ IH]; [reflexivity|].
  now rewrite parse_lines_cons, parse_line_plain.
Qed.

Lemma parse_line_header (buf : string) (st : eds_state) (i s : Z) :
  header_key buf = Some (i, s) ->
  parse_line buf st = mk_eds i s 0 true (dict st).
Proof.
  unfold header_key, parse_line, text.
  destruct (section_header _) as [oid|]; [|discriminate].
  unfold sscanf_index_sub, sscanf_index.
  destruct (scan_hx oid) as [[i' r]|]; [|discriminate].
  destruct (strstr oid "sub").
  - destruct (scan_lit "sub" r) as [r'|]; [|discriminate].
    destruct (scan_hhu r') as [[s' ?]|]; [|discriminate].
    now intros [= -> ->].
  - now intros [= -> ->].
Qed.

Lemma parse_line_data_type (buf : string) (st : eds_state) (d : Z) :
  declared_type buf = Some d -> in_object st = true ->
  parse_line buf st
  = mk_eds (current_index st) (current_subindex st)
           (if current_index st =? 0x6040 then 0x0006 else d) true (dict st).
Proof.
  unfold declared_type, parse_line, text.
  destruct (section_header _); [discriminate|].
  destruct (strstr _ "DataType="); [|discriminate].
  unfold sscanf_data_type.
  destruct (scan_lit "DataType=0x" _) as [r|]; [|discriminate].
  destruct (scan_hx r) as [[v ?]|]; [|discriminate].
  intros [= ->] ->. reflexivity.
Qed.

Lemma parse_line_access (buf : string) (st : eds_state) :
  access_line buf = true -> in_object st = true ->
  current_data_type st > 0 -> (List.length (dict st) < 100)%nat ->
  dict (parse_line buf st)
  = dict st ++ [mk_entry (current_index st) (current_subindex st)
                         (get_data_type_size (current_data_type st))].
Proof.
  unfold access_line, parse_line, text.
  destruct (section_header _); [discriminate|].
  intros H Hin Hdt Hlen. apply andb_prop in H as [H1 H2].
  apply negb_true_iff in H1. rewrite H1, H2, Hin. simpl.
  replace (current_data_type st >? 0) with true by (symmetry; apply Z.gtb_lt; lia).
  replace (Z.of_nat (List.length (dict st)) <? 100) with true
    by (symmetry; apply Z.ltb_lt; lia).
  reflexivity.
Qed.

End ObjectDictionary.


Section ObjectDictionaryClaims.
Import PP Eds Samples.

(** C7 (the code departs from the claim at REAL32): [get_data_type_size]
    is the size table of the specification for every type code except
    0x0008 (REAL32), which it maps to 8 bytes where the specification
    says 4. *)
Theorem get_data_type_size_real32 :
  (forall data_type : Z,
      get_data_type_size data_type
      = if data_type =? 0x0008 then 8 else dataTypeToSize data_type)
  /\ get_data_type_size 0x0008 = 8
  /\ dataTypeToSize 0x0008 = 4.
Proof.
  split; [|split; reflexivity].
  intros dt. unfold get_data_type_size, dataTypeToSize.
  destruct (dt =? 0x0001) eqn:E1; [apply Z.eqb_eq in E1; now subst|].
  destruct (dt =? 0x0002) eqn:E2; [apply Z.eqb_eq in E2; now subst|].
  destruct (dt =? 0x0003) eqn:E3; [apply Z.eqb_eq in E3; now subst|].
  destruct (dt =? 0x0004) eqn:E4; [apply Z.eqb_eq in E4; now subst|].
  destruct (dt =? 0x0005) eqn:E5; [apply Z.eqb_eq in E5; now subst|].
  destruct (dt =? 0x0006) eqn:E6; [apply Z.eqb_eq in E6; now subst|].
  destruct (dt =? 0x0007) eqn:E7; [apply Z.eqb_eq in E7; now subst|].
  destruct (dt =? 0x0008) eqn:E8; reflexivity.
Qed.

(** C8: whatever the EDS file holds, and also when it cannot be opened,
    [get_object_size] answers 2 for object 0x6040 at every subindex once
    [parse_eds_file] has run on the program's initial state. *)
Theorem controlword_size_is_2 (file : option string) (b : bus) (sub : Z) :
  get_object_size
    (object_dict (snd (parse_eds_file file (initial_world b)))) 0x6040 sub = 2.
Proof.
  apply get_object_size_controlword.
  destruct file as [f|]; simpl; [|constructor].
  apply (parse_lines_controlword_inv (file_lines 256 f) (mk_eds 0 0 0 false [])).
  split; simpl; [constructor|discriminate].
Qed.

(** C6 (amended): an EDS entry - a section header for [(i, s)], a
    [DataType=0x] line declaring [d] and an [AccessType=] line, with
    other lines of the section in between - decides the size
    [get_object_size] returns for [(i, s)], namely
    [get_data_type_size d], provided the object is not 0x6040, [d] is not
    0, and at the entry's [AccessType=] line the table holds fewer than
    100 entries and none for [(i, s)] yet. *)
Theorem eds_entry_size_within_table
    (f : string) (pre mid1 mid2 post : list string) (hdr dtl acl : string)
    (i s d : Z) (b : bus) :
  file_lines 256 f = pre ++ [hdr] ++ mid1 ++ [dtl] ++ mid2 ++ [acl] ++ post ->
  header_key hdr = Some (i, s) ->
  Forall (fun l => plain_line l = true) mid1 ->
  declared_type dtl = Some d ->
  Forall (fun l => plain_line l = true) mid2 ->
  access_line acl = true ->
  i <> 0x6040 -> 0 < d ->
  (List.length (dict (parse_lines pre (mk_eds 0 0 0 false []))) < 100)%nat ->
  absent (dict (parse_lines pre (mk_eds 0 0 0 false []))) i s ->
  get_object_size
    (object_dict (snd (parse_eds_file (Some f) (initial_world b)))) i s
  = get_data_type_size d.
Proof.
  intros Hf Hh Hm1 Hd Hm2 Ha Hi Hpos Hlen Habs.
  cbn [parse_eds_file snd set_object_dict object_dict initial_world].
  rewrite Hf. rewrite !parse_lines_app.
  set (st0 := parse_lines pre _) in *.
  change (parse_lines [hdr] st0) with (parse_line hdr st0).
  rewrite (parse_line_header _ _ _ _ Hh), (parse_lines_plain _ _ Hm1).
  set (st1 := mk_eds i s 0 true (dict st0)).
  change (parse_lines [dtl] st1) with (parse_line dtl st1).
  rewrite (parse_line_data_type dtl st1 d Hd eq_refl).
  cbn [current_index current_subindex dict st1].
  replace (i =? 0x6040) with false by (symmetry; now apply Z.eqb_neq).
  rewrite (parse_lines_plain _ _ Hm2).
  set (st2 := mk_eds i s d true (dict st0)).
  change (parse_lines [acl] st2) with (parse_line acl st2).
  destruct (parse_lines_extends post (parse_line acl st2)) as [more Hmore].
  rewrite Hmore, (parse_line_access acl st2 Ha eq_refl); cbn [st2 current_data_type dict];
    [|lia|exact Hlen].
  cbn [current_index current_subindex]. rewrite <- app_assoc. simpl app.
  apply (get_object_size_first (dict st0) more (mk_entry i s (get_data_type_size d))).
  exact Habs.
Qed.

(** The amended C6 at the second entry of a two-entry file. *)
Lemma eds_entry_size_within_table_witness :
  get_object_size
    (object_dict (snd (parse_eds_file (Some eds_two) (initial_world silent_bus))))
    0x607A 0
  = get_data_type_size 0x0004.
Proof.
  apply (eds_entry_size_within_table eds_two
           (firstn 4 (file_lines 256 eds_two))
           [nth 5 (file_lines 256 eds_two) ""%string] [] []
           (nth 4 (file_lines 256 eds_two) ""%string)
           (nth 6 (file_lines 256 eds_two) ""%string)
           (nth 7 (file_lines 256 eds_two) ""%string)).
  - reflexivity.
  - reflexivity.
  - repeat constructor.
  - reflexivity.
  - constructor.
  - reflexivity.
  - discriminate.
  - reflexivity.
  - vm_compute. lia.
  - reflexivity.
Defined.

(** C6 as stated fails: in a file of 101 entries the last one,
    0x2000sub100 declared UNSIGNED8 (1 byte), is not stored, and
    [get_object_size] answers the default 4. *)
Lemma eds_entry_beyond_table_gets_default :
  let lines := file_lines 256 (eds_many 101) in
  lines = firstn 400 lines
          ++ [nth 400 lines ""%string] ++ [nth 401 lines ""%string]
          ++ [nth 402 lines ""%string] ++ [] ++ [nth 403 lines ""%string] ++ []
  /\ header_key (nth 400 lines ""%string) = Some (0x2000, 100)
  /\ plain_line (nth 401 lines ""%string) = true
  /\ declared_type (nth 402 lines ""%string) = Some 0x0005
  /\ access_line (nth 403 lines ""%string) = true
  /\ get_data_type_size 0x0005 = 1
  /\ get_object_size
       (object_dict (snd (parse_eds_file (Some (eds_many 101))
                                         (initial_world silent_bus))))
       0x2000 100 = 4.
Proof. vm_compute. repeat split; reflexivity. Qed.

End ObjectDictionaryClaims.


(** ** Bytes and words *)

Section Bytes.

Lemma land_255 (x : Z) : Z.land x 0xFF = x mod 256.
Proof. apply (Z.land_ones x 8). lia. Qed.

Lemma u8_low_byte (x : Z) : u8 (Z.land x 0xFF) = x mod 256.
Proof.
  unfold u8. rewrite land_255. change (2 ^ 8) with 256.
  apply Z.mod_mod. lia.
Qed.

Lemma u8_byte_of (x : Z) (k : Z) :
  0 <= k -> u8 (Z.land (Z.shiftr x k) 0xFF) = (x / 2 ^ k) mod 256.
Proof. intros Hk. rewrite u8_low_byte, Z.shiftr_div_pow2 by exact Hk. reflexivity. Qed.

Lemma u8_small (x : Z) : 0 <= x < 256 -> u8 x = x.
Proof. intros H. apply Z.mod_small. exact H. Qed.

Lemma u32_small (x : Z) : 0 <= x < 2 ^ 32 -> u32 x = x.
Proof. intros H. apply Z.mod_small. exact H. Qed.

Lemma u32_range (x : Z) : 0 <= u32 x < 2 ^ 32.
Proof. apply Z.mod_pos_bound. lia. Qed.

(** [a | (b << n)] is [a + b * 2^n] when [a] fits in [n] bits. *)
Lemma lor_shiftl_add (a b n : Z) :
  0 <= n -> 0 <= a < 2 ^ n -> Z.lor a (Z.shiftl b n) = a + b * 2 ^ n.
Proof.
  intros Hn Ha.
  assert (Hland : Z.land a (Z.shiftl b n) = 0).
  { apply Z.bits_inj'. intros k Hk.
    rewrite Z.land_spec, Z.bits_0.
    destruct (Z.lt_ge_cases k n) as [Hlt|Hge].
    - rewrite (Z.shiftl_spec_low b n k Hlt). apply andb_false_r.
    - replace (Z.testbit a k) with false; [reflexivity|].
      symmetry. destruct (Z.eq_dec a 0) as [->|Hnz]; [apply Z.bits_0|].
      apply Z.bits_above_log2; [lia|].
      apply Z.lt_le_trans with n; [|exact Hge].
      apply Z.log2_lt_pow2; lia. }
  rewrite <- Z.lxor_lor by exact Hland.
  rewrite <- Z.add_nocarry_lxor by exact Hland.
  now rewrite Z.shiftl_mul_pow2.
Qed.

(** Bytes 4..7 read little-endian. *)
Lemma payload_u32_le (f : can_frame) :
  0 <= byte_at f 4 < 256 -> 0 <= byte_at f 5 < 256 ->
  0 <= byte_at f 6 < 256 -> 0 <= byte_at f 7 < 256 ->
  payload_u32 f
  = byte_at f 4 + 2 ^ 8 * byte_at f 5 + 2 ^ 16 * byte_at f 6
    + 2 ^ 24 * byte_at f 7.
Proof.
  intros H4 H5 H6 H7. unfold payload_u32.
  rewrite (lor_shiftl_add (byte_at f 4) _ 8) by lia.
  rewrite (lor_shiftl_add _ (byte_at f 6) 16) by lia.
  rewrite (lor_shiftl_add _ (byte_at f 7) 24) by lia.
  rewrite u32_small by lia. lia.
Qed.

Lemma byte_frame_at (f : can_frame) (i : nat) :
  Sdo.byte_frame f -> 0 <= byte_at f i < 256.
Proof.
  unfold Sdo.byte_frame, byte_at. intros H.
  destruct (Nat.lt_ge_cases i (List.length (data f))) as [Hlt|Hge].
  - rewrite Forall_forall in H. apply H, nth_In, Hlt.
  - rewrite nth_overflow by exact Hge. lia.
Qed.

(** The four bytes [send_sdo_request] stores for a 32-bit value. *)
Lemma split_u32 (v : Z) :
  0 <= v < 2 ^ 32 ->
  v mod 256 + 2 ^ 8 * ((v / 2 ^ 8) mod 256) + 2 ^ 16 * ((v / 2 ^ 16) mod 256)
  + 2 ^ 24 * ((v / 2 ^ 24) mod 256) = v
  /\ (v / 2 ^ 24) mod 256 = v / 2 ^ 24.
Proof.
  intros Hv.
  change (2 ^ 8) with 256. change (2 ^ 16) with 65536. change (2 ^ 24) with 16777216.
  change (2 ^ 32) with 4294967296 in Hv.
  Z.to_euclidean_division_equations. lia.
Qed.

End Bytes.


(** ** SDO requests *)

Section SdoRequest.
Import PP Sdo.

Lemma on_sock_sock {A} (m : IO bus A) (w : world) :
  on_sock m w = (fst (m (sock w)), with_sock (snd (m (sock w))) w).
Proof. unfold on_sock. now destruct (m (sock w)). Qed.

Lemma sock_write_trace (f : can_frame) (b : bus) :
  trace (snd (sock_write f b)) = trace b ++ [EvWrite f (fst (sock_write f b))]
  /\ rx (snd (sock_write f b)) = rx b.
Proof. unfold sock_write. now destruct (wr b). Qed.

(** The value a download request carries in bytes 4..7. *)
Lemma request_payload (w : world) (idx sub value : Z) :
  0 <= value < 2 ^ 32 ->
  payload_u32 (sdo_request_frame w idx sub value 1) = value.
Proof.
  intros Hv. destruct (split_u32 value Hv) as [Hsum H7].
  rewrite payload_u32_le; unfold sdo_request_frame, byte_at; cbn [negb Z.eqb data nth];
    rewrite ?u8_low_byte, ?Z.shiftr_div_pow2 by lia;
    try (apply Z.mod_pos_bound; lia).
  exact Hsum.
Qed.

(** C1: the frame [send_sdo_request] writes.  For a write the command
    byte is 0x2F, 0x2B or 0x23 for an object size of 1, 2 or 4, bytes 1-2
    are the index low byte first, byte 3 the subindex, bytes 4-7 the
    32-bit value low byte first whatever the size; for a read the command
    byte is 0x40 and bytes 4-7 are 0.  The request of quick_scan.c, [q],
    is always the read form. *)
Theorem sdo_request_encoding (w : world) (node idx sub value is_write : Z) :
  0 <= idx < 2 ^ 16 -> 0 <= sub < 2 ^ 8 -> 0 <= value < 2 ^ 32 ->
  let f := PP.sdo_request_frame w idx sub value is_write in
  let q := QuickScan.sdo_request_frame node idx sub in
  let size := get_object_size (object_dict w) idx sub in
  trace (sock (snd (PP.send_sdo_request idx sub value is_write w)))
  = trace (sock w)
    ++ [EvWrite f (fst (PP.send_sdo_request idx sub value is_write w))]
  /\ (forall b : bus,
        trace (snd (QuickScan.send_sdo_request node idx sub b))
        = trace b ++ [EvWrite q (fst (QuickScan.send_sdo_request node idx sub b))])
  /\ (can_id f = 0x600 + current_motor_id w /\ can_id q = 0x600 + node)
  /\ (List.length (data f) = 8%nat /\ List.length (data q) = 8%nat)
  /\ (byte_at f 1 = idx mod 256 /\ byte_at f 2 = idx / 256 /\ byte_at f 3 = sub)
  /\ (byte_at q 1 = idx mod 256 /\ byte_at q 2 = idx / 256 /\ byte_at q 3 = sub)
  /\ (is_write <> 0 ->
      (size = 1 -> byte_at f 0 = 0x2F)
      /\ (size = 2 -> byte_at f 0 = 0x2B)
      /\ (size = 4 -> byte_at f 0 = 0x23)
      /\ byte_at f 4 = value mod 256
      /\ byte_at f 5 = (value / 2 ^ 8) mod 256
      /\ byte_at f 6 = (value / 2 ^ 16) mod 256
      /\ byte_at f 7 = value / 2 ^ 24
      /\ byte_at f 4 + 2 ^ 8 * byte_at f 5 + 2 ^ 16 * byte_at f 6
         + 2 ^ 24 * byte_at f 7 = value)
  /\ (is_write = 0 ->
      byte_at f 0 = 0x40
      /\ byte_at f 4 = 0 /\ byte_at f 5 = 0 /\ byte_at f 6 = 0 /\ byte_at f 7 = 0)
  /\ (byte_at q 0 = 0x40
      /\ byte_at q 4 = 0 /\ byte_at q 5 = 0 /\ byte_at q 6 = 0 /\ byte_at q 7 = 0).
Proof.
  intros Hidx Hsub Hval f q size.
  assert (Hhi : (idx / 2 ^ 8) mod 256 = idx / 256).
  { change (2 ^ 8) with 256. change (2 ^ 16) with 65536 in Hidx.
    Z.to_euclidean_division_equations. lia. }
  destruct (split_u32 value Hval) as [Hsum H7].
  split.
  { unfold PP.send_sdo_request. rewrite on_sock_sock. cbn [fst snd with_sock sock].
    apply sock_write_trace. }
  split.
  { intros b. apply sock_write_trace. }
  split.
  { subst f q. unfold PP.sdo_request_frame, QuickScan.sdo_request_frame.
    now destruct (negb (is_write =? 0)). }
  split.
  { subst f q. unfold PP.sdo_request_frame, QuickScan.sdo_request_frame.
    now destruct (negb (is_write =? 0)). }
  split.
  { subst f. unfold PP.sdo_request_frame, byte_at.
    destruct (negb (is_write =? 0)); cbn [data nth];
      rewrite u8_low_byte, u8_byte_of, Hhi, u8_small by lia; auto. }
  split.
  { subst q. unfold QuickScan.sdo_request_frame, byte_at. cbn [data nth].
    rewrite u8_low_byte, u8_byte_of, Hhi, u8_small by lia; auto. }
  split.
  { intros Hw. subst f size. unfold PP.sdo_request_frame, byte_at.
    replace (is_write =? 0) with false by (symmetry; now apply Z.eqb_neq).
    cbn [negb data nth]. rewrite u8_low_byte, !u8_byte_of, H7 by lia.
    repeat split; try reflexivity.
    - intros ->. reflexivity.
    - intros ->. reflexivity.
    - intros ->. reflexivity.
    - rewrite <- H7 at 1. exact Hsum. }
  split.
  { intros ->. subst f. unfold PP.sdo_request_frame, byte_at. cbn. auto. }
  subst q. unfold QuickScan.sdo_request_frame, byte_at. cbn. auto.
Qed.

(** C1 at the write of the control word on the program's initial state:
    a 2-byte object, so the command byte is 0x2B. *)
Lemma sdo_request_encoding_witness :
  byte_at (PP.sdo_request_frame (initial_world Samples.silent_bus)
                                0x6040 0 0x1F 1) 0 = 0x2B.
Proof.
  destruct (sdo_request_encoding (initial_world Samples.silent_bus) 2
              0x6040 0 0x1F 1) as (_ & _ & _ & _ & _ & _ & H & _).
  - lia.
  - lia.
  - lia.
  - apply H; [discriminate|reflexivity].
Defined.

End SdoRequest.


(** ** SDO responses *)

Section SdoResponse.
Import PP Sdo.

Lemma response_cases (node : Z) (f : can_frame) :
  sdo_response_of node f = true ->
  (can_id f =? 0x580 + node) = true
  /\ (command f = 0x40 \/ command f = 0x60 \/ command f = 0x80).
Proof.
  unfold sdo_response_of. intros H. apply andb_prop in H as [Hc H].
  split; [exact Hc|].
  apply orb_prop in H as [H|H]; [apply orb_prop in H as [H|H]|];
    apply Z.eqb_eq in H; auto.
Qed.

(** A frame that is no response of the node goes unnoticed, apart from
    having been read. *)
Lemma sdo_poll_ignore (node : Z) (f : can_frame) (rest : list slice) (value : Z) :
  sdo_response_of node f = false ->
  PP.sdo_poll node (Received f :: rest) value
  = let '(r, d, rx', evs) := PP.sdo_poll node rest value in
    (r, d, rx', EvRead f :: evs).
Proof.
  unfold sdo_response_of, command. intros H. cbn [PP.sdo_poll].
  destruct (can_id f =? 0x580 + node); [|reflexivity].
  cbn [andb] in H. apply orb_false_elim in H as [H H80].
  apply orb_false_elim in H as [H40 H60].
  now rewrite H40, H60, H80.
Qed.

Lemma sdo_poll_skip (node : Z) (skipped rest : list slice) (value : Z) :
  forallb (passes (sdo_response_of node)) skipped = true ->
  PP.sdo_poll node (skipped ++ rest) value
  = let '(r, d, rx', evs) := PP.sdo_poll node rest value in
    (r, d, rx', reads_of skipped ++ evs).
Proof.
  induction skipped as [|s skipped IH]; intros H.
  - simpl. now destruct (PP.sdo_poll node rest value) as [[[r d] rx'] evs].
  - cbn [forallb] in H. apply andb_prop in H as [Hs H]. specialize (IH H).
    destruct s as [| | |f]; cbn [passes] in Hs; try discriminate.
    + exact IH.
    + exact IH.
    + apply negb_true_iff in Hs. rewrite <- app_comm_cons.
      rewrite (sdo_poll_ignore node f _ value Hs), IH.
      now destruct (PP.sdo_poll node rest value) as [[[r d] rx'] evs].
Qed.

(** What the first response of the node yields. *)
Lemma sdo_poll_accept (node : Z) (f : can_frame) (rest : list slice) (value : Z) :
  sdo_response_of node f = true ->
  exists m,
    PP.sdo_poll node (Received f :: rest) value
    = (if command f =? 0x80 then -1 else 0,
       if command f =? 0x40 then payload_u32 f
       else if command f =? 0x60 then 0 else value,
       rest, [EvRead f; EvDebug m])
    /\ (command f = 0x80 ->
        m = DbgError (byte_at f 4) (byte_at f 5) (byte_at f 6) (byte_at f 7)).
Proof.
  intros H. apply response_cases in H as [Hc H]. cbn [PP.sdo_poll].
  rewrite Hc. fold (command f).
  destruct H as [H|[H|H]]; rewrite H; cbn [Z.eqb Pos.eqb];
    eexists; (split; [reflexivity|]); try discriminate.
  reflexivity.
Qed.

(** Every run of the polling loop ends on the first response of the
    node, or on the deadline with no response before it. *)
Lemma sdo_poll_split (node : Z) (rx : list slice) (value : Z) :
  (exists skipped f rest,
      rx = skipped ++ Received f :: rest
      /\ forallb (passes (sdo_response_of node)) skipped = true
      /\ sdo_response_of node f = true)
  \/ (exists skipped rest,
         (rx = skipped ++ Expired :: rest \/ (rx = skipped /\ rest = []))
         /\ forallb (passes (sdo_response_of node)) skipped = true
         /\ PP.sdo_poll node rx value
            = (-1, value, rest, reads_of skipped ++ [EvDebug DbgTimeout])).
Proof.
  induction rx as [|s rx IH].
  - right. exists [], []. simpl. auto.
  - destruct s as [| | |f].
    + right. exists [], rx. simpl. auto.
    + destruct IH as [(sk & f & rest & -> & Hp & Hf)|(sk & rest & Hrx & Hp & Hr)].
      * left. exists (Idle :: sk), f, rest. simpl. auto.
      * right. exists (Idle :: sk), rest. cbn [forallb passes andb]. 
        repeat split; [|exact Hp|exact Hr].
        destruct Hrx as [->|[-> ->]]; [left|right]; auto.
    + destruct IH as [(sk & f & rest & -> & Hp & Hf)|(sk & rest & Hrx & Hp & Hr)].
      * left. exists (ReadFailed :: sk), f, rest. simpl. auto.
      * right. exists (ReadFailed :: sk), rest. cbn [forallb passes andb].
        repeat split; [|exact Hp|exact Hr].
        destruct Hrx as [->|[-> ->]]; [left|right]; auto.
    + destruct (sdo_response_of node f) eqn:Hf.
      * left. exists [], f, rx. simpl. auto.
      * destruct IH as [(sk & g & rest & -> & Hp & Hg)|(sk & rest & Hrx & Hp & Hr)].
        -- left. exists (Received f :: sk), g, rest. cbn [forallb passes].
           rewrite Hf. simpl. auto.
        -- right. exists (Received f :: sk), rest. cbn [forallb passes].
           rewrite Hf. cbn [negb andb].
           repeat split; [|exact Hp|].
           ++ destruct Hrx as [->|[-> ->]]; [left|right]; auto.
           ++ rewrite (sdo_poll_ignore node f rx value Hf), Hr. reflexivity.
Qed.

Lemma receive_sdo_response_poll (value : Z) (w : world) :
  receive_sdo_response value w
  = let '(r, d, rx', evs) := PP.sdo_poll (current_motor_id w) (rx (sock w)) value in
    ((r, d), with_sock (mk_bus rx' (wr (sock w)) (trace (sock w) ++ evs)) w).
Proof. reflexivity. Qed.

(** The same three facts for the loop of quick_scan.c, which ends on an
    upload response only. *)
Lemma quick_poll_ignore (node : Z) (f : can_frame) (rest : list slice) (value : Z) :
  upload_response_of node f = false ->
  QuickScan.sdo_poll node (Received f :: rest) value
  = let '(r, d, rx', evs) := QuickScan.sdo_poll node rest value in
    (r, d, rx', EvRead f :: evs).
Proof.
  unfold upload_response_of, command. intros H. cbn [QuickScan.sdo_poll].
  destruct (can_id f =? 0x580 + node); [|reflexivity].
  cbn [andb] in H. now rewrite H.
Qed.

Lemma quick_poll_skip (node : Z) (skipped rest : list slice) (value : Z) :
  forallb (passes (upload_response_of node)) skipped = true ->
  QuickScan.sdo_poll node (skipped ++ rest) value
  = let '(r, d, rx', evs) := QuickScan.sdo_poll node rest value in
    (r, d, rx', reads_of skipped ++ evs).
Proof.
  induction skipped as [|s skipped IH]; intros H.
  - simpl. now destruct (QuickScan.sdo_poll node rest value) as [[[r d] rx'] evs].
  - cbn [forallb] in H. apply andb_prop in H as [Hs H]. specialize (IH H).
    destruct s as [| | |f]; cbn [passes] in Hs; try discriminate.
    + exact IH.
    + exact IH.
    + apply negb_true_iff in Hs. rewrite <- app_comm_cons.
      rewrite (quick_poll_ignore node f _ value Hs), IH.
      now destruct (QuickScan.sdo_poll node rest value) as [[[r d] rx'] evs].
Qed.

Lemma quick_poll_accept (node : Z) (f : can_frame) (rest : list slice) (value : Z) :
  upload_response_of node f = true ->
  QuickScan.sdo_poll node (Received f :: rest) value
  = (0, payload_u32 f, rest, [EvRead f]).
Proof.
  unfold upload_response_of, command. intros H. apply andb_prop in H as [Hc H].
  cbn [QuickScan.sdo_poll]. now rewrite Hc, H.
Qed.

Lemma quick_poll_success (node : Z) (rx : list slice) (value : Z) :
  fst (fst (fst (QuickScan.sdo_poll node rx value))) = 0 ->
  exists skipped f,
    rx = skipped ++ Received f :: snd (fst (QuickScan.sdo_poll node rx value))
    /\ forallb (passes (upload_response_of node)) skipped = true
    /\ upload_response_of node f = true.
Proof.
  induction rx as [|s rx IH]; [discriminate|].
  destruct s as [| | |f].
  - discriminate.
  - cbn [QuickScan.sdo_poll]. intros H. destruct (IH H) as (sk & f & E & Hp & Hf).
    exists (Idle :: sk), f. rewrite <- app_comm_cons, <- E. auto.
  - cbn [QuickScan.sdo_poll]. intros H. destruct (IH H) as (sk & f & E & Hp & Hf).
    exists (ReadFailed :: sk), f. rewrite <- app_comm_cons, <- E. auto.
  - destruct (upload_response_of node f) eqn:Hf.
    + rewrite (quick_poll_accept node f rx value Hf). intros _.
      exists [], f. simpl. auto.
    + rewrite (quick_poll_ignore node f rx value Hf).
      destruct (QuickScan.sdo_poll node rx value) as [[[r d] rx'] evs] eqn:E.
      cbn [fst snd] in *. intros H. destruct (IH H) as (sk & g & E' & Hp & Hg).
      exists (Received f :: sk), g. cbn [forallb passes]. rewrite Hf.
      rewrite <- app_comm_cons, <- E'. auto.
Qed.

End SdoResponse.


Section SdoResponseClaims.
Import PP Sdo Samples SampleFrames.

(** C2: [receive_sdo_response] passes over every frame that is not a
    response of the current node (another COB-ID, or a command outside
    0x40, 0x60, 0x80 under the mask 0xE0) and goes on polling; the first
    response of the node decides: 0x40 yields the value of bytes 4-7 read
    little-endian, 0x60 yields success with no value.  A call returns 0
    only on such a frame.  In quick_scan.c the loop ends on an upload
    response of the node only. *)
Theorem sdo_response_matching (w : world) (b : bus) (node value : Z) :
  (forall (skipped : list slice) (f : can_frame) (rest : list slice),
      rx (sock w) = skipped ++ Received f :: rest ->
      forallb (passes (sdo_response_of (current_motor_id w))) skipped = true ->
      sdo_response_of (current_motor_id w) f = true ->
      rx (sock (snd (receive_sdo_response value w))) = rest
      /\ (exists m,
             trace (sock (snd (receive_sdo_response value w)))
             = trace (sock w) ++ reads_of skipped ++ [EvRead f; EvDebug m])
      /\ (command f = 0x40 ->
          fst (receive_sdo_response value w) = (0, payload_u32 f))
      /\ (command f = 0x60 -> fst (receive_sdo_response value w) = (0, 0))
      /\ (command f = 0x80 -> fst (receive_sdo_response value w) = (-1, value))
      /\ (byte_frame f ->
          payload_u32 f
          = byte_at f 4 + 2 ^ 8 * byte_at f 5 + 2 ^ 16 * byte_at f 6
            + 2 ^ 24 * byte_at f 7))
  /\ (forall (f : can_frame) (rest : list slice),
         rx (sock w) = Received f :: rest ->
         sdo_response_of (current_motor_id w) f = false ->
         receive_sdo_response value w
         = receive_sdo_response value
             (with_sock (mk_bus rest (wr (sock w)) (trace (sock w) ++ [EvRead f])) w))
  /\ (fst (fst (receive_sdo_response value w)) = 0 ->
      exists (skipped : list slice) (f : can_frame),
        rx (sock w)
        = skipped ++ Received f :: rx (sock (snd (receive_sdo_response value w)))
        /\ forallb (passes (sdo_response_of (current_motor_id w))) skipped = true
        /\ can_id f = 0x580 + current_motor_id w
        /\ (command f = 0x40 \/ command f = 0x60))
  /\ (forall (skipped : list slice) (f : can_frame) (rest : list slice)
             (timeout_ms : Z),
         rx b = skipped ++ Received f :: rest ->
         forallb (passes (upload_response_of node)) skipped = true ->
         upload_response_of node f = true ->
         QuickScan.receive_sdo_response node value timeout_ms b
         = ((0, payload_u32 f),
            mk_bus rest (wr b) (trace b ++ reads_of skipped ++ [EvRead f])))
  /\ (forall timeout_ms : Z,
         fst (fst (QuickScan.receive_sdo_response node value timeout_ms b)) = 0 ->
         exists (skipped : list slice) (f : can_frame),
           rx b = skipped ++ Received f
                           :: rx (snd (QuickScan.receive_sdo_response node value timeout_ms b))
           /\ forallb (passes (upload_response_of node)) skipped = true
           /\ can_id f = 0x580 + node
           /\ command f = 0x40).
Proof.
  split; [|split; [|split; [|split]]].
  - intros skipped f rest Hrx Hp Hf.
    destruct (sdo_poll_accept _ f rest value Hf) as (m & Hacc & _).
    rewrite receive_sdo_response_poll, Hrx, (sdo_poll_skip _ _ _ _ Hp), Hacc.
    cbn [fst snd with_sock sock rx trace].
    split; [reflexivity|]. split; [now exists m|].
    repeat split.
    + intros ->. reflexivity.
    + intros ->. reflexivity.
    + intros ->. reflexivity.
    + intros Hb. apply payload_u32_le; apply byte_frame_at, Hb.
  - intros f rest Hrx Hf.
    rewrite !receive_sdo_response_poll, Hrx, (sdo_poll_ignore _ f rest value Hf).
    cbn [with_sock sock rx wr trace current_motor_id].
    destruct (PP.sdo_poll (current_motor_id w) rest value) as [[[r d] rx'] evs].
    unfold with_sock. cbn [object_dict detected_motor_id current_motor_id motor_enabled].
    now rewrite <- app_assoc.
  - destruct (sdo_poll_split (current_motor_id w) (rx (sock w)) value)
      as [(sk & f & rest & Hrx & Hp & Hf)|(sk & rest & _ & _ & Hr)].
    + destruct (sdo_poll_accept _ f rest value Hf) as (m & Hacc & _).
      assert (E : receive_sdo_response value w
                  = ((if command f =? 0x80 then -1 else 0,
                      if command f =? 0x40 then payload_u32 f
                      else if command f =? 0x60 then 0 else value),
                     with_sock (mk_bus rest (wr (sock w))
                                  (trace (sock w) ++ reads_of sk ++ [EvRead f; EvDebug m])) w)).
      { rewrite receive_sdo_response_poll, Hrx, (sdo_poll_skip _ _ _ _ Hp), Hacc.
        reflexivity. }
      rewrite E. cbn [fst snd with_sock sock rx]. intros Hret.
      exists sk, f. split; [exact Hrx|]. split; [exact Hp|].
      apply response_cases in Hf as [Hc Hcmd]. apply Z.eqb_eq in Hc.
      split; [exact Hc|].
      destruct Hcmd as [H|[H|H]]; auto.
      rewrite H in Hret. discriminate.
    + rewrite receive_sdo_response_poll, Hr. cbn [fst]. discriminate.
  - intros skipped f rest timeout_ms Hrx Hp Hf.
    unfold QuickScan.receive_sdo_response.
    now rewrite Hrx, (quick_poll_skip _ _ _ _ Hp), (quick_poll_accept _ f rest value Hf).
  - intros timeout_ms. unfold QuickScan.receive_sdo_response.
    intros Hret.
    destruct (quick_poll_success node (rx b) value) as (sk & f & E & Hp & Hf).
    { destruct (QuickScan.sdo_poll node (rx b) value) as [[[r d] rx'] evs].
      exact Hret. }
    exists sk, f.
    destruct (QuickScan.sdo_poll node (rx b) value) as [[[r d] rx'] evs].
    cbn [fst snd rx] in *. split; [exact E|]. split; [exact Hp|].
    unfold upload_response_of in Hf. apply andb_prop in Hf as [Hc Hcmd].
    apply Z.eqb_eq in Hc, Hcmd. auto.
Qed.

(** C2 on a frame of node 3 followed by an upload response of node 2:
    the first is passed over, the second yields 0x1234. *)
Lemma sdo_response_matching_witness :
  fst (receive_sdo_response 0
         (hears [Idle; Received upload_node3; Received upload_1234]))
  = (0, 0x1234).
Proof.
  destruct (sdo_response_matching
              (hears [Idle; Received upload_node3; Received upload_1234])
              silent_bus 2 0) as [H _].
  destruct (H [Idle; Received upload_node3] upload_1234 [] eq_refl eq_refl eq_refl)
    as (_ & _ & H40 & _).
  exact (H40 eq_refl).
Defined.

End SdoResponseClaims.


(** ** Transactions *)

Section Transactions.
Import PP Sdo Frames.

Lemma send_sdo_request_eq (idx sub value is_write : Z) (w : world) :
  send_sdo_request idx sub value is_write w
  = (fst (sock_write (sdo_request_frame w idx sub value is_write) (sock w)),
     with_sock (snd (sock_write (sdo_request_frame w idx sub value is_write) (sock w))) w).
Proof. unfold send_sdo_request. apply on_sock_sock. Qed.

Lemma write_sdo_eq (idx sub value : Z) (w : world) :
  write_sdo idx sub value w
  = let (r, w1) := send_sdo_request idx sub value 1 w in
    if r <? 0 then (-1, w1)
    else let '((r', _), w2) := receive_sdo_response 0 w1 in
         if r' <? 0 then (-1, w2) else (0, w2).
Proof.
  unfold write_sdo, bind, ret.
  destruct (send_sdo_request idx sub value 1 w) as [r w1].
  destruct (r <? 0); [reflexivity|].
  destruct (receive_sdo_response 0 w1) as [[r' d] w2].
  now destruct (r' <? 0).
Qed.

Lemma read_sdo_eq (idx sub value : Z) (w : world) :
  read_sdo idx sub value w
  = let (r, w1) := send_sdo_request idx sub 0 0 w in
    if r <? 0 then ((-1, value), w1)
    else let '((r', d), w2) := receive_sdo_response value w1 in
         if r' <? 0 then ((-1, d), w2) else ((0, d), w2).
Proof.
  unfold read_sdo, bind, ret.
  destruct (send_sdo_request idx sub 0 0 w) as [r w1].
  destruct (r <? 0); [reflexivity|].
  destruct (receive_sdo_response value w1) as [[r' d] w2].
  now destruct (r' <? 0).
Qed.

(** A transaction whose wait ends on [-1] with the caller's variable
    untouched returns -1, whether or not the request could be written. *)
Lemma failed_transaction (idx sub v value : Z) (w : world) :
  (forall x b, fst (receive_sdo_response x (with_sock (mk_bus (rx (sock w)) (wr b) (trace b)) w))
               = (-1, x)) ->
  fst (write_sdo idx sub v w) = -1
  /\ fst (read_sdo idx sub value w) = (-1, value).
Proof.
  intros H. rewrite write_sdo_eq, read_sdo_eq, !send_sdo_request_eq.
  split.
  - destruct (fst (sock_write _ (sock w)) <? 0); [reflexivity|].
    set (b := snd (sock_write _ (sock w))).
    assert (Hb : b = mk_bus (rx (sock w)) (wr b) (trace b)).
    { subst b. destruct (sock_write_trace (sdo_request_frame w idx sub v 1) (sock w)) as [_ Hrx].
      rewrite <- Hrx. now destruct (snd (sock_write _ (sock w))). }
    rewrite Hb. specialize (H 0 b).
    destruct (receive_sdo_response 0 _) as [[r' d] w2]. cbn [fst] in H.
    injection H as -> _. reflexivity.
  - destruct (fst (sock_write _ (sock w)) <? 0); [reflexivity|].
    set (b := snd (sock_write _ (sock w))).
    assert (Hb : b = mk_bus (rx (sock w)) (wr b) (trace b)).
    { subst b. destruct (sock_write_trace (sdo_request_frame w idx sub 0 0) (sock w)) as [_ Hrx].
      rewrite <- Hrx. now destruct (snd (sock_write _ (sock w))). }
    rewrite Hb. specialize (H value b).
    destruct (receive_sdo_response value _) as [[r' d] w2]. cbn [fst] in H.
    injection H as -> ->. reflexivity.
Qed.

Lemma receive_abort (value : Z) (w : world) (skipped rest : list slice) (f : can_frame) :
  rx (sock w) = skipped ++ Received f :: rest ->
  forallb (passes (sdo_response_of (current_motor_id w))) skipped = true ->
  can_id f = 0x580 + current_motor_id w -> command f = 0x80 ->
  receive_sdo_response value w
  = ((-1, value),
     with_sock (mk_bus rest (wr (sock w))
                  (trace (sock w) ++ reads_of skipped
                   ++ [EvRead f;
                       EvDebug (DbgError (byte_at f 4) (byte_at f 5)
                                         (byte_at f 6) (byte_at f 7))])) w).
Proof.
  intros Hrx Hp Hc Hcmd.
  assert (Hf : sdo_response_of (current_motor_id w) f = true).
  { unfold sdo_response_of. rewrite Hc, Hcmd, Z.eqb_refl. reflexivity. }
  destruct (sdo_poll_accept _ f rest value Hf) as (m & Hacc & Hm).
  rewrite receive_sdo_response_poll, Hrx, (sdo_poll_skip _ _ _ _ Hp), Hacc, Hcmd.
  now rewrite (Hm Hcmd).
Qed.

Lemma receive_timeout (value : Z) (w : world) (skipped rest : list slice) :
  rx (sock w) = skipped ++ Expired :: rest \/ (rx (sock w) = skipped /\ rest = []) ->
  forallb (passes (sdo_response_of (current_motor_id w))) skipped = true ->
  receive_sdo_response value w
  = ((-1, value),
     with_sock (mk_bus rest (wr (sock w))
                  (trace (sock w) ++ reads_of skipped ++ [EvDebug DbgTimeout])) w).
Proof.
  intros Hrx Hp. rewrite receive_sdo_response_poll.
  destruct Hrx as [->|[-> ->]].
  - now rewrite (sdo_poll_skip _ _ _ _ Hp).
  - rewrite <- (app_nil_r skipped) at 1. now rewrite (sdo_poll_skip _ _ _ _ Hp).
Qed.

(** *** The globals across the actions *)

Lemma same_globals_refl (w : world) : same_globals w w.
Proof. unfold same_globals. auto. Qed.

Lemma same_globals_trans (w1 w2 w3 : world) :
  same_globals w1 w2 -> same_globals w2 w3 -> same_globals w1 w3.
Proof.
  unfold same_globals. intros (A1 & A2 & A3 & A4) (B1 & B2 & B3 & B4).
  repeat split; congruence.
Qed.

Lemma same_globals_with_sock (b : bus) (w : world) :
  same_globals w (with_sock b w).
Proof. unfold same_globals. simpl. auto. Qed.

Lemma keeps_ret {A} (a : A) : keeps_globals (ret a).
Proof. intros w. apply same_globals_refl. Qed.

Lemma keeps_bind {A B} (m : IO world A) (k : A -> IO world B) :
  keeps_globals m -> (forall a, keeps_globals (k a)) -> keeps_globals (bind m k).
Proof.
  intros Hm Hk w. unfold bind. specialize (Hm w).
  destruct (m w) as [a w1]. eapply same_globals_trans; [exact Hm|apply Hk].
Qed.

Lemma keeps_on_sock {A} (m : IO bus A) : keeps_globals (on_sock m).
Proof. intros w. rewrite on_sock_sock. apply same_globals_with_sock. Qed.

Lemma keeps_send (idx sub value is_write : Z) :
  keeps_globals (send_sdo_request idx sub value is_write).
Proof. intros w. rewrite send_sdo_request_eq. apply same_globals_with_sock. Qed.

Lemma keeps_receive (value : Z) : keeps_globals (receive_sdo_response value).
Proof.
  intros w. rewrite receive_sdo_response_poll.
  destruct (PP.sdo_poll _ _ _) as [[[r d] rx'] evs]. apply same_globals_with_sock.
Qed.

Lemma keeps_if {A} (c : bool) (m1 m2 : IO world A) :
  keeps_globals m1 -> keeps_globals m2 -> keeps_globals (if c then m1 else m2).
Proof. now destruct c. Qed.

Lemma keeps_nmt (command : Z) :
  keeps_globals (fun w => send_nmt_command command (current_motor_id w) w).
Proof. intros w. unfold send_nmt_command. rewrite on_sock_sock. apply same_globals_with_sock. Qed.

End Transactions.

Create HintDb globals.
#[export] Hint Resolve keeps_ret keeps_on_sock keeps_send keeps_receive keeps_if keeps_nmt : globals.

(** Steps through a sequence of actions, leaving the calls of functions
    of the program to the hints. *)
Ltac keeps :=
  repeat first
    [ progress auto with globals
    | apply keeps_bind; [|intros ?]
    | apply keeps_if
    | match goal with
      | |- Frames.keeps_globals (match ?x with _ => _ end) => destruct x
      end ].

Section TransactionsKeep.
Import PP Sdo Frames.

Lemma keeps_write_sdo (idx sub value : Z) : keeps_globals (write_sdo idx sub value).
Proof. unfold write_sdo. keeps. Qed.

Lemma keeps_read_sdo (idx sub value : Z) : keeps_globals (read_sdo idx sub value).
Proof. unfold read_sdo. keeps. Qed.

End TransactionsKeep.

#[export] Hint Resolve keeps_write_sdo keeps_read_sdo : globals.

Section MoveKeeps.
Import PP Sdo Frames.

Lemma keeps_print_command_help : keeps_globals print_command_help.
Proof. unfold print_command_help. keeps. Qed.

Lemma keeps_wait_setpoint_ack (fuel : nat) (timeout_count status_word : Z) :
  keeps_globals (wait_setpoint_ack fuel timeout_count status_word).
Proof.
  revert timeout_count status_word.
  induction fuel as [|fuel IH]; intros tc sw; cbn [wait_setpoint_ack]; keeps.
Qed.

Lemma keeps_wait_setpoint_clear (fuel : nat) (timeout_count status_word : Z) :
  keeps_globals (wait_setpoint_clear fuel timeout_count status_word).
Proof.
  revert timeout_count status_word.
  induction fuel as [|fuel IH]; intros tc sw; cbn [wait_setpoint_clear]; keeps.
Qed.

End MoveKeeps.

#[export] Hint Resolve keeps_print_command_help keeps_wait_setpoint_ack
  keeps_wait_setpoint_clear : globals.

Section MoveKeeps2.
Import PP Sdo Frames.

Lemma keeps_execute_position_move (target_position : Z) :
  keeps_globals (execute_position_move target_position).
Proof. unfold execute_position_move. keeps. Qed.

End MoveKeeps2.


Section TransactionClaims.
Import PP Sdo Frames Samples SampleFrames.

(** C3 (amended): when the response of the node is an SDO abort,
    [receive_sdo_response] stops on it, prints the four bytes of the
    abort code, returns -1 and leaves the caller's variable as it was -
    the return value and variable a timeout gives; [write_sdo] and
    [read_sdo] return -1 in both cases, and the abort code is not part
    of what they return. *)
Theorem sdo_abort_returns_like_timeout
    (w w' : world) (idx sub v value : Z)
    (skipped rest skipped' rest' : list slice) (f : can_frame) :
  rx (sock w) = skipped ++ Received f :: rest ->
  forallb (passes (sdo_response_of (current_motor_id w))) skipped = true ->
  can_id f = 0x580 + current_motor_id w ->
  command f = 0x80 ->
  rx (sock w') = skipped' ++ Expired :: rest' ->
  forallb (passes (sdo_response_of (current_motor_id w'))) skipped' = true ->
  receive_sdo_response value w
  = ((-1, value),
     with_sock (mk_bus rest (wr (sock w))
                  (trace (sock w) ++ reads_of skipped
                   ++ [EvRead f;
                       EvDebug (DbgError (byte_at f 4) (byte_at f 5)
                                         (byte_at f 6) (byte_at f 7))])) w)
  /\ receive_sdo_response value w'
     = ((-1, value),
        with_sock (mk_bus rest' (wr (sock w'))
                     (trace (sock w') ++ reads_of skipped' ++ [EvDebug DbgTimeout])) w')
  /\ fst (write_sdo idx sub v w) = -1
  /\ fst (write_sdo idx sub v w') = -1
  /\ fst (read_sdo idx sub value w) = (-1, value)
  /\ fst (read_sdo idx sub value w') = (-1, value).
Proof.
  intros Hrx Hp Hc Hcmd Hrx' Hp'.
  split; [now apply receive_abort|].
  split; [apply receive_timeout; auto|].
  assert (Ha : forall x b,
             fst (receive_sdo_response x
                    (with_sock (mk_bus (rx (sock w)) (wr b) (trace b)) w)) = (-1, x)).
  { intros x b. erewrite receive_abort; [reflexivity|exact Hrx|exact Hp|exact Hc|exact Hcmd]. }
  assert (Ht : forall x b,
             fst (receive_sdo_response x
                    (with_sock (mk_bus (rx (sock w')) (wr b) (trace b)) w')) = (-1, x)).
  { intros x b. erewrite receive_timeout; [reflexivity| |exact Hp']. left. exact Hrx'. }
  destruct (failed_transaction idx sub v value w Ha) as [Hw Hr].
  destruct (failed_transaction idx sub v value w' Ht) as [Hw' Hr'].
  auto.
Qed.

(** The amended C3 on an abort of node 2 against an expired deadline. *)
Lemma sdo_abort_returns_like_timeout_witness :
  fst (write_sdo 0x6040 0 0x0F (hears [Idle; Received abort_06090011])) = -1
  /\ fst (write_sdo 0x6040 0 0x0F (hears [Idle; Expired])) = -1.
Proof.
  destruct (sdo_abort_returns_like_timeout
              (hears [Idle; Received abort_06090011]) (hears [Idle; Expired])
              0x6040 0 0x0F 0 [Idle] [] [Idle] [] abort_06090011
              eq_refl eq_refl eq_refl eq_refl eq_refl eq_refl)
    as (_ & _ & Ha & Ht & _).
  exact (conj Ha Ht).
Defined.

(** C3 as stated fails: the caller of [write_sdo] or [read_sdo] gets the
    same result for an abort as for a timeout, and the same for two
    aborts with different codes. *)
Lemma sdo_abort_indistinguishable_from_timeout :
  fst (write_sdo 0x6040 0 0x0F (hears [Received abort_06090011]))
  = fst (write_sdo 0x6040 0 0x0F (hears [Expired]))
  /\ fst (write_sdo 0x6040 0 0x0F (hears [Received abort_06090011]))
     = fst (write_sdo 0x6040 0 0x0F (hears [Received abort_08000000]))
  /\ fst (read_sdo 0x6040 0 0 (hears [Received abort_06090011]))
     = fst (read_sdo 0x6040 0 0 (hears [Expired]))
  /\ fst (read_sdo 0x6040 0 0 (hears [Received abort_06090011]))
     = fst (read_sdo 0x6040 0 0 (hears [Received abort_08000000])).
Proof. repeat split. Qed.

(** An action that ends in a state satisfying [P]. *)
Lemma bind_ends {A B} (P : world -> Prop) (m : IO world A) (k : A -> IO world B) :
  (forall a w, P (snd (k a w))) -> forall w, P (snd (bind m k w)).
Proof. intros H w. unfold bind. destruct (m w) as [a w1]. apply H. Qed.

(** C10 (amended): [init_pp_mode] ends with [motor_enabled] set to 1
    whatever became of its writes, and no transaction afterwards changes
    the flag: [write_sdo], [read_sdo], [execute_position_move] and
    [print_command_help] leave it as it was, whether they fail or
    succeed. *)
Theorem motor_enabled_is_never_cleared (w : world) :
  motor_enabled (snd (init_pp_mode w)) = 1
  /\ (forall idx sub v : Z,
         motor_enabled (snd (write_sdo idx sub v w)) = motor_enabled w)
  /\ (forall idx sub v : Z,
         motor_enabled (snd (read_sdo idx sub v w)) = motor_enabled w)
  /\ (forall target_position : Z,
         motor_enabled (snd (execute_position_move target_position w))
         = motor_enabled w)
  /\ motor_enabled (snd (print_command_help w)) = motor_enabled w.
Proof.
  split.
  - unfold init_pp_mode.
    repeat (apply (bind_ends (fun w => motor_enabled w = 1)); intros ? ?).
    reflexivity.
  - repeat split; intros.
    + apply keeps_write_sdo.
    + apply keeps_read_sdo.
    + apply keeps_execute_position_move.
    + apply keeps_print_command_help.
Qed.

(** C10 as stated fails: after an initialisation in which the drive
    acknowledged every write, a control-word write times out and the
    flag is still 1. *)
Lemma motor_enabled_survives_failed_write :
  motor_enabled initialised = 1
  /\ fst (write_sdo 0x6040 0 0x0F initialised) = -1
  /\ motor_enabled (snd (write_sdo 0x6040 0 0x0F initialised)) = 1.
Proof. vm_compute. repeat split. Qed.

End TransactionClaims.


(** ** Node discovery *)

Section NodeDiscovery.
Import PP Sdo Frames Discovery Samples SampleFrames.

Lemma detect_nodes_step (node_id : Z) (more : list Z) (w : world) :
  detect_nodes (node_id :: more) w
  = let (found, w1) := probe_node node_id w in
    if is_hit found then (node_id, set_motor_ids node_id node_id w1)
    else detect_nodes more w1.
Proof.
  cbn [detect_nodes]. unfold probe_node, bind, ret.
  destruct (on_sock (sock_write (probe_frame node_id)) w) as [r w1].
  destruct (r <? 0); [reflexivity|].
  destruct (on_sock (await_device_type node_id) w1) as [[dt|] w2]; cbn [is_hit].
  - destruct (is_cia402_motor dt) eqn:E; cbn [is_hit]; rewrite ?E; [reflexivity|].
    destruct (on_sock (usleep 50000) w2) as [[] w3]. cbn [is_hit]. now rewrite E.
  - now destruct (on_sock (usleep 50000) w2) as [[] w3].
Qed.

Lemma after_turns_cons (node_id : Z) (more : list Z) (w : world) :
  after_turns (node_id :: more) w = after_turns more (snd (probe_node node_id w)).
Proof. reflexivity. Qed.

Lemma detect_nodes_hit (before : list Z) (m : Z) (after : list Z) (w : world) :
  all_miss before w = true ->
  is_hit (fst (probe_node m (after_turns before w))) = true ->
  detect_nodes (before ++ m :: after) w
  = (m, set_motor_ids m m (snd (probe_node m (after_turns before w)))).
Proof.
  revert w; induction before as [|k before IH]; intros w Hmiss Hhit.
  - cbn [app after_turns fold_left] in *. rewrite detect_nodes_step.
    destruct (probe_node m w) as [found w1]. cbn [fst snd] in *. now rewrite Hhit.
  - rewrite <- app_comm_cons, detect_nodes_step, after_turns_cons.
    cbn [all_miss] in Hmiss. rewrite after_turns_cons in Hhit.
    destruct (probe_node k w) as [found w1]. cbn [fst snd] in *.
    apply andb_prop in Hmiss as [Hk Hmiss]. apply negb_true_iff in Hk.
    rewrite Hk. now apply IH.
Qed.

Lemma detect_nodes_miss (nodes : list Z) (w : world) :
  all_miss nodes w = true ->
  detect_nodes nodes w
  = (MOTOR_NODE_ID, set_motor_ids 0 MOTOR_NODE_ID (after_turns nodes w)).
Proof.
  revert w; induction nodes as [|k nodes IH]; intros w Hmiss.
  - reflexivity.
  - rewrite detect_nodes_step, after_turns_cons. cbn [all_miss] in Hmiss.
    destruct (probe_node k w) as [found w1]. cbn [fst snd] in *.
    apply andb_prop in Hmiss as [Hk Hmiss]. apply negb_true_iff in Hk.
    rewrite Hk. now apply IH.
Qed.

Lemma writes_of_app (t1 t2 : list event) :
  writes_of (t1 ++ t2) = writes_of t1 ++ writes_of t2.
Proof. unfold writes_of. apply flat_map_app. Qed.

Lemma detect_poll_reads (cob : Z) (rx : list slice) :
  writes_of (snd (detect_poll cob rx)) = [].
Proof.
  induction rx as [|s rx IH]; [reflexivity|].
  destruct s as [| | |f]; cbn [detect_poll]; try exact IH; try reflexivity.
  destruct ((can_id f =? cob) && _); [reflexivity|].
  destruct (detect_poll cob rx) as [[r rx'] evs]. exact IH.
Qed.

(** A turn, step by step. *)
Lemma probe_node_eq (node_id : Z) (w : world) :
  probe_node node_id w
  = let r := fst (sock_write (probe_frame node_id) (sock w)) in
    let b1 := snd (sock_write (probe_frame node_id) (sock w)) in
    if r <? 0 then (None, with_sock b1 w)
    else
      let '(found, rx', evs) := detect_poll (0x580 + node_id) (rx b1) in
      (found,
       with_sock
         (mk_bus rx' (wr b1)
            (if is_hit found then trace b1 ++ evs
             else (trace b1 ++ evs) ++ [EvSleep 50000])) w).
Proof.
  unfold probe_node, bind, ret. rewrite on_sock_sock. cbv zeta.
  destruct (fst (sock_write (probe_frame node_id) (sock w)) <? 0); [reflexivity|].
  rewrite on_sock_sock. unfold await_device_type. cbn [sock with_sock].
  destruct (detect_poll (0x580 + node_id) _) as [[found rx'] evs].
  cbn [fst snd]. destruct found as [dt|]; cbn [is_hit].
  - destruct (is_cia402_motor dt); [reflexivity|].
    rewrite on_sock_sock. reflexivity.
  - rewrite on_sock_sock. reflexivity.
Qed.

(** A turn writes one frame, the read of object 0x1000:0 of its node. *)
Lemma probe_node_writes (node_id : Z) (w : world) :
  writes_of (trace (sock (snd (probe_node node_id w))))
  = writes_of (trace (sock w)) ++ [probe_frame node_id].
Proof.
  rewrite probe_node_eq. cbv zeta.
  destruct (sock_write_trace (probe_frame node_id) (sock w)) as [Ht _].
  destruct (fst (sock_write (probe_frame node_id) (sock w)) <? 0).
  - cbn [snd with_sock sock]. now rewrite Ht, writes_of_app.
  - pose proof (detect_poll_reads (0x580 + node_id)
                  (rx (snd (sock_write (probe_frame node_id) (sock w))))) as Hp.
    destruct (detect_poll _ _) as [[found rx'] evs]. cbn [fst snd] in *.
    cbn [with_sock sock trace].
    destruct (is_hit found); rewrite ?writes_of_app, Hp, Ht, writes_of_app;
      cbn [writes_of flat_map app]; rewrite ?app_nil_r; reflexivity.
Qed.

Lemma after_turns_writes (nodes : list Z) (w : world) :
  writes_of (trace (sock (after_turns nodes w)))
  = writes_of (trace (sock w)) ++ map probe_frame nodes.
Proof.
  revert w; induction nodes as [|k nodes IH]; intros w.
  - cbn. now rewrite app_nil_r.
  - rewrite after_turns_cons, IH, probe_node_writes, <- app_assoc. reflexivity.
Qed.

Lemma detect_poll_found (cob : Z) (rx : list slice) (dt : Z) :
  fst (fst (detect_poll cob rx)) = Some dt ->
  exists skipped f,
    rx = skipped ++ Received f :: snd (fst (detect_poll cob rx))
    /\ forallb (passes (fun f => (can_id f =? cob) && (command f =? 0x40))) skipped = true
    /\ can_id f = cob /\ command f = 0x40 /\ dt = payload_u32 f.
Proof.
  induction rx as [|s rx IH]; [discriminate|].
  destruct s as [| | |f]; cbn [detect_poll].
  - discriminate.
  - intros H. destruct (IH H) as (sk & f & E & Hp & Hf).
    exists (Idle :: sk), f. rewrite <- app_comm_cons, <- E. auto.
  - intros H. destruct (IH H) as (sk & f & E & Hp & Hf).
    exists (ReadFailed :: sk), f. rewrite <- app_comm_cons, <- E. auto.
  - fold (command f).
    destruct ((can_id f =? cob) && (command f =? 0x40)) eqn:Hf.
    + cbn [fst snd]. intros [= <-]. exists [], f.
      apply andb_prop in Hf as [Hc Hcmd]. apply Z.eqb_eq in Hc, Hcmd. simpl. auto.
    + destruct (detect_poll cob rx) as [[r rx'] evs]. cbn [fst snd] in *.
      intros H. destruct (IH H) as (sk & g & E & Hp & Hg).
      exists (Received f :: sk), g. cbn [forallb passes]. rewrite Hf.
      rewrite <- app_comm_cons, <- E. auto.
Qed.


Lemma set_motor_ids_sock (d c : Z) (w : world) : sock (set_motor_ids d c w) = sock w.
Proof. reflexivity. Qed.

Lemma auto_detect_hit (w : world) (before : list Z) (m : Z) (after : list Z) :
  scan_range = before ++ m :: after ->
  all_miss before w = true ->
  is_hit (fst (probe_node m (after_turns before w))) = true ->
  auto_detect_motor w
  = (m, set_motor_ids m m (snd (probe_node m (after_turns before w))))
  /\ writes_of (trace (sock (snd (auto_detect_motor w))))
     = writes_of (trace (sock w)) ++ map probe_frame (before ++ [m]).
Proof.
  intros Hr Hmiss Hhit.
  assert (E : auto_detect_motor w
              = (m, set_motor_ids m m (snd (probe_node m (after_turns before w))))).
  { unfold auto_detect_motor. rewrite Hr.
    exact (detect_nodes_hit before m after w Hmiss Hhit). }
  split; [exact E|]. rewrite E.
  change (snd (m, set_motor_ids m m (snd (probe_node m (after_turns before w)))))
    with (set_motor_ids m m (snd (probe_node m (after_turns before w)))).
  rewrite set_motor_ids_sock, probe_node_writes, after_turns_writes, map_app, <- app_assoc.
  reflexivity.
Qed.

Lemma auto_detect_miss (w : world) :
  all_miss scan_range w = true ->
  auto_detect_motor w
  = (MOTOR_NODE_ID, set_motor_ids 0 MOTOR_NODE_ID (after_turns scan_range w))
  /\ writes_of (trace (sock (snd (auto_detect_motor w))))
     = writes_of (trace (sock w)) ++ map probe_frame scan_range.
Proof.
  intros Hmiss.
  assert (E : auto_detect_motor w
              = (MOTOR_NODE_ID, set_motor_ids 0 MOTOR_NODE_ID (after_turns scan_range w))).
  { exact (detect_nodes_miss scan_range w Hmiss). }
  split; [exact E|]. rewrite E.
  change (snd (MOTOR_NODE_ID, set_motor_ids 0 MOTOR_NODE_ID (after_turns scan_range w)))
    with (set_motor_ids 0 MOTOR_NODE_ID (after_turns scan_range w)).
  rewrite set_motor_ids_sock. apply after_turns_writes.
Qed.

Lemma is_hit_spec (found : option Z) :
  is_hit found = true <->
  exists device_type,
    found = Some device_type
    /\ (device_type = 0x00020192 \/ device_type = 0x00020193
        \/ device_type = 0x00020194 \/ device_type = 0x00020195).
Proof.
  destruct found as [dt|]; cbn [is_hit]; split.
  - unfold is_cia402_motor. intros H. exists dt. split; [reflexivity|].
    apply orb_prop in H as [H|H4]; [apply orb_prop in H as [H|H3];
      [apply orb_prop in H as [H1|H2]|]|];
      [apply Z.eqb_eq in H1|apply Z.eqb_eq in H2|apply Z.eqb_eq in H3|apply Z.eqb_eq in H4];
      auto.
  - intros (dt' & Heq & H). injection Heq as <-. unfold is_cia402_motor.
    destruct H as [ -> | [ -> | [ -> | -> ] ] ]; reflexivity.
  - discriminate.
  - intros (dt' & H & _). discriminate.
Qed.

Lemma probe_node_found (w : world) (node_id device_type : Z) :
  fst (probe_node node_id w) = Some device_type ->
  exists (skipped : list slice) (f : can_frame),
    rx (sock w) = skipped ++ Received f :: rx (sock (snd (probe_node node_id w)))
    /\ forallb (passes (upload_response_of node_id)) skipped = true
    /\ upload_response_of node_id f = true
    /\ device_type = payload_u32 f.
Proof.
  rewrite probe_node_eq. cbv zeta.
  destruct (sock_write_trace (probe_frame node_id) (sock w)) as [_ Hrx].
  destruct (fst (sock_write (probe_frame node_id) (sock w)) <? 0); [discriminate|].
  rewrite Hrx.
  pose proof (detect_poll_found (0x580 + node_id) (rx (sock w)) device_type) as Hp.
  destruct (detect_poll (0x580 + node_id) (rx (sock w))) as [[found rx'] evs].
  intros Hfound.
  destruct (Hp Hfound) as (sk & f & E & Hpass & Hc & Hcmd & Hdt).
  exists sk, f. unfold upload_response_of. rewrite Hc, Hcmd, Z.eqb_refl.
  repeat split; auto.
Qed.

(** C9: [auto_detect_motor] visits the node ids 1, 2, ..., 20 in this
    order, writing for each the read of object 0x1000 subindex 0.  The
    first node whose turn finds a device type among 0x00020192 ..
    0x00020195 ends the scan: it is returned and becomes the detected and
    the current node, and no later node is probed.  When no node of the
    range does, the scan returns the default [MOTOR_NODE_ID] and records
    that nothing was detected ([detected_motor_id] = 0).  The device type
    of a turn is the value of the first upload response with COB-ID
    0x580 + node seen before the deadline. *)
Theorem first_motor_wins (w : world) :
  scan_range = [1; 2; 3; 4; 5; 6; 7; 8; 9; 10; 11; 12; 13; 14; 15; 16; 17; 18; 19; 20]
  /\ (forall (before : list Z) (m : Z) (after : list Z),
         scan_range = before ++ m :: after ->
         all_miss before w = true ->
         is_hit (fst (probe_node m (after_turns before w))) = true ->
         auto_detect_motor w
         = (m, set_motor_ids m m (snd (probe_node m (after_turns before w))))
         /\ writes_of (trace (sock (snd (auto_detect_motor w))))
            = writes_of (trace (sock w)) ++ map probe_frame (before ++ [m]))
  /\ (all_miss scan_range w = true ->
      auto_detect_motor w
      = (MOTOR_NODE_ID, set_motor_ids 0 MOTOR_NODE_ID (after_turns scan_range w))
      /\ writes_of (trace (sock (snd (auto_detect_motor w))))
         = writes_of (trace (sock w)) ++ map probe_frame scan_range)
  /\ (forall node_id : Z,
         can_id (probe_frame node_id) = 0x600 + node_id
         /\ data (probe_frame node_id) = [0x40; 0x00; 0x10; 0x00; 0; 0; 0; 0])
  /\ (forall found : option Z,
         is_hit found = true <->
         exists device_type,
           found = Some device_type
           /\ (device_type = 0x00020192 \/ device_type = 0x00020193
               \/ device_type = 0x00020194 \/ device_type = 0x00020195))
  /\ (forall node_id device_type : Z,
         fst (probe_node node_id w) = Some device_type ->
         exists (skipped : list slice) (f : can_frame),
           rx (sock w) = skipped ++ Received f :: rx (sock (snd (probe_node node_id w)))
           /\ forallb (passes (upload_response_of node_id)) skipped = true
           /\ upload_response_of node_id f = true
           /\ device_type = payload_u32 f).
Proof.
  split; [reflexivity|].
  split; [intros before m after; apply auto_detect_hit|].
  split; [apply auto_detect_miss|].
  split; [intros node_id; split; reflexivity|].
  split; [apply is_hit_spec|].
  intros node_id device_type. apply probe_node_found.
Qed.

(** C9 on a bus where node 1 stays silent and node 2 reports device
    type 0x00020192: the scan returns 2 after two probes. *)
Lemma first_motor_wins_witness :
  fst (auto_detect_motor (hears [Expired; Idle; Received device_type_reply])) = 2
  /\ writes_of (trace (sock (snd (auto_detect_motor
                                    (hears [Expired; Idle; Received device_type_reply])))))
     = [probe_frame 1; probe_frame 2].
Proof.
  destruct (first_motor_wins (hears [Expired; Idle; Received device_type_reply]))
    as (_ & H & _).
  destruct (H [1] 2 (map Z.of_nat (seq 3 18)) eq_refl eq_refl eq_refl) as [E W].
  rewrite W, E. split; reflexivity.
Defined.

End NodeDiscovery.


(** ** What a run writes and how long it sleeps *)

Section Tally.
Import PP Sdo Frames Move.
Context {X : Type} (on_write : can_frame -> list X) (on_sleep : Z -> list X).

Lemma tally_app (t1 t2 : list event) :
  tally on_write on_sleep (t1 ++ t2)
  = tally on_write on_sleep t1 ++ tally on_write on_sleep t2.
Proof. unfold tally. apply flat_map_app. Qed.

Lemma tally_sdo_poll (node : Z) (rx : list slice) (value : Z) :
  tally on_write on_sleep (snd (PP.sdo_poll node rx value)) = [].
Proof.
  induction rx as [|s rx IH]; [reflexivity|].
  destruct s as [| | |f]; cbn [PP.sdo_poll]; try exact IH; try reflexivity.
  assert (Hig : tally on_write on_sleep
                  (snd (let '(r, d, rx', evs) := PP.sdo_poll node rx value in
                        (r, d, rx', EvRead f :: evs))) = []).
  { destruct (PP.sdo_poll node rx value) as [[[r d] rx'] evs]. exact IH. }
  destruct (can_id f =? 0x580 + node); [|exact Hig].
  destruct (Z.land (byte_at f 0) 0xE0 =? 0x40); [reflexivity|].
  destruct (Z.land (byte_at f 0) 0xE0 =? 0x60); [reflexivity|].
  destruct (Z.land (byte_at f 0) 0xE0 =? 0x80); [reflexivity|exact Hig].
Qed.

Lemma tally_receive (value : Z) (w : world) :
  tally on_write on_sleep (trace (sock (snd (receive_sdo_response value w))))
  = tally on_write on_sleep (trace (sock w)).
Proof.
  rewrite receive_sdo_response_poll.
  pose proof (tally_sdo_poll (current_motor_id w) (rx (sock w)) value) as H.
  destruct (PP.sdo_poll _ _ _) as [[[r d] rx'] evs].
  change (tally on_write on_sleep (trace (sock w) ++ evs)
          = tally on_write on_sleep (trace (sock w))).
  rewrite tally_app. change (tally on_write on_sleep evs = []) in H.
  now rewrite H, app_nil_r.
Qed.

Lemma tally_send (idx sub value is_write : Z) (w : world) :
  tally on_write on_sleep
    (trace (sock (snd (send_sdo_request idx sub value is_write w))))
  = tally on_write on_sleep (trace (sock w))
    ++ on_write (sdo_request_frame w idx sub value is_write).
Proof.
  rewrite send_sdo_request_eq.
  destruct (sock_write_trace (sdo_request_frame w idx sub value is_write) (sock w))
    as [Ht _].
  change (tally on_write on_sleep
            (trace (snd (sock_write (sdo_request_frame w idx sub value is_write) (sock w))))
          = tally on_write on_sleep (trace (sock w))
            ++ on_write (sdo_request_frame w idx sub value is_write)).
  rewrite Ht, tally_app. cbn [tally flat_map]. now rewrite app_nil_r.
Qed.

Lemma tally_write_sdo (idx sub value : Z) (w : world) :
  tally on_write on_sleep (trace (sock (snd (write_sdo idx sub value w))))
  = tally on_write on_sleep (trace (sock w))
    ++ on_write (sdo_request_frame w idx sub value 1).
Proof.
  rewrite write_sdo_eq.
  pose proof (tally_send idx sub value 1 w) as Hs.
  destruct (send_sdo_request idx sub value 1 w) as [r w1].
  change (tally on_write on_sleep (trace (sock w1))
          = tally on_write on_sleep (trace (sock w))
            ++ on_write (sdo_request_frame w idx sub value 1)) in Hs.
  destruct (r <? 0); [exact Hs|].
  pose proof (tally_receive 0 w1) as Hr.
  destruct (receive_sdo_response 0 w1) as [[r' d] w2].
  change (tally on_write on_sleep (trace (sock w2))
          = tally on_write on_sleep (trace (sock w1))) in Hr.
  destruct (r' <? 0); cbn [snd]; now rewrite Hr.
Qed.

Lemma tally_read_sdo (idx sub value : Z) (w : world) :
  tally on_write on_sleep (trace (sock (snd (read_sdo idx sub value w))))
  = tally on_write on_sleep (trace (sock w))
    ++ on_write (sdo_request_frame w idx sub 0 0).
Proof.
  rewrite read_sdo_eq.
  pose proof (tally_send idx sub 0 0 w) as Hs.
  destruct (send_sdo_request idx sub 0 0 w) as [r w1].
  change (tally on_write on_sleep (trace (sock w1))
          = tally on_write on_sleep (trace (sock w))
            ++ on_write (sdo_request_frame w idx sub 0 0)) in Hs.
  destruct (r <? 0); [exact Hs|].
  pose proof (tally_receive value w1) as Hr.
  destruct (receive_sdo_response value w1) as [[r' d] w2].
  change (tally on_write on_sleep (trace (sock w2))
          = tally on_write on_sleep (trace (sock w1))) in Hr.
  destruct (r' <? 0); cbn [snd]; now rewrite Hr.
Qed.

Lemma tally_usleep (usec : Z) (w : world) :
  tally on_write on_sleep (trace (sock (snd (on_sock (usleep usec) w))))
  = tally on_write on_sleep (trace (sock w)) ++ on_sleep usec.
Proof.
  rewrite on_sock_sock.
  change (tally on_write on_sleep (trace (sock w) ++ [EvSleep usec])
          = tally on_write on_sleep (trace (sock w)) ++ on_sleep usec).
  rewrite tally_app. cbn [tally flat_map]. now rewrite app_nil_r.
Qed.

End Tally.

Section RequestFrames.
Import PP Sdo Frames Move.

Lemma read_request_bytes (w : world) (idx sub value : Z) :
  data (sdo_request_frame w idx sub value 0)
  = [0x40; u8 (Z.land idx 0xFF); u8 (Z.land (Z.shiftr idx 8) 0xFF); u8 sub; 0; 0; 0; 0].
Proof. reflexivity. Qed.

Lemma write_request_command (w : world) (idx sub value : Z) :
  byte_at (sdo_request_frame w idx sub value 1) 0 = 0x2F
  \/ byte_at (sdo_request_frame w idx sub value 1) 0 = 0x2B
  \/ byte_at (sdo_request_frame w idx sub value 1) 0 = 0x23.
Proof.
  unfold sdo_request_frame, byte_at. cbn [negb Z.eqb data nth].
  destruct (get_object_size (object_dict w) idx sub =? 1); [auto|].
  destruct (get_object_size (object_dict w) idx sub =? 2); auto.
Qed.

Lemma write_request_index (w : world) (idx sub value : Z) :
  byte_at (sdo_request_frame w idx sub value 1) 1 = u8 (Z.land idx 0xFF)
  /\ byte_at (sdo_request_frame w idx sub value 1) 2
     = u8 (Z.land (Z.shiftr idx 8) 0xFF).
Proof. split; reflexivity. Qed.

(** A read request is no download; a download to 0x6040 is one, a
    download to 0x607A is not one to the control word. *)
Lemma read_is_no_download (w : world) (idx sub value : Z) :
  is_controlword_download (sdo_request_frame w idx sub value 0) = false.
Proof. reflexivity. Qed.

Lemma controlword_download (w : world) (value : Z) :
  is_controlword_download (sdo_request_frame w 0x6040 0 value 1) = true.
Proof.
  unfold is_controlword_download.
  destruct (write_request_index w 0x6040 0 value) as [-> ->].
  destruct (write_request_command w 0x6040 0 value) as [-> | [-> | ->]]; reflexivity.
Qed.

Lemma target_download (w : world) (value : Z) :
  is_controlword_download (sdo_request_frame w 0x607A 0 value 1) = false.
Proof.
  unfold is_controlword_download.
  destruct (write_request_index w 0x607A 0 value) as [-> ->].
  destruct (write_request_command w 0x607A 0 value) as [-> | [-> | ->]]; reflexivity.
Qed.

Lemma write_is_no_status_read (w : world) (idx sub value : Z) :
  is_statusword_read (sdo_request_frame w idx sub value 1) = false.
Proof.
  unfold is_statusword_read.
  destruct (write_request_command w idx sub value) as [-> | [-> | ->]]; reflexivity.
Qed.

Lemma status_read (w : world) (value : Z) :
  is_statusword_read (sdo_request_frame w 0x6041 0 value 0) = true.
Proof. reflexivity. Qed.

End RequestFrames.


(** ** The set-point handshake *)

Section Handshake.
Import PP Sdo Frames Move.

Lemma controlword_writes_read (idx sub value : Z) (w : world) :
  controlword_writes (trace (sock (snd (read_sdo idx sub value w))))
  = controlword_writes (trace (sock w)).
Proof.
  unfold controlword_writes. rewrite tally_read_sdo. cbv beta.
  now rewrite read_is_no_download, app_nil_r.
Qed.

Lemma controlword_writes_target (value : Z) (w : world) :
  controlword_writes (trace (sock (snd (write_sdo 0x607A 0 value w))))
  = controlword_writes (trace (sock w)).
Proof.
  unfold controlword_writes. rewrite tally_write_sdo. cbv beta.
  now rewrite target_download, app_nil_r.
Qed.

Lemma controlword_writes_controlword (value : Z) (w : world) :
  0 <= value < 2 ^ 32 ->
  controlword_writes (trace (sock (snd (write_sdo 0x6040 0 value w))))
  = controlword_writes (trace (sock w)) ++ [value].
Proof.
  intros Hv. unfold controlword_writes. rewrite tally_write_sdo. cbv beta.
  now rewrite controlword_download, request_payload.
Qed.

Lemma controlword_writes_usleep (usec : Z) (w : world) :
  controlword_writes (trace (sock (snd (on_sock (usleep usec) w))))
  = controlword_writes (trace (sock w)).
Proof. unfold controlword_writes. rewrite tally_usleep. apply app_nil_r. Qed.

Lemma status_polls_status_read (value : Z) (w : world) :
  status_polls (trace (sock (snd (read_sdo 0x6041 0 value w))))
  = status_polls (trace (sock w)) + 1.
Proof.
  unfold status_polls. rewrite tally_read_sdo. cbv beta.
  rewrite status_read, length_app. cbn [List.length]. lia.
Qed.

Lemma status_polls_usleep (usec : Z) (w : world) :
  status_polls (trace (sock (snd (on_sock (usleep usec) w))))
  = status_polls (trace (sock w)).
Proof. unfold status_polls. rewrite tally_usleep. now rewrite app_nil_r. Qed.

Lemma poll_sleeps_read (idx sub value : Z) (w : world) :
  poll_sleeps (trace (sock (snd (read_sdo idx sub value w))))
  = poll_sleeps (trace (sock w)).
Proof. unfold poll_sleeps. rewrite tally_read_sdo. now rewrite app_nil_r. Qed.

Lemma poll_sleeps_100ms (w : world) :
  poll_sleeps (trace (sock (snd (on_sock (usleep 100000) w))))
  = poll_sleeps (trace (sock w)) + 1.
Proof.
  unfold poll_sleeps. rewrite tally_usleep. cbv beta.
  rewrite length_app. cbn. lia.
Qed.

(** One round of the loop. *)
Lemma poll_loop_step (seen : Z -> Z -> bool) (fuel : nat) (tc sw : Z) (w : world) :
  tc < 50 ->
  poll_loop seen (S fuel) tc sw w
  = if seen (fst (fst (read_sdo 0x6041 0 sw w))) (snd (fst (read_sdo 0x6041 0 sw w)))
    then ((tc, snd (fst (read_sdo 0x6041 0 sw w))), snd (read_sdo 0x6041 0 sw w))
    else poll_loop seen fuel (tc + 1) (snd (fst (read_sdo 0x6041 0 sw w)))
           (snd (on_sock (usleep 100000) (snd (read_sdo 0x6041 0 sw w)))).
Proof.
  intros Htc. cbn [poll_loop].
  replace (tc <? 50) with true by (symmetry; now apply Z.ltb_lt).
  unfold bind, ret. destruct (read_sdo 0x6041 0 sw w) as [[r sw1] w1].
  cbn [fst snd]. destruct (seen r sw1); [reflexivity|].
  now destruct (on_sock (usleep 100000) w1) as [[] w2].
Qed.

Lemma polls_unseen_step (seen : Z -> Z -> bool) (k : nat) (sw : Z) (w : world) :
  polls_unseen seen (S k) sw w
  = negb (seen (fst (fst (read_sdo 0x6041 0 sw w))) (snd (fst (read_sdo 0x6041 0 sw w))))
    && polls_unseen seen k (snd (fst (read_sdo 0x6041 0 sw w)))
         (snd (on_sock (usleep 100000) (snd (read_sdo 0x6041 0 sw w)))).
Proof. cbn [polls_unseen]. now destruct (read_sdo 0x6041 0 sw w) as [[r sw1] w1]. Qed.

(** The loop from [tc] with the rounds left up to 50: it stops at a
    count between [tc] and 50, has asked for the status word once per
    round, has slept 100 ms after each round that did not end it, has
    written nothing to the control word, and reaches 50 exactly when no
    round saw what it waits for. *)
Lemma poll_loop_spec (seen : Z -> Z -> bool) (fuel : nat) (tc sw : Z) (w : world) :
  tc + Z.of_nat fuel = 50 ->
  let res := poll_loop seen fuel tc sw w in
  tc <= fst (fst res) <= 50
  /\ status_polls (trace (sock (snd res)))
     = status_polls (trace (sock w))
       + (if fst (fst res) <? 50 then fst (fst res) - tc + 1 else 50 - tc)
  /\ poll_sleeps (trace (sock (snd res)))
     = poll_sleeps (trace (sock w)) + (fst (fst res) - tc)
  /\ controlword_writes (trace (sock (snd res)))
     = controlword_writes (trace (sock w))
  /\ (fst (fst res) = 50 <-> polls_unseen seen fuel sw w = true)
  /\ (fst (fst res) < 50 ->
      exists r, seen r (snd (fst res)) = true).
Proof.
  cbv zeta. revert tc sw w. induction fuel as [|fuel IH]; intros tc sw w Hsum.
  - cbn [poll_loop ret fst snd polls_unseen].
    replace (tc <? 50) with false by (symmetry; apply Z.ltb_ge; lia).
    repeat split; try lia; auto.
  - rewrite poll_loop_step, polls_unseen_step by lia.
    pose proof (status_polls_status_read sw w) as Hsp.
    pose proof (poll_sleeps_read 0x6041 0 sw w) as Hsl.
    pose proof (controlword_writes_read 0x6041 0 sw w) as Hcw.
    destruct (read_sdo 0x6041 0 sw w) as [[r sw1] w1]. 
    change (status_polls (trace (sock w1)) = status_polls (trace (sock w)) + 1) in Hsp.
    change (poll_sleeps (trace (sock w1)) = poll_sleeps (trace (sock w))) in Hsl.
    change (controlword_writes (trace (sock w1)) = controlword_writes (trace (sock w))) in Hcw.
    change (fst (fst (r, sw1, w1))) with r. change (snd (fst (r, sw1, w1))) with sw1.
    change (snd (r, sw1, w1)) with w1.
    destruct (seen r sw1) eqn:Hseen.
    + change (fst (fst (tc, sw1, w1))) with tc. change (snd (fst (tc, sw1, w1))) with sw1.
      change (snd (tc, sw1, w1)) with w1.
      replace (tc <? 50) with true by (symmetry; apply Z.ltb_lt; lia).
      cbn [negb andb].
      repeat split; try lia; try assumption; try discriminate.
      intros _. now exists r.
    + cbn [negb andb].
      specialize (IH (tc + 1) sw1 (snd (on_sock (usleep 100000) w1))).
      destruct IH as (Hb & Hp & Hs & Hc & Hiff & Hlt); [lia|].
      rewrite status_polls_usleep in Hp. rewrite poll_sleeps_100ms in Hs.
      rewrite controlword_writes_usleep in Hc.
      set (res := poll_loop seen fuel (tc + 1) sw1 (snd (on_sock (usleep 100000) w1))) in *.
      split; [lia|]. split.
      { rewrite Hp, Hsp. destruct (fst (fst res) <? 50); lia. }
      split; [rewrite Hs, Hsl; lia|].
      split; [now rewrite Hc|].
      split; [exact Hiff|exact Hlt].
Qed.

Lemma wait_setpoint_ack_loop (fuel : nat) (tc sw : Z) (w : world) :
  wait_setpoint_ack fuel tc sw w = poll_loop ack_seen fuel tc sw w.
Proof.
  revert tc sw w. induction fuel as [|fuel IH]; intros tc sw w; [reflexivity|].
  cbn [wait_setpoint_ack poll_loop]. destruct (tc <? 50); [|reflexivity].
  unfold bind. destruct (read_sdo 0x6041 0 sw w) as [[r sw1] w1].
  unfold ack_seen. destruct ((r =? 0) && negb (Z.land sw1 0x1000 =? 0)); [reflexivity|].
  destruct (on_sock (usleep 100000) w1) as [[] w2]. apply IH.
Qed.

Lemma wait_setpoint_clear_loop (fuel : nat) (tc sw : Z) (w : world) :
  wait_setpoint_clear fuel tc sw w = poll_loop clear_seen fuel tc sw w.
Proof.
  revert tc sw w. induction fuel as [|fuel IH]; intros tc sw w; [reflexivity|].
  cbn [wait_setpoint_clear poll_loop]. destruct (tc <? 50); [|reflexivity].
  unfold bind. destruct (read_sdo 0x6041 0 sw w) as [[r sw1] w1].
  unfold clear_seen. destruct ((r =? 0) && (Z.land sw1 0x1000 =? 0)); [reflexivity|].
  destruct (on_sock (usleep 100000) w1) as [[] w2]. apply IH.
Qed.

(** More fuel than the 50 rounds changes nothing: the loops leave
    through their guard or their [break]. *)
Lemma poll_loop_fuel (seen : Z -> Z -> bool) (fuel extra : nat) (tc sw : Z) (w : world) :
  50 <= tc + Z.of_nat fuel ->
  poll_loop seen (fuel + extra) tc sw w = poll_loop seen fuel tc sw w.
Proof.
  revert tc sw w. induction fuel as [|fuel IH]; intros tc sw w Hsum.
  - destruct extra as [|extra]; [reflexivity|]. cbn [Nat.add poll_loop].
    replace (tc <? 50) with false by (symmetry; apply Z.ltb_ge; lia). reflexivity.
  - cbn [Nat.add poll_loop]. destruct (tc <? 50); [|reflexivity].
    unfold bind. destruct (read_sdo 0x6041 0 sw w) as [[r sw1] w1].
    destruct (seen r sw1); [reflexivity|].
    destruct (on_sock (usleep 100000) w1) as [[] w2]. apply IH. lia.
Qed.

End Handshake.


Section Bits32.

Lemma bits_of_u32 (x n : Z) : 0 <= x < 2 ^ 32 -> 32 <= n -> Z.testbit x n = false.
Proof.
  intros Hx Hn. destruct (Z.eq_dec x 0) as [->|Hnz]; [apply Z.bits_0|].
  apply Z.bits_above_log2; [lia|].
  apply Z.lt_le_trans with 32; [|exact Hn]. apply Z.log2_lt_pow2; lia.
Qed.

Lemma u32_of_bits (x : Z) :
  0 <= x -> (forall n, 32 <= n -> Z.testbit x n = false) -> 0 <= x < 2 ^ 32.
Proof.
  intros Hx Hb. split; [exact Hx|].
  destruct (Z.eq_dec x 0) as [->|Hnz]; [reflexivity|].
  apply Z.log2_lt_pow2; [lia|].
  destruct (Z.lt_ge_cases (Z.log2 x) 32) as [Hlt|Hge]; [exact Hlt|].
  specialize (Hb (Z.log2 x) Hge). rewrite Z.bit_log2 in Hb by lia. discriminate.
Qed.

Lemma lor_u32 (x y : Z) :
  0 <= x < 2 ^ 32 -> 0 <= y < 2 ^ 32 -> 0 <= Z.lor x y < 2 ^ 32.
Proof.
  intros Hx Hy. apply u32_of_bits.
  - apply Z.lor_nonneg. lia.
  - intros n Hn. now rewrite Z.lor_spec, (bits_of_u32 x), (bits_of_u32 y).
Qed.

Lemma land_u32 (x y : Z) :
  0 <= x < 2 ^ 32 -> 0 <= y -> 0 <= Z.land x y < 2 ^ 32.
Proof.
  intros Hx Hy. apply u32_of_bits.
  - apply Z.land_nonneg. lia.
  - intros n Hn. now rewrite Z.land_spec, (bits_of_u32 x).
Qed.

(** [x | 0x10]: bit 4 set, the other bits as in [x]. *)
Lemma set_bit4 (x n : Z) :
  0 <= n -> Z.testbit (Z.lor x 0x10) n = (n =? 4) || Z.testbit x n.
Proof.
  intros Hn. rewrite Z.lor_spec. change 0x10 with (2 ^ 4).
  rewrite Z.pow2_bits_eqb by lia. rewrite (Z.eqb_sym 4 n). apply orb_comm.
Qed.

(** [x & ~0x10] on 32 bits: bit 4 cleared, the other bits as in [x]. *)
Lemma clear_bit4 (x n : Z) :
  0 <= x < 2 ^ 32 -> 0 <= n ->
  Z.testbit (Z.land x (not32 0x10)) n = negb (n =? 4) && Z.testbit x n.
Proof.
  intros Hx Hn.
  assert (E : Z.testbit (not32 0x10) n = (n <? 32) && negb (n =? 4)).
  { replace (not32 0x10) with (Z.ldiff (Z.ones 32) (Z.pow 2 4)) by reflexivity.
    rewrite Z.ldiff_spec, (Z.pow2_bits_eqb 4 n) by lia.
    rewrite Z.testbit_ones_nonneg by lia. now rewrite (Z.eqb_sym 4 n). }
  rewrite Z.land_spec, E.
  destruct (Z.ltb_spec n 32) as [Hlt|Hge].
  - cbn [andb]. apply andb_comm.
  - rewrite (bits_of_u32 x n Hx Hge). now destruct (n =? 4).
Qed.

End Bits32.

Section MoveSteps.
Import PP Sdo Frames Move.

Lemma sdo_poll_result (node : Z) (rx : list slice) (value : Z) :
  fst (fst (fst (PP.sdo_poll node rx value))) = -1
  \/ (fst (fst (fst (PP.sdo_poll node rx value))) = 0
      /\ 0 <= snd (fst (fst (PP.sdo_poll node rx value))) < 2 ^ 32).
Proof.
  induction rx as [|s rx IH]; [now left|].
  destruct s as [| | |f]; cbn [PP.sdo_poll]; try exact IH; [now left|].
  assert (Hig : forall x : Z * Z * list slice * list event,
             x = (let '(r, d, rx', evs) := PP.sdo_poll node rx value in
                  (r, d, rx', EvRead f :: evs)) ->
             fst (fst (fst x)) = -1
             \/ (fst (fst (fst x)) = 0 /\ 0 <= snd (fst (fst x)) < 2 ^ 32)).
  { intros x ->. now destruct (PP.sdo_poll node rx value) as [[[r d] rx'] evs]. }
  destruct (can_id f =? 0x580 + node); [|now apply Hig].
  destruct (Z.land (byte_at f 0) 0xE0 =? 0x40).
  { right. split; [reflexivity|]. apply u32_range. }
  destruct (Z.land (byte_at f 0) 0xE0 =? 0x60).
  { right. split; [reflexivity|]. cbn [fst snd]. lia. }
  destruct (Z.land (byte_at f 0) 0xE0 =? 0x80); [now left|now apply Hig].
Qed.

(** [read_sdo] returns -1, or 0 with a 32-bit value. *)
Lemma read_sdo_result (idx sub value : Z) (w : world) :
  fst (fst (read_sdo idx sub value w)) = -1
  \/ (fst (fst (read_sdo idx sub value w)) = 0
      /\ 0 <= snd (fst (read_sdo idx sub value w)) < 2 ^ 32).
Proof.
  rewrite read_sdo_eq. destruct (send_sdo_request idx sub 0 0 w) as [r w1].
  destruct (r <? 0); [now left|].
  rewrite receive_sdo_response_poll.
  pose proof (sdo_poll_result (current_motor_id w1) (rx (sock w1)) value) as H.
  destruct (PP.sdo_poll _ _ _) as [[[r' d] rx'] evs].
  destruct H as [H|[H Hd]]; cbn [fst snd] in H; subst r'; [now left|].
  right. cbn [fst snd Z.ltb Z.compare] in *. now split.
Qed.

Lemma write_sdo_result (idx sub value : Z) (w : world) :
  fst (write_sdo idx sub value w) = -1 \/ fst (write_sdo idx sub value w) = 0.
Proof.
  rewrite write_sdo_eq. destruct (send_sdo_request idx sub value 1 w) as [r w1].
  destruct (r <? 0); [now left|].
  destruct (receive_sdo_response 0 w1) as [[r' d] w2].
  destruct (r' <? 0); auto.
Qed.

(** [execute_position_move] is its first three steps followed by the
    wait for bit 12, the release write and the rest. *)
Lemma execute_via_request (t : Z) (w : world) :
  execute_position_move t w
  = match fst (request_setpoint t w) with
    | None => (-1, snd (request_setpoint t w))
    | Some ncw =>
        let res := wait_setpoint_ack 50 0 0 (snd (request_setpoint t w)) in
        if fst (fst res) >=? 50 then (-1, snd res)
        else if fst (write_sdo 0x6040 0 (release_value ncw) (snd res)) <? 0
             then (-1, snd (write_sdo 0x6040 0 (release_value ncw) (snd res)))
             else finish_move (snd (fst res))
                    (snd (write_sdo 0x6040 0 (release_value ncw) (snd res)))
    end.
Proof.
  unfold execute_position_move, request_setpoint, finish_move, release_value.
  destruct (t >? MAX_POSITION); [reflexivity|].
  destruct (t <? MIN_POSITION); [reflexivity|].
  unfold bind, ret.
  destruct (read_sdo 0x6064 0 0 w) as [x0 w1]; cbv beta iota.
  destruct (write_sdo 0x607A 0 (u32 t) w1) as [r2 w2]; cbv beta iota.
  destruct (r2 <? 0); [reflexivity|].
  destruct (read_sdo 0x6040 0 0 w2) as [[r3 cw] w3]; cbv beta iota.
  destruct (r3 <? 0); [reflexivity|].
  cbv zeta.
  destruct (write_sdo 0x6040 0 (u32 (Z.lor cw 0x10)) w3) as [r4 w4]; cbv beta iota.
  destruct (r4 <? 0); [reflexivity|].
  cbn [fst snd].
  destruct (wait_setpoint_ack 50 0 0 w4) as [[tc sw] w5]; cbv beta iota.
  cbn [fst snd]. destruct (tc >=? 50); [reflexivity|].
  destruct (write_sdo 0x6040 0 (Z.land (u32 (Z.lor cw 0x10)) (not32 0x10)) w5) as [r6 w6];
    cbv beta iota.
  cbn [fst snd]. destruct (r6 <? 0); reflexivity.
Qed.

End MoveSteps.


Section MoveClaims.
Import PP Sdo Frames Move Samples SampleFrames.

Lemma request_setpoint_some (t : Z) (w w4 : world) (ncw : Z) :
  request_setpoint t w = (Some ncw, w4) ->
  (MIN_POSITION <= t <= MAX_POSITION)
  /\ fst (fst (read_sdo 0x6040 0 0 (before_controlword_read t w))) = 0
  /\ 0 <= snd (fst (read_sdo 0x6040 0 0 (before_controlword_read t w))) < 2 ^ 32
  /\ ncw = Z.lor (snd (fst (read_sdo 0x6040 0 0 (before_controlword_read t w)))) 0x10
  /\ w4 = snd (write_sdo 0x6040 0 ncw
                 (snd (read_sdo 0x6040 0 0 (before_controlword_read t w))))
  /\ controlword_writes (trace (sock w4))
     = controlword_writes (trace (sock w)) ++ [ncw].
Proof.
  unfold request_setpoint, before_controlword_read.
  destruct (t >? MAX_POSITION) eqn:Hmax; [discriminate|].
  destruct (t <? MIN_POSITION) eqn:Hmin; [discriminate|].
  unfold bind, ret.
  pose proof (controlword_writes_read 0x6064 0 0 w) as C1.
  destruct (read_sdo 0x6064 0 0 w) as [x0 w1]. cbv beta iota.
  change (snd (x0, w1)) with w1 in *.
  pose proof (controlword_writes_target (u32 t) w1) as C2.
  destruct (write_sdo 0x607A 0 (u32 t) w1) as [r2 w2].
  change (snd (r2, w2)) with w2 in *.
  destruct (r2 <? 0); [discriminate|].
  pose proof (controlword_writes_read 0x6040 0 0 w2) as C3.
  pose proof (read_sdo_result 0x6040 0 0 w2) as R3.
  destruct (read_sdo 0x6040 0 0 w2) as [[r3 cw] w3].
  change (snd (r3, cw, w3)) with w3 in *.
  change (fst (fst (r3, cw, w3))) with r3 in *.
  change (snd (fst (r3, cw, w3))) with cw in *.
  destruct (r3 <? 0) eqn:Hr3; [discriminate|].
  destruct R3 as [->|[-> Hcw]]; [discriminate|].
  assert (Hset : 0 <= Z.lor cw 0x10 < 2 ^ 32) by (apply lor_u32; [exact Hcw|lia]).
  rewrite (u32_small _ Hset).
  pose proof (controlword_writes_controlword (Z.lor cw 0x10) w3 Hset) as C4.
  destruct (write_sdo 0x6040 0 (Z.lor cw 0x10) w3) as [r4 w4'] eqn:Hwr.
  change (snd (r4, w4')) with w4' in *.
  destruct (r4 <? 0); [discriminate|].
  intros H. injection H as <- <-.
  repeat split; try assumption; try reflexivity; try (apply Hcw).
  - apply Z.ltb_ge. exact Hmin.
  - rewrite Z.gtb_ltb in Hmax. apply Z.ltb_ge. exact Hmax.
  - now rewrite Hwr.
  - now rewrite C4, C3, C2, C1.
Qed.

Lemma finish_move_eq (sw : Z) (w : world) :
  finish_move sw w
  = (0, snd (read_sdo 0x6064 0 0
               (snd (read_sdo 0x6064 0 0
                       (snd (on_sock (usleep 1000000)
                               (snd (wait_setpoint_clear 50 0 sw w)))))))).
Proof.
  unfold finish_move, print_command_help, bind, ret.
  destruct (wait_setpoint_clear 50 0 sw w) as [x1 w1]. cbv beta iota. cbn [snd].
  destruct (on_sock (usleep 1000000) w1) as [x2 w2]. cbv beta iota. cbn [snd].
  destruct (read_sdo 0x6064 0 0 w2) as [x3 w3]. cbv beta iota. cbn [snd].
  now destruct (read_sdo 0x6064 0 0 w3) as [x4 w4].
Qed.

Lemma controlword_writes_finish (sw : Z) (w : world) :
  controlword_writes (trace (sock (snd (finish_move sw w))))
  = controlword_writes (trace (sock w)).
Proof.
  rewrite finish_move_eq.
  change (snd (0, ?x)) with x.
  rewrite !controlword_writes_read, controlword_writes_usleep, wait_setpoint_clear_loop.
  now destruct (poll_loop_spec clear_seen 50 0 sw w eq_refl) as (_ & _ & _ & H & _).
Qed.

(** C4: in a move that returns 0, the value read from 0x6040, [cw], is
    written back twice and no other value is written to the control
    word: first [cw | 0x10], which is [cw] with bit 4 set and every other
    bit unchanged, then that value and 0xFFFFFFEF, which is it with bit 4
    cleared and every other bit unchanged. *)
Theorem setpoint_is_read_modify_write (t : Z) (w : world) :
  fst (execute_position_move t w) = 0 ->
  exists cw : Z,
    fst (read_sdo 0x6040 0 0 (before_controlword_read t w)) = (0, cw)
    /\ 0 <= cw < 2 ^ 32
    /\ controlword_writes (trace (sock (snd (execute_position_move t w))))
       = controlword_writes (trace (sock w))
         ++ [Z.lor cw 0x10; Z.land (Z.lor cw 0x10) 0xFFFFFFEF]
    /\ (forall n : Z, 0 <= n ->
          Z.testbit (Z.lor cw 0x10) n = (n =? 4) || Z.testbit cw n)
    /\ (forall n : Z, 0 <= n ->
          Z.testbit (Z.land (Z.lor cw 0x10) 0xFFFFFFEF) n
          = negb (n =? 4) && Z.testbit (Z.lor cw 0x10) n).
Proof.
  rewrite execute_via_request.
  destruct (request_setpoint t w) as [[ncw|] w4] eqn:Hreq; [|discriminate].
  destruct (request_setpoint_some t w w4 ncw Hreq) as (_ & Hr & Hcw & Hn & _ & Hw4).
  change (fst (Some ncw, w4)) with (Some ncw). change (snd (Some ncw, w4)) with w4.
  cbv beta iota zeta.
  rewrite wait_setpoint_ack_loop.
  destruct (poll_loop_spec ack_seen 50 0 0 w4 eq_refl) as (_ & _ & _ & Hw5 & _).
  set (res := poll_loop ack_seen 50 0 0 w4) in *.
  destruct (fst (fst res) >=? 50); [discriminate|].
  assert (Hset : 0 <= ncw < 2 ^ 32) by (subst ncw; apply lor_u32; [exact Hcw|lia]).
  assert (Hrel : 0 <= release_value ncw < 2 ^ 32).
  { unfold release_value. apply land_u32; [exact Hset|]. apply u32_range. }
  pose proof (controlword_writes_controlword (release_value ncw) (snd res) Hrel) as Hw6.
  set (rel := write_sdo 0x6040 0 (release_value ncw) (snd res)) in *.
  destruct (fst rel <? 0); [discriminate|].
  intros _.
  exists (snd (fst (read_sdo 0x6040 0 0 (before_controlword_read t w)))).
  split.
  { rewrite <- Hr at 3. now destruct (read_sdo 0x6040 0 0 (before_controlword_read t w)) as [[a b] c]. }
  split; [exact Hcw|].
  split.
  { rewrite controlword_writes_finish, Hw6, Hw5, Hw4, <- app_assoc, <- Hn. reflexivity. }
  split.
  { intros n Hn0. apply set_bit4, Hn0. }
  intros n Hn0. rewrite <- Hn. apply (clear_bit4 ncw n Hset Hn0).
Qed.

(** C4 on a whole move of node 2 whose control word reads 0x000F: 0x001F
    then 0x000F are written. *)
Lemma setpoint_is_read_modify_write_witness :
  exists cw : Z,
    fst (read_sdo 0x6040 0 0 (before_controlword_read 1000 (hears move_dialogue)))
    = (0, cw)
    /\ controlword_writes
         (trace (sock (snd (execute_position_move 1000 (hears move_dialogue)))))
       = controlword_writes (trace (sock (hears move_dialogue)))
         ++ [Z.lor cw 0x10; Z.land (Z.lor cw 0x10) 0xFFFFFFEF].
Proof.
  assert (H0 : fst (execute_position_move 1000 (hears move_dialogue)) = 0)
    by (vm_compute; reflexivity).
  destruct (setpoint_is_read_modify_write 1000 (hears move_dialogue) H0)
    as (cw & Hr & _ & Hw & _).
  exists cw. split; [exact Hr|exact Hw].
Defined.

(** C5: once the set-point is requested, the wait for bit 12 asks for
    the status word at most 50 times, sleeping 100 ms after each poll
    that does not show the bit.  When none of the 50 polls shows it,
    [execute_position_move] returns -1 right after the wait: the only
    control-word write of the move is the request, the release is not
    written.  When a poll shows it and the release write succeeds, the
    function returns 0 whatever the second wait, for bit 12 cleared,
    meets; that wait has the same bound of 50 polls and may use it up. *)
Theorem setpoint_ack_timeout_is_fatal (t : Z) (w w4 : world) (ncw : Z) :
  request_setpoint t w = (Some ncw, w4) ->
  let ack := wait_setpoint_ack 50 0 0 w4 in
  let released := write_sdo 0x6040 0 (release_value ncw) (snd ack) in
  let clr := wait_setpoint_clear 50 0 (snd (fst ack)) (snd released) in
  0 <= fst (fst ack) <= 50
  /\ status_polls (trace (sock (snd ack))) - status_polls (trace (sock w4))
     = (if fst (fst ack) <? 50 then fst (fst ack) + 1 else 50)
  /\ poll_sleeps (trace (sock (snd ack))) - poll_sleeps (trace (sock w4))
     = fst (fst ack)
  /\ (fst (fst ack) = 50 <-> polls_unseen ack_seen 50 0 w4 = true)
  /\ (polls_unseen ack_seen 50 0 w4 = true ->
      execute_position_move t w = (-1, snd ack)
      /\ controlword_writes (trace (sock (snd ack)))
         = controlword_writes (trace (sock w)) ++ [ncw])
  /\ (polls_unseen ack_seen 50 0 w4 = false ->
      fst released = 0 ->
      fst (execute_position_move t w) = 0
      /\ 0 <= fst (fst clr) <= 50
      /\ status_polls (trace (sock (snd clr)))
         - status_polls (trace (sock (snd released)))
         = (if fst (fst clr) <? 50 then fst (fst clr) + 1 else 50)
      /\ (fst (fst clr) = 50
          <-> polls_unseen clear_seen 50 (snd (fst ack)) (snd released) = true)).
Proof.
  intros Hreq. cbv zeta.
  destruct (request_setpoint_some t w w4 ncw Hreq) as (_ & _ & _ & _ & _ & Hw4).
  rewrite execute_via_request, Hreq.
  change (fst (Some ncw, w4)) with (Some ncw). change (snd (Some ncw, w4)) with w4.
  cbv beta iota zeta.
  rewrite !wait_setpoint_ack_loop.
  destruct (poll_loop_spec ack_seen 50 0 0 w4 eq_refl) as (Hb & Hp & Hs & Hc & Hiff & _).
  set (ack := poll_loop ack_seen 50 0 0 w4) in *.
  split; [exact Hb|].
  split; [rewrite Hp; destruct (fst (fst ack) <? 50); lia|].
  split; [rewrite Hs; lia|].
  split; [exact Hiff|].
  split.
  - intros Hun. apply Hiff in Hun. rewrite Hun. cbn [Z.geb Z.compare].
    split; [reflexivity|]. now rewrite Hc, Hw4.
  - intros Hseen Hrel.
    assert (Hlt : fst (fst ack) < 50).
    { destruct (Z.eq_dec (fst (fst ack)) 50) as [E|E]; [|lia].
      apply Hiff in E. congruence. }
    replace (fst (fst ack) >=? 50) with false by (symmetry; rewrite Z.geb_leb; apply Z.leb_gt; lia).
    rewrite Hrel. cbn [Z.ltb Z.compare].
    rewrite finish_move_eq. split; [reflexivity|].
    rewrite wait_setpoint_clear_loop.
    destruct (poll_loop_spec clear_seen 50 0 (snd (fst ack))
                (snd (write_sdo 0x6040 0 (release_value ncw) (snd ack))) eq_refl)
      as (Hb2 & Hp2 & _ & _ & Hiff2 & _).
    set (clr := poll_loop clear_seen 50 0 _ _) in *.
    split; [exact Hb2|].
    split; [rewrite Hp2; destruct (fst (fst clr) <? 50); lia|exact Hiff2].
Qed.

(** C5 on two moves of node 2: one whose release is acknowledged while
    bit 12 never clears, which returns 0 after 50 polls of the second
    wait, and one whose set-point is never acknowledged, which returns
    -1. *)
Lemma setpoint_ack_timeout_is_fatal_witness :
  (fst (execute_position_move 1000 (hears never_cleared)) = 0
   /\ fst (fst (wait_setpoint_clear 50 0
                  (snd (fst (wait_setpoint_ack 50 0 0
                               (snd (request_setpoint 1000 (hears never_cleared))))))
                  (snd (write_sdo 0x6040 0 (release_value 0x1F)
                          (snd (wait_setpoint_ack 50 0 0
                                  (snd (request_setpoint 1000 (hears never_cleared))))))))) <= 50)
  /\ fst (execute_position_move 1000 (hears unacknowledged)) = -1.
Proof.
  split.
  - destruct (setpoint_ack_timeout_is_fatal 1000 (hears never_cleared)
                (snd (request_setpoint 1000 (hears never_cleared))) 0x1F eq_refl)
      as (_ & _ & _ & _ & _ & H).
    destruct H as (H0 & Hb & _); [vm_compute; reflexivity|vm_compute; reflexivity|].
    split; [exact H0|apply Hb].
  - destruct (setpoint_ack_timeout_is_fatal 1000 (hears unacknowledged)
                (snd (request_setpoint 1000 (hears unacknowledged))) 0x1F eq_refl)
      as (_ & _ & _ & _ & H & _).
    destruct H as [H _]; [vm_compute; reflexivity|].
    rewrite H. reflexivity.
Defined.

End MoveClaims.

(** * Further properties *)

(** ** The EDS parser and the table *)

Section ParserFurther.
Import PP Eds Further.

Lemma get_data_type_size_wire (data_type : Z) :
  wire_size (get_data_type_size data_type).
Proof.
  unfold get_data_type_size, wire_size.
  repeat match goal with
         | |- context [if ?c then _ else _] => destruct c
         end; auto.
Qed.

Lemma parse_line_bounds (buf : string) (st : eds_state) :
  (List.length (dict st) <= 100)%nat ->
  Forall (fun e => wire_size (data_size e)) (dict st) ->
  (List.length (dict (parse_line buf st)) <= 100)%nat
  /\ Forall (fun e => wire_size (data_size e)) (dict (parse_line buf st)).
Proof.
  intros Hlen Hsz.
  destruct (parse_line_dict buf st) as [E|(E & _ & _ & Hlt)]; rewrite E.
  - now split.
  - split.
    + rewrite length_app. cbn [List.length]. lia.
    + apply Forall_app. split; [exact Hsz|].
      constructor; [|constructor]. apply get_data_type_size_wire.
Qed.

Lemma parse_lines_bounds (lines : list string) (st : eds_state) :
  (List.length (dict st) <= 100)%nat ->
  Forall (fun e => wire_size (data_size e)) (dict st) ->
  (List.length (dict (parse_lines lines st)) <= 100)%nat
  /\ Forall (fun e => wire_size (data_size e)) (dict (parse_lines lines st)).
Proof.
  revert st. induction lines as [|l lines IH]; intros st Hlen Hsz; [now split|].
  rewrite parse_lines_cons.
  destruct (parse_line_bounds l st Hlen Hsz) as [Hlen' Hsz'].
  now apply IH.
Qed.

(** X1: [parse_eds_file] never fills the table beyond the 100 cells of
    [object_dict]: from a table of at most 100 entries with sizes among
    1, 2, 4, 8 it leaves such a table, which starts with the entries
    that were there; and [get_object_size] then answers 1, 2, 4 or 8 for
    every object. *)
Theorem object_dict_stays_within_array (file : option string) (w : world) :
  (List.length (object_dict w) <= 100)%nat ->
  Forall (fun e => wire_size (data_size e)) (object_dict w) ->
  (List.length (object_dict (snd (parse_eds_file file w))) <= 100)%nat
  /\ Forall (fun e => wire_size (data_size e))
            (object_dict (snd (parse_eds_file file w)))
  /\ (exists more,
         object_dict (snd (parse_eds_file file w)) = object_dict w ++ more)
  /\ (forall idx sub : Z,
         wire_size (get_object_size (object_dict (snd (parse_eds_file file w)))
                                    idx sub)).
Proof.
  intros Hlen Hsz.
  assert (H : (List.length (object_dict (snd (parse_eds_file file w))) <= 100)%nat
              /\ Forall (fun e => wire_size (data_size e))
                        (object_dict (snd (parse_eds_file file w)))).
  { destruct file as [f|]; [|now split].
    apply (parse_lines_bounds (file_lines 256 f) (mk_eds 0 0 0 false (object_dict w)));
      assumption. }
  destruct H as [Hlen' Hsz'].
  split; [exact Hlen'|]. split; [exact Hsz'|]. split.
  - destruct file as [f|]; [|exists []; now rewrite app_nil_r].
    apply (parse_lines_extends (file_lines 256 f) (mk_eds 0 0 0 false (object_dict w))).
  - intros idx sub. unfold get_object_size.
    destruct (find _ _) as [e|] eqn:F.
    + apply find_some in F as [Hin _]. rewrite Forall_forall in Hsz'. now apply Hsz'.
    + unfold wire_size.
      destruct (idx =? 0x6040); [auto|]. destruct (idx =? 0x6060); [auto|].
      destruct ((idx =? 0x6081) || (idx =? 0x6083) || (idx =? 0x6084)); auto.
Qed.

(** X1 on a file of 150 sections read into the empty table. *)
Lemma object_dict_stays_within_array_witness :
  (List.length
     (object_dict (snd (parse_eds_file (Some (Samples.eds_many 150))
                                       (initial_world Samples.silent_bus))))
   <= 100)%nat.
Proof.
  destruct (object_dict_stays_within_array (Some (Samples.eds_many 150))
              (initial_world Samples.silent_bus)) as [H _].
  - cbn. lia.
  - constructor.
  - exact H.
Defined.

Lemma find_app_some {A} (p : A -> bool) (l1 l2 : list A) :
  find p l1 <> None -> find p (l1 ++ l2) = find p l1.
Proof.
  induction l1 as [|x l1 IH]; cbn; [congruence|].
  destruct (p x); [reflexivity|exact IH].
Qed.

(** X2: the first stored entry of an object decides: whatever the rest
    of the file declares, a later section for the same index and
    subindex does not change what [get_object_size] returns for it. *)
Theorem first_entry_wins (lines more : list string) (st : eds_state) (idx sub : Z) :
  ~ absent (dict (parse_lines lines st)) idx sub ->
  get_object_size (dict (parse_lines (lines ++ more) st)) idx sub
  = get_object_size (dict (parse_lines lines st)) idx sub.
Proof.
  unfold absent. intros H. rewrite parse_lines_app.
  destruct (parse_lines_extends more (parse_lines lines st)) as [ext ->].
  unfold get_object_size. now rewrite find_app_some.
Qed.

(** X2 on a file that declares 0x6060 as INTEGER8 and then again as
    UNSIGNED32: the size stays 1. *)
Lemma first_entry_wins_witness :
  get_object_size
    (dict (parse_lines
             (file_lines 256 (Samples.entry_text "6060" "0002")
              ++ file_lines 256 (Samples.entry_text "6060" "0007"))
             (mk_eds 0 0 0 false []))) 0x6060 0
  = 1.
Proof.
  rewrite first_entry_wins; [reflexivity|].
  unfold absent. vm_compute. discriminate.
Defined.

Lemma cut_eol_cstr_app (s t : string) (c : ascii) :
  c = CR \/ c = LF \/ c = NUL ->
  cut_eol (cstr (s ++ String c t)) = cut_eol (cstr s).
Proof.
  intros Hc. induction s as [|d s IH]; cbn [append cstr].
  - destruct Hc as [ -> | [ -> | -> ] ]; reflexivity.
  - destruct (Ascii.eqb d NUL); [reflexivity|]. cbn [cut_eol].
    destruct (Ascii.eqb d CR || Ascii.eqb d LF); [reflexivity|]. now rewrite IH.
Qed.

(** X3: in a buffer, everything from the first carriage return, line
    feed or NUL on is ignored: a line ended by CR LF is parsed like the
    line alone. *)
Theorem line_end_is_ignored (s t : string) (c : ascii) (st : eds_state) :
  c = CR \/ c = LF \/ c = NUL ->
  parse_line (s ++ String c t) st = parse_line s st.
Proof.
  intros Hc. unfold parse_line. now rewrite (cut_eol_cstr_app s t c Hc).
Qed.

(** X3 on a [DataType=] line ended by CR LF. *)
Lemma line_end_is_ignored_witness :
  parse_line ("DataType=0x0007" ++ String CR (String LF EmptyString))
             (mk_eds 0x607A 0 0 true [])
  = parse_line "DataType=0x0007" (mk_eds 0x607A 0 0 true []).
Proof. apply line_end_is_ignored. now left. Defined.




End ParserFurther.

(** ** Transactions, further *)

Section TransactionsFurther.
Import PP Sdo Frames Further Samples SampleFrames.

Lemma sock_write_ok (f : can_frame) (b : bus) :
  send_ok b = true -> (fst (sock_write f b) <? 0) = false.
Proof.
  unfold send_ok, sock_write. destruct (wr b) as [|r more]; [reflexivity|].
  intros H. apply Z.leb_le in H. apply Z.ltb_ge. exact H.
Qed.

Lemma sock_write_bus (f : can_frame) (b : bus) :
  snd (sock_write f b)
  = mk_bus (rx b) (tl (wr b)) (trace b ++ [EvWrite f (fst (sock_write f b))]).
Proof. unfold sock_write. now destruct (wr b). Qed.

(** A transaction whose request is written and whose wait ends on the
    response [f] of the node. *)
Lemma transaction_on_response (w : world) (idx sub v value : Z)
    (skipped rest : list slice) (f : can_frame) :
  send_ok (sock w) = true ->
  rx (sock w) = skipped ++ Received f :: rest ->
  forallb (passes (sdo_response_of (current_motor_id w))) skipped = true ->
  sdo_response_of (current_motor_id w) f = true ->
  fst (write_sdo idx sub v w) = (if command f =? 0x80 then -1 else 0)
  /\ fst (read_sdo idx sub value w)
     = (if command f =? 0x80 then -1 else 0,
        if command f =? 0x40 then payload_u32 f
        else if command f =? 0x60 then 0 else value)
  /\ rx (sock (snd (write_sdo idx sub v w))) = rest
  /\ rx (sock (snd (read_sdo idx sub value w))) = rest.
Proof.
  intros Hok Hrx Hp Hf.
  assert (Hrecv : forall x fr,
             receive_sdo_response x
               (with_sock (snd (sock_write fr (sock w))) w)
             = ((if command f =? 0x80 then -1 else 0,
                 if command f =? 0x40 then payload_u32 f
                 else if command f =? 0x60 then 0 else x),
                with_sock
                  (mk_bus rest (tl (wr (sock w)))
                     ((trace (sock w) ++ [EvWrite fr (fst (sock_write fr (sock w)))])
                      ++ reads_of skipped
                      ++ [EvRead f;
                          EvDebug
                            (if command f =? 0x40 then DbgUpload (payload_u32 f)
                             else if command f =? 0x60 then DbgDownload
                             else DbgError (byte_at f 4) (byte_at f 5)
                                           (byte_at f 6) (byte_at f 7))])) w)).
  { intros x fr. rewrite receive_sdo_response_poll, sock_write_bus.
    cbn [with_sock sock rx wr trace current_motor_id].
    rewrite Hrx, (sdo_poll_skip _ _ _ _ Hp).
    apply response_cases in Hf as [Hc Hcmd].
    cbn [PP.sdo_poll]. rewrite Hc. fold (command f).
    destruct Hcmd as [E|[E|E]]; rewrite E; reflexivity. }
  rewrite write_sdo_eq, read_sdo_eq, !send_sdo_request_eq.
  rewrite !sock_write_ok by exact Hok.
  rewrite !Hrecv.
  destruct (command f =? 0x80); cbn [Z.ltb Z.compare fst snd with_sock sock rx];
    repeat split; reflexivity.
Qed.

(** X5: a value survives the wire: when the drive answers a read with
    the bytes 1..7 of a write request for a 32-bit value [v] (index,
    subindex and the four data bytes), [read_sdo] returns [v]. *)
Theorem sdo_value_round_trip (w : world) (idx sub v value : Z) (rest : list slice) :
  0 <= v < 2 ^ 32 ->
  send_ok (sock w) = true ->
  rx (sock w)
  = Received (echo_of (current_motor_id w) (sdo_request_frame w idx sub v 1)) :: rest ->
  fst (read_sdo idx sub value w) = (0, v).
Proof.
  intros Hv Hok Hrx.
  destruct (transaction_on_response w idx sub v value []
              rest (echo_of (current_motor_id w) (sdo_request_frame w idx sub v 1))
              Hok Hrx eq_refl) as (_ & Hr & _).
  { unfold sdo_response_of, echo_of. cbn [can_id]. now rewrite Z.eqb_refl. }
  rewrite Hr. unfold command, echo_of, byte_at. cbn [data nth Z.land Z.eqb Pos.land Pos.eqb].
  f_equal.
  rewrite <- (request_payload w idx sub v Hv) at 2.
  unfold payload_u32, byte_at, sdo_request_frame. reflexivity.
Qed.

(** X5 for the value 0xDEADBEEF on the program's initial state. *)
Lemma sdo_value_round_trip_witness :
  fst (read_sdo 0x607A 0 0
         (hears [Received (echo_of 2 (sdo_request_frame (hears []) 0x607A 0 0xDEADBEEF 1))]))
  = (0, 0xDEADBEEF).
Proof.
  apply (sdo_value_round_trip
           (hears [Received (echo_of 2 (sdo_request_frame (hears []) 0x607A 0 0xDEADBEEF 1))])
           0x607A 0 0xDEADBEEF 0 []).
  - lia.
  - reflexivity.
  - reflexivity.
Defined.

(** X6: a response is matched to the node, not to the request: with the
    request written, the first frame of COB-ID 0x580 + node whose
    command is an upload or a download response ends the transaction
    with success, whatever index and subindex it carries in bytes 1..3
    and whatever the direction of the request.  [write_sdo] succeeds on
    an upload response; [read_sdo] succeeds on a download response and
    yields 0. *)
Theorem response_not_matched_to_request (w : world) (idx sub v value : Z)
    (f : can_frame) (rest : list slice) :
  send_ok (sock w) = true ->
  rx (sock w) = Received f :: rest ->
  can_id f = 0x580 + current_motor_id w ->
  (command f = 0x40 ->
     fst (write_sdo idx sub v w) = 0
     /\ fst (read_sdo idx sub value w) = (0, payload_u32 f))
  /\ (command f = 0x60 ->
        fst (write_sdo idx sub v w) = 0
        /\ fst (read_sdo idx sub value w) = (0, 0)).
Proof.
  intros Hok Hrx Hc.
  split; intros Hcmd.
  - destruct (transaction_on_response w idx sub v value [] rest f Hok Hrx eq_refl)
      as (Hw & Hr & _).
    { unfold sdo_response_of. now rewrite Hc, Hcmd, Z.eqb_refl. }
    rewrite Hw, Hr, Hcmd. split; reflexivity.
  - destruct (transaction_on_response w idx sub v value [] rest f Hok Hrx eq_refl)
      as (Hw & Hr & _).
    { unfold sdo_response_of. now rewrite Hc, Hcmd, Z.eqb_refl. }
    rewrite Hw, Hr, Hcmd. split; reflexivity.
Qed.

(** X6 on a read of the status word answered by the acknowledgment of
    an earlier write to 0x6040: the read "succeeds" with value 0. *)
Lemma response_not_matched_to_request_witness :
  fst (read_sdo 0x6041 0 0x1237 (hears [Received download_ack])) = (0, 0).
Proof.
  destruct (response_not_matched_to_request (hears [Received download_ack])
              0x6041 0 0 0x1237 download_ack [] eq_refl eq_refl eq_refl) as [_ H].
  exact (proj2 (H eq_refl)).
Defined.

(** X7: when [write] fails, the transaction stops there: [write_sdo]
    and [read_sdo] return -1 without polling, so what the socket holds
    stays queued and the caller's variable is untouched. *)
Theorem failed_send_does_not_poll (w : world) (idx sub v value : Z) :
  send_ok (sock w) = false ->
  write_sdo idx sub v w
  = (-1, with_sock (mk_bus (rx (sock w)) (tl (wr (sock w)))
                      (trace (sock w)
                       ++ [EvWrite (sdo_request_frame w idx sub v 1)
                                   (hd 0 (wr (sock w)))])) w)
  /\ read_sdo idx sub value w
     = ((-1, value),
        with_sock (mk_bus (rx (sock w)) (tl (wr (sock w)))
                     (trace (sock w)
                      ++ [EvWrite (sdo_request_frame w idx sub 0 0)
                                  (hd 0 (wr (sock w)))])) w).
Proof.
  unfold send_ok. intros Hok.
  rewrite write_sdo_eq, read_sdo_eq, !send_sdo_request_eq, !sock_write_bus.
  unfold sock_write. destruct (wr (sock w)) as [|r more]; [discriminate|].
  apply Z.leb_gt in Hok. cbn [fst hd tl].
  replace (r <? 0) with true by (symmetry; now apply Z.ltb_lt).
  split; reflexivity.
Qed.

(** X7 with an acknowledgment waiting on a socket whose next [write]
    returns -1: it is still waiting afterwards. *)
Lemma failed_send_does_not_poll_witness :
  rx (sock (snd (write_sdo 0x6040 0 0x0F
                   (initial_world (mk_bus [Received download_ack] [-1] [])))))
  = [Received download_ack].
Proof.
  destruct (failed_send_does_not_poll
              (initial_world (mk_bus [Received download_ack] [-1] []))
              0x6040 0 0x0F 0 eq_refl) as [H _].
  rewrite H. reflexivity.
Defined.

End TransactionsFurther.

(** ** Frames and pauses of the drive state machine *)

Section Scripts.
Import PP Sdo Frames Move Further.

Lemma bind_snd {S A B} (m : IO S A) (k : A -> IO S B) (s : S) :
  snd (bind m k s) = snd (k (fst (m s)) (snd (m s))).
Proof. unfold bind. now destruct (m s). Qed.

Lemma bind_fst {S A B} (m : IO S A) (k : A -> IO S B) (s : S) :
  fst (bind m k s) = fst (k (fst (m s)) (snd (m s))).
Proof. unfold bind. now destruct (m s). Qed.

Lemma same_wire_refl (w : world) : same_wire w w.
Proof. now split. Qed.

Lemma same_wire_trans (w1 w2 w3 : world) :
  same_wire w1 w2 -> same_wire w2 w3 -> same_wire w1 w3.
Proof. intros [A1 A2] [B1 B2]. split; congruence. Qed.

Lemma same_globals_wire (w w' : world) : same_globals w w' -> same_wire w w'.
Proof. intros (H1 & _ & H3 & _). now split. Qed.

Lemma request_frame_wire (w w' : world) (idx sub v is_write : Z) :
  same_wire w w' ->
  sdo_request_frame w' idx sub v is_write = sdo_request_frame w idx sub v is_write.
Proof. intros [H1 H2]. unfold sdo_request_frame. now rewrite H1, H2. Qed.

Lemma acts_app (t1 t2 : list event) : acts (t1 ++ t2) = acts t1 ++ acts t2.
Proof. apply tally_app. Qed.

Lemma acts_write_sdo (idx sub v : Z) (w : world) :
  acts (trace (sock (snd (write_sdo idx sub v w))))
  = acts (trace (sock w)) ++ [inl (sdo_request_frame w idx sub v 1)].
Proof. apply (tally_write_sdo (fun f => [inl f]) (fun u => [inr u])). Qed.

Lemma acts_read_sdo (idx sub v : Z) (w : world) :
  acts (trace (sock (snd (read_sdo idx sub v w))))
  = acts (trace (sock w)) ++ [inl (sdo_request_frame w idx sub 0 0)].
Proof. apply (tally_read_sdo (fun f => [inl f]) (fun u => [inr u])). Qed.

Lemma acts_usleep (usec : Z) (w : world) :
  acts (trace (sock (snd (on_sock (usleep usec) w))))
  = acts (trace (sock w)) ++ [inr usec].
Proof. apply (tally_usleep (fun f => [inl f]) (fun u => [inr u])). Qed.

Lemma acts_sock_write (f : can_frame) (w : world) :
  acts (trace (sock (snd (on_sock (sock_write f) w))))
  = acts (trace (sock w)) ++ [inl f].
Proof.
  rewrite on_sock_sock. destruct (sock_write_trace f (sock w)) as [Ht _].
  change (acts (trace (snd (sock_write f (sock w)))) = acts (trace (sock w)) ++ [inl f]).
  rewrite Ht, acts_app. reflexivity.
Qed.

(** *** Straight-line scripts *)

Lemma plays_ret {A} (a : A) : plays (ret a) (fun _ => []).
Proof. intros w. split; [apply same_wire_refl|]. cbn. now rewrite app_nil_r. Qed.

Lemma plays_bind {A B} (m : IO world A) (k : A -> IO world B)
    (L1 L2 : world -> list (can_frame + Z)) :
  plays m L1 -> (forall a, plays (k a) L2) -> wire_stable L2 ->
  plays (bind m k) (fun w => L1 w ++ L2 w).
Proof.
  intros Hm Hk Hst w. rewrite bind_snd.
  destruct (Hm w) as [Hw1 Ha1].
  destruct (Hk (fst (m w)) (snd (m w))) as [Hw2 Ha2].
  split; [eapply same_wire_trans; eassumption|].
  now rewrite Ha2, Ha1, (Hst w (snd (m w)) Hw1), app_assoc.
Qed.

Lemma plays_write_sdo (idx sub v : Z) :
  plays (write_sdo idx sub v) (fun w => [inl (sdo_request_frame w idx sub v 1)]).
Proof.
  intros w. split; [apply same_globals_wire, keeps_write_sdo|apply acts_write_sdo].
Qed.

Lemma plays_read_sdo (idx sub v : Z) :
  plays (read_sdo idx sub v) (fun w => [inl (sdo_request_frame w idx sub 0 0)]).
Proof.
  intros w. split; [apply same_globals_wire, keeps_read_sdo|apply acts_read_sdo].
Qed.

Lemma plays_usleep (usec : Z) :
  plays (on_sock (usleep usec)) (fun _ => [inr usec]).
Proof.
  intros w. split; [apply same_globals_wire, keeps_on_sock|apply acts_usleep].
Qed.

Lemma plays_nmt (command : Z) :
  plays (fun w => send_nmt_command command (current_motor_id w) w)
        (fun w => [inl (nmt_frame command (current_motor_id w))]).
Proof.
  intros w. split; [apply same_globals_wire, keeps_nmt|].
  unfold send_nmt_command. apply acts_sock_write.
Qed.

Lemma plays_set_motor_enabled (r v : Z) :
  plays (fun w => (r, set_motor_enabled v w)) (fun _ => []).
Proof. intros w. split; [now split|]. cbn. now rewrite app_nil_r. Qed.

Lemma stable_const (l : list (can_frame + Z)) : wire_stable (fun _ => l).
Proof. intros w w' _. reflexivity. Qed.

Lemma stable_request (idx sub v is_write : Z) :
  wire_stable (fun w => [inl (sdo_request_frame w idx sub v is_write)]).
Proof. intros w w' H. now rewrite (request_frame_wire w w' idx sub v is_write H). Qed.

Lemma stable_nmt (command : Z) :
  wire_stable (fun w => [inl (nmt_frame command (current_motor_id w))]).
Proof. intros w w' [_ H]. now rewrite H. Qed.

Lemma stable_app (L1 L2 : world -> list (can_frame + Z)) :
  wire_stable L1 -> wire_stable L2 -> wire_stable (fun w => L1 w ++ L2 w).
Proof. intros H1 H2 w w' H. now rewrite (H1 w w' H), (H2 w w' H). Qed.

(** *** Growth *)

Lemma grows_ret {A} (a : A) : grows (ret a).
Proof. intros w. exists []. cbn. now rewrite app_nil_r. Qed.

Lemma grows_bind {A B} (m : IO world A) (k : A -> IO world B) :
  grows m -> (forall a, grows (k a)) -> grows (bind m k).
Proof.
  intros Hm Hk w. rewrite bind_snd.
  destruct (Hm w) as [l1 H1]. destruct (Hk (fst (m w)) (snd (m w))) as [l2 H2].
  exists (l1 ++ l2). now rewrite H2, H1, app_assoc.
Qed.

Lemma grows_plays {A} (m : IO world A) (L : world -> list (can_frame + Z)) :
  plays m L -> grows m.
Proof. intros H w. exists (L w). apply H. Qed.

Lemma grows_if {A} (c : bool) (m1 m2 : IO world A) :
  grows m1 -> grows m2 -> grows (if c then m1 else m2).
Proof. now destruct c. Qed.

Lemma grows_write_sdo (idx sub v : Z) : grows (write_sdo idx sub v).
Proof. eapply grows_plays, plays_write_sdo. Qed.

Lemma grows_read_sdo (idx sub v : Z) : grows (read_sdo idx sub v).
Proof. eapply grows_plays, plays_read_sdo. Qed.

Lemma grows_usleep (usec : Z) : grows (on_sock (usleep usec)).
Proof. eapply grows_plays, plays_usleep. Qed.

End Scripts.

Create HintDb growth.
#[export] Hint Resolve grows_ret grows_if grows_write_sdo grows_read_sdo
  grows_usleep : growth.

Ltac growth :=
  repeat first
    [ progress auto with growth
    | apply grows_bind; [|intros ?]
    | apply grows_if
    | match goal with
      | |- Further.grows (match ?x with _ => _ end) => destruct x
      end ].

Section Growth2.
Import PP Sdo Frames Move Further.

Lemma grows_print_command_help : grows print_command_help.
Proof. unfold print_command_help. growth. Qed.

Lemma grows_wait_setpoint_ack (fuel : nat) (tc sw : Z) :
  grows (wait_setpoint_ack fuel tc sw).
Proof.
  revert tc sw. induction fuel as [|fuel IH]; intros tc sw;
    cbn [wait_setpoint_ack]; growth.
Qed.

Lemma grows_wait_setpoint_clear (fuel : nat) (tc sw : Z) :
  grows (wait_setpoint_clear fuel tc sw).
Proof.
  revert tc sw. induction fuel as [|fuel IH]; intros tc sw;
    cbn [wait_setpoint_clear]; growth.
Qed.

End Growth2.

#[export] Hint Resolve grows_print_command_help grows_wait_setpoint_ack
  grows_wait_setpoint_clear : growth.

Ltac stable :=
  repeat first
    [ apply stable_app | apply stable_request | apply stable_nmt
    | apply stable_const ].

Ltac script :=
  first
    [ apply plays_write_sdo | apply plays_read_sdo | apply plays_usleep
    | apply plays_nmt | apply plays_set_motor_enabled | apply plays_ret
    | eapply plays_bind; [script | intros ?; script | stable] ].

Section DriveFurther.
Import PP Sdo Frames Move Further Samples SampleFrames.

Lemma grows_after {A B} (m : IO world A) (k : A -> IO world B) :
  (forall a, grows (k a)) ->
  forall w, exists more,
    acts (trace (sock (snd (bind m k w))))
    = acts (trace (sock (snd (m w)))) ++ more.
Proof.
  intros Hk w. unfold bind. destruct (m w) as [a w1]. apply Hk.
Qed.

(** X8: the range check comes before any bus traffic.  A target outside
    [-1048576, 1048576] makes [execute_position_move] return -1 with the
    state untouched; a target inside makes it start with the read of the
    actual position 0x6064. *)
Theorem move_range_check (t : Z) (w : world) :
  MIN_POSITION = -1048576 /\ MAX_POSITION = 1048576
  /\ (t < MIN_POSITION \/ MAX_POSITION < t ->
      execute_position_move t w = (-1, w))
  /\ (MIN_POSITION <= t <= MAX_POSITION ->
      exists more,
        acts (trace (sock (snd (execute_position_move t w))))
        = acts (trace (sock w))
          ++ inl (sdo_request_frame w 0x6064 0 0 0) :: more).
Proof.
  split; [reflexivity|]. split; [reflexivity|]. split.
  - intros H. unfold execute_position_move.
    destruct (t >? MAX_POSITION) eqn:Hmax; [reflexivity|].
    destruct (t <? MIN_POSITION) eqn:Hmin; [reflexivity|].
    rewrite Z.gtb_ltb in Hmax. apply Z.ltb_ge in Hmax, Hmin. lia.
  - intros [Hlo Hhi]. unfold execute_position_move.
    replace (t >? MAX_POSITION) with false
      by (symmetry; rewrite Z.gtb_ltb; apply Z.ltb_ge; lia).
    replace (t <? MIN_POSITION) with false by (symmetry; apply Z.ltb_ge; lia).
    match goal with
    | |- context [bind (read_sdo 0x6064 0 0) ?k] =>
        destruct (grows_after (read_sdo 0x6064 0 0) k
                    ltac:(intros ?; growth) w) as [more Hmore]
    end.
    exists more. rewrite Hmore, acts_read_sdo, <- app_assoc. reflexivity.
Qed.

(** X8 on a target of 1048577 with a frame waiting on the socket. *)
Lemma move_range_check_witness :
  execute_position_move 1048577 (hears [Received download_ack])
  = (-1, hears [Received download_ack]).
Proof.
  destruct (move_range_check 1048577 (hears [Received download_ack]))
    as (_ & _ & H & _).
  apply H. right. reflexivity.
Defined.

(** What steps 1 to 3 write to the control word, however they end. *)
Lemma request_setpoint_writes (t : Z) (w : world) :
  exists ws,
    controlword_writes (trace (sock (snd (request_setpoint t w))))
    = controlword_writes (trace (sock w)) ++ ws
    /\ match fst (request_setpoint t w) with
       | Some ncw =>
           ws = [ncw] /\ exists cw, 0 <= cw < 2 ^ 32 /\ ncw = Z.lor cw 0x10
       | None =>
           ws = [] \/ exists cw, 0 <= cw < 2 ^ 32 /\ ws = [Z.lor cw 0x10]
       end.
Proof.
  unfold request_setpoint.
  destruct (t >? MAX_POSITION).
  { exists []. cbn. rewrite app_nil_r. auto. }
  destruct (t <? MIN_POSITION).
  { exists []. cbn. rewrite app_nil_r. auto. }
  unfold bind, ret.
  pose proof (controlword_writes_read 0x6064 0 0 w) as C1.
  destruct (read_sdo 0x6064 0 0 w) as [x0 w1]. cbv beta iota.
  change (snd (x0, w1)) with w1 in *.
  pose proof (controlword_writes_target (u32 t) w1) as C2.
  destruct (write_sdo 0x607A 0 (u32 t) w1) as [r2 w2].
  change (snd (r2, w2)) with w2 in *.
  destruct (r2 <? 0).
  { exists []. cbn [fst snd]. rewrite app_nil_r, C2, C1. auto. }
  pose proof (controlword_writes_read 0x6040 0 0 w2) as C3.
  pose proof (read_sdo_result 0x6040 0 0 w2) as R3.
  destruct (read_sdo 0x6040 0 0 w2) as [[r3 cw] w3].
  change (snd (r3, cw, w3)) with w3 in *.
  change (fst (fst (r3, cw, w3))) with r3 in *.
  change (snd (fst (r3, cw, w3))) with cw in *.
  destruct (r3 <? 0) eqn:Hr3.
  { exists []. cbn [fst snd]. rewrite app_nil_r, C3, C2, C1. auto. }
  destruct R3 as [->|[-> Hcw]]; [discriminate|].
  assert (Hset : 0 <= Z.lor cw 0x10 < 2 ^ 32) by (apply lor_u32; [exact Hcw|lia]).
  rewrite (u32_small _ Hset).
  pose proof (controlword_writes_controlword (Z.lor cw 0x10) w3 Hset) as C4.
  destruct (write_sdo 0x6040 0 (Z.lor cw 0x10) w3) as [r4 w4].
  change (snd (r4, w4)) with w4 in *.
  exists [Z.lor cw 0x10].
  destruct (r4 <? 0); cbn [fst snd]; rewrite C4, C3, C2, C1.
  - split; [reflexivity|]. right. now exists cw.
  - split; [reflexivity|]. split; [reflexivity|]. now exists cw.
Qed.

(** X9: whatever the drive does, a move writes to the control word at
    most twice, and only the set-point request followed by its release:
    nothing, or [cw | 0x10] for a 32-bit [cw], or that value and then it
    with bit 4 cleared.  A move that returns 0 has written both; a move
    that wrote the request alone has returned -1, leaving bit 4 set in
    the drive. *)
Theorem move_controlword_discipline (t : Z) (w : world) :
  exists ws : list Z,
    controlword_writes (trace (sock (snd (execute_position_move t w))))
    = controlword_writes (trace (sock w)) ++ ws
    /\ (ws = []
        \/ exists cw : Z,
             0 <= cw < 2 ^ 32
             /\ (ws = [Z.lor cw 0x10]
                 \/ ws = [Z.lor cw 0x10; Z.land (Z.lor cw 0x10) 0xFFFFFFEF]))
    /\ (fst (execute_position_move t w) = 0 -> List.length ws = 2%nat)
    /\ ((List.length ws < 2)%nat -> fst (execute_position_move t w) = -1).
Proof.
  rewrite execute_via_request.
  destruct (request_setpoint_writes t w) as (ws0 & Hw0 & Hcase).
  destruct (request_setpoint t w) as [[ncw|] w4].
  - change (fst (Some ncw, w4)) with (Some ncw) in *.
    change (snd (Some ncw, w4)) with w4 in *.
    destruct Hcase as (-> & cw & Hcw & ->).
    cbv beta iota zeta. rewrite wait_setpoint_ack_loop.
    destruct (poll_loop_spec ack_seen 50 0 0 w4 eq_refl) as (_ & _ & _ & Hw5 & _).
    set (res := poll_loop ack_seen 50 0 0 w4) in *.
    assert (Hset : 0 <= Z.lor cw 0x10 < 2 ^ 32) by (apply lor_u32; [exact Hcw|lia]).
    destruct (fst (fst res) >=? 50).
    { exists [Z.lor cw 0x10]. cbn [fst snd]. rewrite Hw5, Hw0.
      split; [reflexivity|]. split; [right; exists cw; auto|].
      split; [discriminate|reflexivity]. }
    assert (Hrel : 0 <= release_value (Z.lor cw 0x10) < 2 ^ 32).
    { unfold release_value. apply land_u32; [exact Hset|]. apply u32_range. }
    pose proof (controlword_writes_controlword (release_value (Z.lor cw 0x10))
                  (snd res) Hrel) as Hw6.
    set (rel := write_sdo 0x6040 0 (release_value (Z.lor cw 0x10)) (snd res)) in *.
    exists [Z.lor cw 0x10; Z.land (Z.lor cw 0x10) 0xFFFFFFEF].
    assert (Hall : controlword_writes (trace (sock (snd rel)))
                   = controlword_writes (trace (sock w))
                     ++ [Z.lor cw 0x10; Z.land (Z.lor cw 0x10) 0xFFFFFFEF]).
    { rewrite Hw6, Hw5, Hw0, <- app_assoc. reflexivity. }
    destruct (fst rel <? 0).
    + cbn [fst snd]. split; [exact Hall|].
      split; [right; exists cw; auto|]. split; [discriminate|].
      cbn [List.length]. lia.
    + rewrite controlword_writes_finish. split; [exact Hall|].
      split; [right; exists cw; auto|]. split; [reflexivity|].
      cbn [List.length]. lia.
  - change (fst (@None Z, w4)) with (@None Z) in *.
    change (snd (@None Z, w4)) with w4 in *.
    cbv beta iota. exists ws0. cbn [fst snd]. split; [exact Hw0|].
    split.
    + destruct Hcase as [->|(cw & Hcw & ->)]; [now left|right; exists cw; auto].
    + split; [discriminate|reflexivity].
Qed.

(** X10: [init_pp_mode] runs one fixed script whatever the drive
    answers and whatever fails: NMT stop, reset and start to the current
    node, mode 1, the three profile parameters at 5566, then the control
    words 0x80, 0x06, 0x07, 0x0F, with fixed pauses that add up to 5 s.
    It returns 0. *)
Theorem init_pp_mode_script (w : world) :
  let node := current_motor_id w in
  let dl := fun idx v => inl (sdo_request_frame w idx 0 v 1) in
  fst (init_pp_mode w) = 0
  /\ acts (trace (sock (snd (init_pp_mode w))))
     = acts (trace (sock w))
       ++ [inl (nmt_frame 0x02 node); inr 200000;
           inl (nmt_frame 0x82 node); inr 1000000;
           inl (nmt_frame 0x01 node); inr 1000000;
           dl 0x6060 0x01; inr 200000;
           dl 0x6081 5566; inr 200000;
           dl 0x6083 5566; inr 200000;
           dl 0x6084 5566; inr 200000;
           dl 0x6040 0x80; inr 500000;
           dl 0x6040 0x06; inr 500000;
           dl 0x6040 0x07; inr 500000;
           dl 0x6040 0x0F; inr 500000]
  /\ controlword_writes (trace (sock (snd (init_pp_mode w))))
     = controlword_writes (trace (sock w)) ++ [0x80; 0x06; 0x07; 0x0F]
  /\ same_wire w (snd (init_pp_mode w)).
Proof.
  cbv zeta.
  assert (Hplay : exists L, plays init_pp_mode L
                    /\ forall w, L w
                       = [inl (nmt_frame 0x02 (current_motor_id w)); inr 200000;
                          inl (nmt_frame 0x82 (current_motor_id w)); inr 1000000;
                          inl (nmt_frame 0x01 (current_motor_id w)); inr 1000000;
                          inl (sdo_request_frame w 0x6060 0 0x01 1); inr 200000;
                          inl (sdo_request_frame w 0x6081 0 5566 1); inr 200000;
                          inl (sdo_request_frame w 0x6083 0 5566 1); inr 200000;
                          inl (sdo_request_frame w 0x6084 0 5566 1); inr 200000;
                          inl (sdo_request_frame w 0x6040 0 0x80 1); inr 500000;
                          inl (sdo_request_frame w 0x6040 0 0x06 1); inr 500000;
                          inl (sdo_request_frame w 0x6040 0 0x07 1); inr 500000;
                          inl (sdo_request_frame w 0x6040 0 0x0F 1); inr 500000]).
  { eexists. split; [unfold init_pp_mode; script|]. intros w0. reflexivity. }
  destruct Hplay as (L & Hplay & HL).
  destruct (Hplay w) as [Hwire Hacts]. rewrite HL in Hacts.
  split.
  { unfold init_pp_mode. repeat rewrite bind_fst. reflexivity. }
  split; [exact Hacts|]. split; [|exact Hwire].
  assert (Hcw : forall tr, controlword_writes tr
                  = flat_map (fun a => match a with
                                       | inl f => if is_controlword_download f
                                                  then [payload_u32 f] else []
                                       | inr _ => []
                                       end) (acts tr)).
  { intros tr. unfold controlword_writes, acts, tally.
    induction tr as [|e tr IH]; [reflexivity|].
    cbn [flat_map]. rewrite flat_map_app, <- IH.
    destruct e; cbn [flat_map]; rewrite ?app_nil_r; reflexivity. }
  rewrite !Hcw, Hacts, flat_map_app. f_equal.
  cbn [flat_map].
  rewrite !controlword_download.
  rewrite !request_payload by lia.
  assert (Hno : forall idx v,
             (idx =? 0x6040) = false -> 0 <= idx < 2 ^ 16 ->
             (u8 (Z.land idx 0xFF) =? 0x40) && (u8 (Z.land (Z.shiftr idx 8) 0xFF) =? 0x60)
             = false ->
             is_controlword_download (sdo_request_frame w idx 0 v 1) = false).
  { intros idx v _ _ Hb. unfold is_controlword_download.
    destruct (write_request_index w idx 0 v) as [-> ->].
    rewrite <- andb_assoc, Hb. apply andb_false_r. }
  rewrite !Hno by (reflexivity || lia).
  reflexivity.
Qed.

End DriveFurther.

Section DiscoveryFurther.
Import PP Frames Discovery Further Samples SampleFrames.

Lemma probe_node_globals (node_id : Z) (w : world) :
  same_globals w (snd (probe_node node_id w)).
Proof.
  rewrite probe_node_eq. cbv zeta.
  destruct (fst (sock_write (probe_frame node_id) (sock w)) <? 0).
  - cbn [snd]. apply same_globals_with_sock.
  - destruct (detect_poll _ _) as [[found rx'] evs]. cbn [snd].
    apply same_globals_with_sock.
Qed.

(** What the scan loop guarantees on every run over [nodes]. *)
Lemma detect_nodes_post (nodes : list Z) (w : world) :
  ~ In 0 nodes ->
  let r := fst (detect_nodes nodes w) in
  let w' := snd (detect_nodes nodes w) in
  current_motor_id w' = r
  /\ object_dict w' = object_dict w
  /\ motor_enabled w' = motor_enabled w
  /\ ((detected_motor_id w' = r
       /\ exists before rest,
            nodes = before ++ r :: rest
            /\ writes_of (trace (sock w'))
               = writes_of (trace (sock w)) ++ map probe_frame (before ++ [r]))
      \/ (detected_motor_id w' = 0 /\ r = MOTOR_NODE_ID
          /\ writes_of (trace (sock w'))
             = writes_of (trace (sock w)) ++ map probe_frame nodes)).
Proof.
  cbv zeta. revert w. induction nodes as [|k nodes IH]; intros w H0.
  - cbn [detect_nodes fst snd]. repeat split; auto.
    right. cbn. rewrite app_nil_r. auto.
  - rewrite detect_nodes_step.
    pose proof (probe_node_globals k w) as (Hd & _ & _ & He).
    pose proof (probe_node_writes k w) as Hw.
    destruct (probe_node k w) as [found w1]. cbn [snd] in Hd, He, Hw.
    destruct (is_hit found) eqn:Hhit.
    + cbn [fst snd]. split; [reflexivity|].
      split; [exact Hd|]. split; [exact He|].
      left. split; [reflexivity|]. exists [], nodes. split; [reflexivity|exact Hw].
    + assert (H0' : ~ In 0 nodes) by (intros H; apply H0; now right).
      destruct (IH w1 H0') as (Hc & Hdict & Hen & Hcase).
      split; [exact Hc|].
      split; [now rewrite Hdict|]. split; [now rewrite Hen|].
      destruct Hcase as [(Hdet & before & rest & Hn & Hws)|(Hdet & Hr & Hws)].
      * left. split; [exact Hdet|]. exists (k :: before), rest.
        split; [cbn [app]; now rewrite <- Hn|].
        rewrite Hws, Hw, <- app_assoc. reflexivity.
      * right. split; [exact Hdet|]. split; [exact Hr|].
        rewrite Hws, Hw, <- app_assoc. reflexivity.
Qed.

Lemma seq_split (b : list nat) (x : nat) (rest : list nat) (s n : nat) :
  seq s n = b ++ x :: rest ->
  b ++ [x] = seq s (S (List.length b)) /\ x = (s + List.length b)%nat.
Proof.
  revert s n. induction b as [|y b IH]; intros s n H.
  - destruct n as [|n]; [discriminate|]. cbn in H. injection H as <- _.
    cbn. split; [reflexivity|lia].
  - destruct n as [|n]; [discriminate|]. cbn [seq app] in H.
    injection H as <- H. destruct (IH _ _ H) as [E ->].
    split; [|cbn [List.length]; lia].
    cbn [app List.length]. rewrite E. reflexivity.
Qed.

Lemma scan_range_split (before : list Z) (r : Z) (rest : list Z) :
  scan_range = before ++ r :: rest ->
  1 <= r <= 20 /\ before ++ [r] = map Z.of_nat (seq 1 (Z.to_nat r)).
Proof.
  unfold scan_range. intros H.
  apply map_eq_app in H as (b' & t' & Hs & Hb & Ht).
  apply map_eq_cons in Ht as (x & rest' & -> & Hx & Hrest).
  pose proof (f_equal (@List.length nat) Hs) as Hlen.
  rewrite length_seq, length_app in Hlen. cbn [List.length] in Hlen.
  destruct (seq_split _ _ _ _ _ Hs) as [E Ex].
  subst r before. split; [lia|].
  rewrite Nat2Z.id. replace x with (S (List.length b')) by lia.
  rewrite <- E, map_app. cbn [map]. do 3 f_equal. lia.
Qed.

(** X11: what [auto_detect_motor] guarantees on every run.  The node it
    returns is in 1..20 and is the one it stores in [current_motor_id];
    the object dictionary and [motor_enabled] are as before.  Either the
    returned node is recorded as detected and exactly the nodes 1 up to
    it were probed, or nothing is recorded as detected (0), the result is
    the default node 2 and all of 1..20 were probed. *)
Theorem auto_detect_postcondition (w : world) :
  let r := fst (auto_detect_motor w) in
  let w' := snd (auto_detect_motor w) in
  1 <= r <= 20
  /\ current_motor_id w' = r
  /\ object_dict w' = object_dict w
  /\ motor_enabled w' = motor_enabled w
  /\ ((detected_motor_id w' = r
       /\ writes_of (trace (sock w'))
          = writes_of (trace (sock w))
            ++ map probe_frame (map Z.of_nat (seq 1 (Z.to_nat r))))
      \/ (detected_motor_id w' = 0 /\ r = 2
          /\ writes_of (trace (sock w'))
             = writes_of (trace (sock w)) ++ map probe_frame scan_range)).
Proof.
  cbv zeta. unfold auto_detect_motor.
  assert (H0 : ~ In 0 scan_range).
  { unfold scan_range. intros H. apply in_map_iff in H as (x & Hx & Hin).
    apply in_seq in Hin. lia. }
  destruct (detect_nodes_post scan_range w H0) as (Hc & Hdict & Hen & Hcase).
  cbv zeta in *.
  set (r := fst (detect_nodes scan_range w)) in *.
  set (w' := snd (detect_nodes scan_range w)) in *.
  destruct Hcase as [(Hdet & before & rest & Hn & Hws)|(Hdet & Hr & Hws)].
  - destruct (scan_range_split before r rest Hn) as [Hrange Hb].
    split; [exact Hrange|]. split; [exact Hc|]. split; [exact Hdict|].
    split; [exact Hen|]. left. split; [exact Hdet|]. now rewrite <- Hb.
  - split; [rewrite Hr; unfold MOTOR_NODE_ID; lia|].
    split; [exact Hc|]. split; [exact Hdict|]. split; [exact Hen|].
    right. auto.
Qed.

End DiscoveryFurther.

Section Traffic.
Import PP Sdo Frames Move PPMain Further Commands Samples SampleFrames.

Lemma emits_ret {A} (P : can_frame + Z -> bool) (a : A) : emits P (ret a).
Proof. intros w. exists []. cbn. now rewrite app_nil_r. Qed.

Lemma emits_bind {A B} (P : can_frame + Z -> bool)
    (m : IO world A) (k : A -> IO world B) :
  emits P m -> (forall a, emits P (k a)) -> emits P (bind m k).
Proof.
  intros Hm Hk w. unfold bind. destruct (Hm w) as (l1 & E1 & P1).
  destruct (m w) as [a w1]. cbn [snd] in E1.
  destruct (Hk a w1) as (l2 & E2 & P2).
  exists (l1 ++ l2). rewrite E2, E1, <- app_assoc. split; [reflexivity|].
  rewrite forallb_app, P1, P2. reflexivity.
Qed.

Lemma emits_if {A} (P : can_frame + Z -> bool) (c : bool) (m1 m2 : IO world A) :
  emits P m1 -> emits P m2 -> emits P (if c then m1 else m2).
Proof. now destruct c. Qed.

Lemma emits_write_sdo (P : can_frame + Z -> bool) (idx sub v : Z) :
  (forall w, P (inl (sdo_request_frame w idx sub v 1)) = true) ->
  emits P (write_sdo idx sub v).
Proof.
  intros H w. exists [inl (sdo_request_frame w idx sub v 1)].
  rewrite acts_write_sdo. split; [reflexivity|]. cbn [forallb]. now rewrite H.
Qed.

Lemma emits_read_sdo (P : can_frame + Z -> bool) (idx sub v : Z) :
  (forall w, P (inl (sdo_request_frame w idx sub 0 0)) = true) ->
  emits P (read_sdo idx sub v).
Proof.
  intros H w. exists [inl (sdo_request_frame w idx sub 0 0)].
  rewrite acts_read_sdo. split; [reflexivity|]. cbn [forallb]. now rewrite H.
Qed.

Lemma emits_usleep (P : can_frame + Z -> bool) (usec : Z) :
  P (inr usec) = true -> emits P (on_sock (usleep usec)).
Proof.
  intros H w. exists [inr usec]. rewrite acts_usleep.
  split; [reflexivity|]. cbn [forallb]. now rewrite H.
Qed.

Lemma emits_poll_loop (P : can_frame + Z -> bool) (seen : Z -> Z -> bool)
    (fuel : nat) (tc sw : Z) :
  (forall w, P (inl (sdo_request_frame w 0x6041 0 0 0)) = true) ->
  P (inr 100000) = true ->
  emits P (poll_loop seen fuel tc sw).
Proof.
  intros Hr Hs. revert tc sw. induction fuel as [|fuel IH]; intros tc sw.
  - apply emits_ret.
  - cbn [poll_loop]. apply emits_if; [|apply emits_ret].
    apply emits_bind; [now apply emits_read_sdo|]. intros [r sw'].
    apply emits_if; [apply emits_ret|].
    apply emits_bind; [now apply emits_usleep|]. intros _. apply IH.
Qed.

(** The object a request frame addresses is the one it was built for. *)
Lemma request_object (w : world) (idx sub v rw : Z) :
  0 <= idx < 2 ^ 16 ->
  object_of (sdo_request_frame w idx sub v rw) = idx.
Proof.
  intros Hidx. unfold object_of, sdo_request_frame, byte_at.
  destruct (negb (rw =? 0)); cbn [data nth];
    change 0xFF with (Z.ones 8); rewrite !Z.land_ones by lia;
    rewrite Z.shiftr_div_pow2 by lia; unfold u8;
    change (2 ^ 8) with 256; change (2 ^ 16) with 65536 in Hidx;
    rewrite !Z.mod_mod by lia;
    rewrite (Z.mod_small (idx / 256) 256)
      by (split; [apply Z.div_pos; lia|apply Z.div_lt_upper_bound; lia]);
    pose proof (Z.div_mod idx 256); lia.
Qed.

Lemma request_dlc (w : world) (idx sub v rw : Z) :
  can_dlc (sdo_request_frame w idx sub v rw) = 8.
Proof. unfold sdo_request_frame. now destruct (negb (rw =? 0)). Qed.

Lemma read_request_upload (w : world) (idx sub v : Z) :
  is_upload (sdo_request_frame w idx sub v 0) = true.
Proof. reflexivity. Qed.

Lemma read_request_no_download (w : world) (idx sub v : Z) :
  is_download (sdo_request_frame w idx sub v 0) = false.
Proof. reflexivity. Qed.

Lemma write_request_download (w : world) (idx sub v : Z) :
  is_download (sdo_request_frame w idx sub v 1) = true.
Proof.
  unfold is_download.
  destruct (write_request_command w idx sub v) as [ -> | [ -> | -> ] ]; reflexivity.
Qed.

Lemma move_action_read (w : world) (idx : Z) :
  idx = 0x6064 \/ idx = 0x6040 \/ idx = 0x6041 ->
  move_action (inl (sdo_request_frame w idx 0 0 0)) = true.
Proof.
  intros H. unfold move_action.
  rewrite request_dlc, read_request_upload, request_object
    by (destruct H as [ -> | [ -> | -> ] ]; lia).
  destruct H as [ -> | [ -> | -> ] ]; reflexivity.
Qed.

Lemma move_action_write (w : world) (idx v : Z) :
  idx = 0x607A \/ idx = 0x6040 ->
  move_action (inl (sdo_request_frame w idx 0 v 1)) = true.
Proof.
  intros H. unfold move_action.
  rewrite request_dlc, write_request_download, request_object
    by (destruct H as [ -> | -> ]; lia).
  destruct H as [ -> | -> ]; cbn; apply orb_true_r.
Qed.

Lemma emits_move (t : Z) : emits move_action (execute_position_move t).
Proof.
  unfold execute_position_move.
  apply emits_if; [apply emits_ret|]. apply emits_if; [apply emits_ret|].
  apply emits_bind; [apply emits_read_sdo; intros; apply move_action_read; auto|].
  intros _.
  apply emits_bind; [apply emits_write_sdo; intros; apply move_action_write; auto|].
  intros r. apply emits_if; [apply emits_ret|].
  apply emits_bind; [apply emits_read_sdo; intros; apply move_action_read; auto|].
  intros [r3 cw]. apply emits_if; [apply emits_ret|]. cbv zeta.
  apply emits_bind; [apply emits_write_sdo; intros; apply move_action_write; auto|].
  intros r4. apply emits_if; [apply emits_ret|].
  apply emits_bind.
  { intros w. rewrite wait_setpoint_ack_loop. revert w.
    apply emits_poll_loop; [intros; apply move_action_read; auto|reflexivity]. }
  intros [tc sw]. apply emits_if; [apply emits_ret|].
  apply emits_bind; [apply emits_write_sdo; intros; apply move_action_write; auto|].
  intros r6. apply emits_if; [apply emits_ret|].
  apply emits_bind.
  { intros w. rewrite wait_setpoint_clear_loop. revert w.
    apply emits_poll_loop; [intros; apply move_action_read; auto|reflexivity]. }
  intros _.
  apply emits_bind; [apply emits_usleep; reflexivity|]. intros _.
  apply emits_bind; [apply emits_read_sdo; intros; apply move_action_read; auto|].
  intros _.
  apply emits_bind; [|intros; apply emits_ret].
  unfold print_command_help.
  apply emits_bind; [apply emits_read_sdo; intros; apply move_action_read; auto|].
  intros; apply emits_ret.
Qed.

(** X12: a position move puts on the bus only reads of the actual
    position, the control word and the status word, and downloads of the
    target position and the control word, and pauses only for 100 ms or
    1 s: whatever the target and whatever the drive answers, it writes
    to no other object (not the mode, not a profile parameter) and sends
    no NMT command. *)
Theorem move_traffic_is_confined (t : Z) (w : world) :
  exists more : list (can_frame + Z),
    acts (trace (sock (snd (execute_position_move t w))))
    = acts (trace (sock w)) ++ more
    /\ forallb move_action more = true.
Proof. exact (emits_move t w). Qed.

End Traffic.

Section CommandLoop.
Import PP Sdo Frames Move PPMain Further Commands Samples SampleFrames.

Lemma strlen_cons (c : ascii) (s : string) : strlen (String c s) = 1 + strlen s.
Proof. unfold strlen. cbn [String.length]. lia. Qed.

Lemma strlen_nonneg (s : string) : 0 <= strlen s.
Proof. unfold strlen. lia. Qed.

Lemma parsed_value_argument (cmd : ascii) (rest : string) :
  (if strlen (String cmd rest) >? 2 then
     match scan_d (advance 2 (String cmd rest)) with
     | Some (v, _) => v
     | None => 0
     end
   else 0) = argument_of rest.
Proof.
  destruct rest as [|c [|x r]].
  - reflexivity.
  - reflexivity.
  - rewrite !strlen_cons. pose proof (strlen_nonneg r).
    replace (1 + (1 + (1 + strlen r)) >? 2) with true
      by (symmetry; rewrite Z.gtb_ltb; apply Z.ltb_lt; lia).
    reflexivity.
Qed.

Lemma has_argument (cmd : ascii) (rest : string) :
  (strlen (String cmd rest) >? 2)
  = match rest with String _ (String _ _) => true | _ => false end.
Proof.
  destruct rest as [|c [|x r]]; [reflexivity|reflexivity|].
  rewrite !strlen_cons. pose proof (strlen_nonneg r).
  rewrite Z.gtb_ltb. apply Z.ltb_lt. lia.
Qed.

Lemma not_empty (cmd : ascii) (rest : string) :
  (strlen (String cmd rest) =? 0) = false.
Proof.
  rewrite strlen_cons. apply Z.eqb_neq. pose proof (strlen_nonneg rest). lia.
Qed.

Lemma in_prog_eq {A} (m : IO world A) (s : session) :
  in_prog m s
  = (fst (m (prog s)),
     mk_session (current_target_position s) (current_profile_velocity s)
       (current_profile_acceleration s) (current_profile_deceleration s)
       (running s) (snd (m (prog s)))).
Proof. unfold in_prog. now destruct (m (prog s)). Qed.

Lemma session_eta (s : session) :
  mk_session (current_target_position s) (current_profile_velocity s)
    (current_profile_acceleration s) (current_profile_deceleration s)
    (running s) (prog s) = s.
Proof. now destruct s. Qed.

End CommandLoop.

(** Enter the branch of [handle_command] for the input [Hin]. *)
Ltac enter_command Hin :=
  unfold PPMain.handle_command; rewrite Hin;
  rewrite not_empty; cbv zeta;
  rewrite ?parsed_value_argument, ?has_argument;
  simpl (Ascii.eqb _ _).

Ltac run_session :=
  unfold bind, ret, PPMain.set_target, PPMain.set_velocity,
    PPMain.set_acceleration, PPMain.set_deceleration, PPMain.set_running,
    PPMain.get;
  rewrite ?in_prog_eq;
  cbn [fst snd PPMain.prog PPMain.current_target_position
       PPMain.current_profile_velocity PPMain.current_profile_acceleration
       PPMain.current_profile_deceleration PPMain.running].

Section CommandLoop2.
Import PP Sdo Frames Move PPMain Further Commands Samples SampleFrames.

Lemma handle_p (buf rest : string) (s : session) :
  cut_lf (cstr buf) = String "p" rest ->
  snd (handle_command buf s)
  = match rest with
    | String _ (String _ _) =>
        mk_session (argument_of rest) (current_profile_velocity s)
          (current_profile_acceleration s) (current_profile_deceleration s)
          (running s)
          (snd (execute_position_move (argument_of rest) (prog s)))
    | _ => s
    end.
Proof.
  intros Hin. enter_command Hin.
  destruct rest as [|c [|x r]]; [reflexivity|reflexivity|].
  run_session. reflexivity.
Qed.

Lemma handle_v (buf rest : string) (s : session) :
  cut_lf (cstr buf) = String "v" rest ->
  snd (handle_command buf s)
  = if argument_of rest >? 0 then
      mk_session (current_target_position s) (u32 (argument_of rest))
        (current_profile_acceleration s) (current_profile_deceleration s)
        (running s)
        (snd (print_command_help
                (snd (write_sdo 0x6081 0 (u32 (argument_of rest)) (prog s)))))
    else
      mk_session (current_target_position s) (current_profile_velocity s)
        (current_profile_acceleration s) (current_profile_deceleration s)
        (running s) (snd (print_command_help (prog s))).
Proof.
  intros Hin. enter_command Hin.
  destruct (argument_of rest >? 0); run_session; reflexivity.
Qed.

Lemma handle_a (buf rest : string) (s : session) :
  cut_lf (cstr buf) = String "a" rest ->
  snd (handle_command buf s)
  = if argument_of rest >? 0 then
      mk_session (current_target_position s) (current_profile_velocity s)
        (u32 (argument_of rest)) (current_profile_deceleration s)
        (running s)
        (snd (print_command_help
                (snd (write_sdo 0x6083 0 (u32 (argument_of rest)) (prog s)))))
    else
      mk_session (current_target_position s) (current_profile_velocity s)
        (current_profile_acceleration s) (current_profile_deceleration s)
        (running s) (snd (print_command_help (prog s))).
Proof.
  intros Hin. enter_command Hin.
  destruct (argument_of rest >? 0); run_session; reflexivity.
Qed.

Lemma handle_d (buf rest : string) (s : session) :
  cut_lf (cstr buf) = String "d" rest ->
  snd (handle_command buf s)
  = if argument_of rest >? 0 then
      mk_session (current_target_position s) (current_profile_velocity s)
        (current_profile_acceleration s) (u32 (argument_of rest))
        (running s)
        (snd (print_command_help
                (snd (write_sdo 0x6084 0 (u32 (argument_of rest)) (prog s)))))
    else
      mk_session (current_target_position s) (current_profile_velocity s)
        (current_profile_acceleration s) (current_profile_deceleration s)
        (running s) (snd (print_command_help (prog s))).
Proof.
  intros Hin. enter_command Hin.
  destruct (argument_of rest >? 0); run_session; reflexivity.
Qed.

Lemma handle_s (buf rest : string) (s : session) :
  cut_lf (cstr buf) = String "s" rest ->
  snd (handle_command buf s)
  = mk_session (current_target_position s) (current_profile_velocity s)
      (current_profile_acceleration s) (current_profile_deceleration s)
      (running s)
      (snd (print_command_help (snd (write_sdo 0x6040 0 0x06 (prog s))))).
Proof. intros Hin. enter_command Hin. run_session. reflexivity. Qed.

Lemma handle_q (buf rest : string) (s : session) :
  cut_lf (cstr buf) = String "q" rest ->
  snd (handle_command buf s)
  = mk_session (current_target_position s) (current_profile_velocity s)
      (current_profile_acceleration s) (current_profile_deceleration s)
      0 (prog s).
Proof. intros Hin. enter_command Hin. reflexivity. Qed.

Lemma handle_step (buf : string) (plus : bool) (rest : string) (s : session) :
  cut_lf (cstr buf) = String (if plus then "+" else "-")%char rest ->
  snd (handle_command buf s)
  = match rest with
    | String which _ => snd (adjust_parameter plus which s)
    | EmptyString => s
    end.
Proof.
  intros Hin. destruct plus; enter_command Hin; now destruct rest.
Qed.

Lemma handle_other (buf : string) (cmd : ascii) (rest : string) (s : session) :
  cut_lf (cstr buf) = String cmd rest ->
  ~ In cmd ["p"; "v"; "a"; "d"; "+"; "-"; "s"; "q"]%char ->
  snd (handle_command buf s) = s.
Proof.
  intros Hin Hno. unfold handle_command. rewrite Hin, not_empty. cbv zeta.
  repeat match goal with
  | |- context [Ascii.eqb cmd ?c] =>
      destruct (Ascii.eqb_spec cmd c) as [->|_];
      [exfalso; apply Hno; cbn [In]; tauto|]
  end.
  reflexivity.
Qed.

Lemma handle_empty (buf : string) (s : session) :
  cut_lf (cstr buf) = EmptyString -> snd (handle_command buf s) = s.
Proof. intros Hin. unfold handle_command. now rewrite Hin. Qed.

(** The step commands on a parameter letter. *)
Lemma adjust_known (plus : bool) (which : ascii) (idx : Z) (s : session) :
  parameter_object which = Some idx ->
  let v := parameter_of which s in
  let v' := if plus then u32 (v + 100) else v - 100 in
  let s' := snd (adjust_parameter plus which s) in
  if plus || (v >? 100) then
    parameter_of which s' = v'
    /\ prog s' = snd (write_sdo idx 0 v' (prog s))
    /\ current_target_position s' = current_target_position s
    /\ running s' = running s
    /\ (forall other, Ascii.eqb other which = false ->
                      parameter_object other <> None ->
                      parameter_of other s' = parameter_of other s)
  else s' = s.
Proof.
  unfold parameter_object. cbv zeta.
  destruct (Ascii.eqb_spec which "v") as [->|Hv];
    [|destruct (Ascii.eqb_spec which "a") as [->|Ha];
      [|destruct (Ascii.eqb_spec which "d") as [->|Hd]; [|discriminate]]];
    intros [= <-]; unfold adjust_parameter, parameter_of;
    simpl (Ascii.eqb _ _); destruct plus; cbn [orb].
  all: run_session.
  all: try match goal with
       | |- context [?v >? 100] => destruct (v >? 100) eqn:E
       end.
  all: run_session.
  all: try (now destruct s).
  all: repeat split; try reflexivity.
  all: intros other Ho Hk; unfold parameter_object in Hk; rewrite ?Ho in *;
    try reflexivity.
  all: destruct (Ascii.eqb other "v"); [reflexivity|];
       destruct (Ascii.eqb other "a"); [reflexivity|];
       destruct (Ascii.eqb other "d"); [discriminate|]; now elim Hk.
Qed.

Lemma adjust_unknown (plus : bool) (which : ascii) (s : session) :
  parameter_object which = None -> snd (adjust_parameter plus which s) = s.
Proof.
  unfold parameter_object, adjust_parameter.
  destruct (Ascii.eqb which "v"); [discriminate|].
  destruct (Ascii.eqb which "a"); [discriminate|].
  destruct (Ascii.eqb which "d"); [discriminate|]. reflexivity.
Qed.

End CommandLoop2.

Section CommandLoop3.
Import PP Sdo Frames Move PPMain Further Commands Samples SampleFrames.

Lemma downloads_to_app (idx : Z) (w w' : world) (more : list (can_frame + Z)) :
  acts (trace (sock w')) = acts (trace (sock w)) ++ more ->
  downloads_to idx (trace (sock w'))
  = downloads_to idx (trace (sock w))
    ++ flat_map (fun a => match a with
                          | inl f => if is_download f && (object_of f =? idx)
                                     then [f] else []
                          | inr _ => []
                          end) more.
Proof. intros H. unfold downloads_to. now rewrite H, flat_map_app. Qed.

Lemma downloads_to_write (idx idx' v : Z) (w : world) :
  0 <= idx' < 2 ^ 16 ->
  downloads_to idx (trace (sock (snd (write_sdo idx' 0 v w))))
  = downloads_to idx (trace (sock w))
    ++ (if idx' =? idx then [sdo_request_frame w idx' 0 v 1] else []).
Proof.
  intros H. rewrite (downloads_to_app idx w _ _ (acts_write_sdo idx' 0 v w)).
  cbn [flat_map]. rewrite write_request_download, request_object by exact H.
  cbn [andb]. now rewrite app_nil_r.
Qed.

Lemma downloads_to_read (idx idx' sub v : Z) (w : world) :
  downloads_to idx (trace (sock (snd (read_sdo idx' sub v w))))
  = downloads_to idx (trace (sock w)).
Proof.
  rewrite (downloads_to_app idx w _ _ (acts_read_sdo idx' sub v w)).
  cbn [flat_map]. rewrite read_request_no_download. cbn [andb app].
  now rewrite app_nil_r.
Qed.

Lemma downloads_to_help (idx : Z) (w : world) :
  downloads_to idx (trace (sock (snd (print_command_help w))))
  = downloads_to idx (trace (sock w)).
Proof.
  unfold print_command_help. rewrite bind_snd. cbn [ret snd].
  apply downloads_to_read.
Qed.

Lemma downloads_to_move (idx t : Z) (w : world) :
  idx <> 0x607A -> idx <> 0x6040 ->
  downloads_to idx (trace (sock (snd (execute_position_move t w))))
  = downloads_to idx (trace (sock w)).
Proof.
  intros H1 H2. destruct (emits_move t w) as (more & E & Hall).
  rewrite (downloads_to_app idx w _ _ E).
  rewrite <- (app_nil_r (downloads_to idx (trace (sock w)))) at 2. f_equal.
  clear E. induction more as [|a more IH]; [reflexivity|].
  cbn [forallb] in Hall. apply andb_prop in Hall as [Ha Hall].
  cbn [flat_map]. rewrite (IH Hall), app_nil_r.
  destruct a as [f|u]; [|reflexivity].
  destruct (is_download f && (object_of f =? idx)) eqn:Hd; [|reflexivity].
  exfalso. apply andb_prop in Hd as [Hd Hi]. apply Z.eqb_eq in Hi.
  unfold move_action in Ha. apply andb_prop in Ha as [_ Ha].
  apply orb_prop in Ha as [Ha|Ha]; apply andb_prop in Ha as [Hk Ho].
  - unfold is_upload in Hk. unfold is_download in Hd.
    apply Z.eqb_eq in Hk. rewrite Hk in Hd. discriminate.
  - apply orb_prop in Ho as [Ho|Ho]; apply Z.eqb_eq in Ho; congruence.
Qed.

Lemma parameter_object_cases (which : ascii) (idx : Z) :
  parameter_object which = Some idx ->
  (which = "v"%char /\ idx = 0x6081) \/ (which = "a"%char /\ idx = 0x6083)
  \/ (which = "d"%char /\ idx = 0x6084).
Proof.
  unfold parameter_object.
  destruct (Ascii.eqb_spec which "v") as [->|]; [intros [= <-]; auto|].
  destruct (Ascii.eqb_spec which "a") as [->|]; [intros [= <-]; auto|].
  destruct (Ascii.eqb_spec which "d") as [->|]; [intros [= <-]; auto|].
  discriminate.
Qed.

Lemma command_cases (cmd : ascii) :
  In cmd ["p"; "v"; "a"; "d"; "s"; "q"]%char
  \/ (exists plus : bool, cmd = if plus then "+"%char else "-"%char)
  \/ ~ In cmd ["p"; "v"; "a"; "d"; "+"; "-"; "s"; "q"]%char.
Proof.
  destruct (in_dec ascii_dec cmd ["p"; "v"; "a"; "d"; "+"; "-"; "s"; "q"]%char)
    as [Hin|Hno]; [|auto].
  cbn [In] in Hin.
  destruct Hin as [<-|[<-|[<-|[<-|[<-|[<-|[<-|[<-|[]]]]]]]]]; cbn [In]; auto 10.
  - right; left. now exists true.
  - right; left. now exists false.
Qed.

End CommandLoop3.

Section CommandLoop4.
Import PP Sdo Frames Move PPMain Further Commands Samples SampleFrames.

Lemma s32_range (x : Z) : - 2 ^ 31 <= s32 x < 2 ^ 31.
Proof.
  unfold s32. pose proof (Z.mod_pos_bound (x + 2 ^ 31) (2 ^ 32) eq_refl). lia.
Qed.

Lemma scan_d_range (s : string) (v : Z) (r : string) :
  scan_d s = Some (v, r) -> - 2 ^ 31 <= v < 2 ^ 31.
Proof.
  unfold scan_d. destruct (scan_sign (skip_ws s)) as [[x neg] s1].
  destruct (scan_digits ddigit 10 0 0%nat s1) as [[d n] r'].
  destruct (n =? 0)%nat; [discriminate|]. intros [= <- _]. apply s32_range.
Qed.

Lemma argument_range (rest : string) : - 2 ^ 31 <= argument_of rest < 2 ^ 31.
Proof.
  unfold argument_of. destruct rest as [|c [|x r]]; try lia.
  destruct (scan_d (String x r)) as [[v r']|] eqn:E; [|lia].
  exact (scan_d_range _ _ _ E).
Qed.

(** X13: the position command.  With an argument (at least two
    characters after the letter p, the first of which is skipped), the
    number read by [%d], or 0 when no number starts there, is stored as
    the target position and handed to [execute_position_move]; it is
    stored before the range is checked, so a refused target stays in
    [current_target_position] while nothing is sent.  Without an
    argument nothing changes.  The three profile parameters and
    [running] are as before in every case. *)
Theorem position_command (buf rest : string) (s : session) :
  cut_lf (cstr buf) = String "p" rest ->
  let N := argument_of rest in
  let s' := snd (handle_command buf s) in
  - 2 ^ 31 <= N < 2 ^ 31
  /\ match rest with
     | String _ (String x r) =>
         N = match scan_d (String x r) with Some (v, _) => v | None => 0 end
         /\ current_target_position s' = N
         /\ prog s' = snd (execute_position_move N (prog s))
         /\ (N < MIN_POSITION \/ MAX_POSITION < N -> prog s' = prog s)
     | _ => s' = s
     end
  /\ current_profile_velocity s' = current_profile_velocity s
  /\ current_profile_acceleration s' = current_profile_acceleration s
  /\ current_profile_deceleration s' = current_profile_deceleration s
  /\ running s' = running s.
Proof.
  intros Hin. cbv zeta. rewrite (handle_p buf rest s Hin).
  split; [apply argument_range|].
  destruct rest as [|c [|x r]]; try (repeat split; reflexivity).
  cbn [current_target_position prog current_profile_velocity
       current_profile_acceleration current_profile_deceleration running].
  repeat split; try reflexivity.
  intros Hout. unfold execute_position_move.
  destruct (argument_of (String c (String x r)) >? MAX_POSITION) eqn:Hmax;
    [reflexivity|].
  destruct (argument_of (String c (String x r)) <? MIN_POSITION) eqn:Hmin;
    [reflexivity|].
  rewrite Z.gtb_ltb in Hmax. apply Z.ltb_ge in Hmax, Hmin. lia.
Qed.

(** X13 on the line "p 9999999": the target is stored, nothing is
    sent. *)
Lemma position_command_witness :
  let s := initial_session (hears [Received download_ack]) in
  let s' := snd (handle_command ("p 9999999" ++ nl) s) in
  current_target_position s' = 9999999 /\ prog s' = prog s.
Proof.
  cbv zeta.
  destruct (position_command ("p 9999999" ++ nl) " 9999999"
              (initial_session (hears [Received download_ack])) eq_refl)
    as (_ & (_ & Ht & _ & Hsame) & _).
  split; [exact Ht|]. apply Hsame. right. vm_compute. reflexivity.
Defined.

(** X14: the profile parameters the program holds are the ones it
    sends.  For each of velocity, acceleration and deceleration and for
    every command line, whatever the drive answers: either the variable
    is unchanged and no download for its object (0x6081, 0x6083, 0x6084)
    is written, or exactly one download for it is written and it
    carries the value the variable holds afterwards.  The variable is
    not restored when the download fails. *)
Theorem parameter_downloads_carry_the_stored_value
    (buf : string) (s : session) (which : ascii) (idx : Z) :
  parameter_object which = Some idx ->
  let s' := snd (handle_command buf s) in
  exists ws : list can_frame,
    downloads_to idx (trace (sock (prog s')))
    = downloads_to idx (trace (sock (prog s))) ++ ws
    /\ (ws = [] /\ parameter_of which s' = parameter_of which s
        \/ ws = [sdo_request_frame (prog s) idx 0 (parameter_of which s') 1]).
Proof.
  intros Hobj. cbv zeta.
  assert (Hsame : exists ws : list can_frame,
             downloads_to idx (trace (sock (prog s)))
             = downloads_to idx (trace (sock (prog s))) ++ ws
             /\ (ws = [] /\ parameter_of which s = parameter_of which s
                 \/ ws = [sdo_request_frame (prog s) idx 0 (parameter_of which s) 1])).
  { exists []. rewrite app_nil_r. auto. }
  destruct (cut_lf (cstr buf)) as [|cmd rest] eqn:Hin.
  { now rewrite (handle_empty buf s Hin). }
  destruct (command_cases cmd) as [Hc|[[plus ->]|Hno]].
  - pose proof (parameter_object_cases which idx Hobj) as Hw.
    cbn [In] in Hc.
    destruct Hc as [<-|[<-|[<-|[<-|[<-|[<-|[]]]]]]].
    + rewrite (handle_p buf rest s Hin).
      destruct rest as [|c [|x r]]; [exact Hsame|exact Hsame|].
      exists []. cbn [prog]. rewrite app_nil_r.
      split; [|left; split; [reflexivity|]].
      * apply downloads_to_move;
          destruct Hw as [[_ ->]|[[_ ->]|[_ ->]]]; discriminate.
      * unfold parameter_of. reflexivity.
    + rewrite (handle_v buf rest s Hin).
      destruct (argument_of rest >? 0); cbn [prog];
        rewrite downloads_to_help, ?downloads_to_write by lia.
      * destruct Hw as [[-> ->]|[[-> ->]|[-> ->]]]; simpl (_ =? _);
          eexists; (split; [reflexivity|]); unfold parameter_of;
          simpl (Ascii.eqb _ _); cbn [current_profile_velocity
            current_profile_acceleration current_profile_deceleration]; auto.
      * exists []. rewrite app_nil_r. split; [reflexivity|].
        left. split; [reflexivity|]. unfold parameter_of. reflexivity.
    + rewrite (handle_a buf rest s Hin).
      destruct (argument_of rest >? 0); cbn [prog];
        rewrite downloads_to_help, ?downloads_to_write by lia.
      * destruct Hw as [[-> ->]|[[-> ->]|[-> ->]]]; simpl (_ =? _);
          eexists; (split; [reflexivity|]); unfold parameter_of;
          simpl (Ascii.eqb _ _); cbn [current_profile_velocity
            current_profile_acceleration current_profile_deceleration]; auto.
      * exists []. rewrite app_nil_r. split; [reflexivity|].
        left. split; [reflexivity|]. unfold parameter_of. reflexivity.
    + rewrite (handle_d buf rest s Hin).
      destruct (argument_of rest >? 0); cbn [prog];
        rewrite downloads_to_help, ?downloads_to_write by lia.
      * destruct Hw as [[-> ->]|[[-> ->]|[-> ->]]]; simpl (_ =? _);
          eexists; (split; [reflexivity|]); unfold parameter_of;
          simpl (Ascii.eqb _ _); cbn [current_profile_velocity
            current_profile_acceleration current_profile_deceleration]; auto.
      * exists []. rewrite app_nil_r. split; [reflexivity|].
        left. split; [reflexivity|]. unfold parameter_of. reflexivity.
    + rewrite (handle_s buf rest s Hin). cbn [prog].
      rewrite downloads_to_help, downloads_to_write by lia.
      exists []. split.
      * destruct Hw as [[_ ->]|[[_ ->]|[_ ->]]]; reflexivity.
      * left. split; [reflexivity|]. unfold parameter_of. reflexivity.
    + rewrite (handle_q buf rest s Hin). cbn [prog].
      exists []. rewrite app_nil_r. split; [reflexivity|].
      left. split; [reflexivity|]. unfold parameter_of. reflexivity.
  - rewrite (handle_step buf plus rest s Hin).
    destruct rest as [|w2 r]; [exact Hsame|].
    destruct (parameter_object w2) as [idx2|] eqn:Hobj2;
      [|now rewrite (adjust_unknown plus w2 s Hobj2)].
    pose proof (adjust_known plus w2 idx2 s Hobj2) as Hadj. cbv zeta in Hadj.
    destruct (plus || (parameter_of w2 s >? 100)); [|now rewrite Hadj].
    destruct Hadj as (Hval & Hprog & _ & _ & Hother).
    assert (Hidx2 : 0 <= idx2 < 2 ^ 16).
    { destruct (parameter_object_cases w2 idx2 Hobj2)
        as [[_ ->]|[[_ ->]|[_ ->]]]; lia. }
    rewrite Hprog, downloads_to_write by exact Hidx2.
    destruct (Ascii.eqb_spec which w2) as [->|Hne].
    + assert (idx2 = idx) by congruence. subst idx2.
      rewrite Z.eqb_refl. eexists. split; [reflexivity|]. right.
      now rewrite Hval.
    + replace (idx2 =? idx) with false.
      * exists []. split; [reflexivity|]. left. split; [reflexivity|].
        apply Hother; [now apply Ascii.eqb_neq|congruence].
      * symmetry. apply Z.eqb_neq. intros ->.
        destruct (parameter_object_cases which idx Hobj)
          as [[-> E1]|[[-> E1]|[-> E1]]];
        destruct (parameter_object_cases w2 idx Hobj2)
          as [[-> E2]|[[-> E2]|[-> E2]]]; try congruence; lia.
  - now rewrite (handle_other buf cmd rest s Hin Hno).
Qed.

(** X14 on the line "v 300" with a drive that does not answer. *)
Lemma parameter_downloads_carry_the_stored_value_witness :
  let s := initial_session (hears []) in
  let s' := snd (handle_command ("v 300" ++ nl) s) in
  parameter_object "v" = Some 0x6081
  /\ exists ws : list can_frame,
       downloads_to 0x6081 (trace (sock (prog s')))
       = downloads_to 0x6081 (trace (sock (prog s))) ++ ws
       /\ (ws = [] /\ parameter_of "v" s' = parameter_of "v" s
           \/ ws = [sdo_request_frame (prog s) 0x6081 0 (parameter_of "v" s') 1]).
Proof.
  cbv zeta. split; [reflexivity|].
  exact (parameter_downloads_carry_the_stored_value ("v 300" ++ nl)
           (initial_session (hears [])) "v" 0x6081 eq_refl).
Defined.

End CommandLoop4.

Section CommandLoop5.
Import PP Sdo Frames Move PPMain Further Commands Samples SampleFrames.

(** X15: the step commands.  [+v], [+a], [+d] add 100 to the parameter
    modulo 2^32 and send it; [-v], [-a], [-d] take 100 off a parameter
    above 100 and send it, and leave a parameter of 100 or less alone
    and send nothing, so that a parameter of at least 1 never gets
    below 1 by stepping down.  One download for the parameter's object
    is all that is written: the position is not read again as after
    the commands v, a, d. *)
Theorem step_command (buf : string) (plus : bool) (which : ascii)
    (rest : string) (idx : Z) (s : session) :
  cut_lf (cstr buf) = String (if plus then "+" else "-")%char (String which rest) ->
  parameter_object which = Some idx ->
  0 <= parameter_of which s < 2 ^ 32 ->
  let v := parameter_of which s in
  let s' := snd (handle_command buf s) in
  let v' := parameter_of which s' in
  0 <= v' < 2 ^ 32
  /\ v' = (if plus then (v + 100) mod 2 ^ 32
           else if v >? 100 then v - 100 else v)
  /\ acts (trace (sock (prog s')))
     = acts (trace (sock (prog s)))
       ++ (if plus || (v >? 100)
           then [inl (sdo_request_frame (prog s) idx 0 v' 1)] else [])
  /\ (plus = false -> 1 <= v -> 1 <= v')
  /\ current_target_position s' = current_target_position s
  /\ running s' = running s.
Proof.
  intros Hin Hobj Hv. cbv zeta.
  rewrite (handle_step buf plus (String which rest) s Hin).
  pose proof (adjust_known plus which idx s Hobj) as Hadj. cbv zeta in Hadj.
  destruct plus; cbn [orb] in *.
  - destruct Hadj as (Hval & Hprog & Ht & Hr & _).
    rewrite Hval, Hprog, acts_write_sdo. unfold u32.
    repeat split; try (apply Z.mod_pos_bound; lia); try assumption.
    discriminate.
  - destruct (parameter_of which s >? 100) eqn:Hgt.
    + destruct Hadj as (Hval & Hprog & Ht & Hr & _).
      rewrite Z.gtb_ltb in Hgt. apply Z.ltb_lt in Hgt.
      rewrite Hval, Hprog, acts_write_sdo.
      repeat split; try lia; assumption.
    + rewrite Hadj, app_nil_r. repeat split; try lia.
Qed.

(** X15 on the line "-v" at the start of the session: 5466 is stored and
    sent. *)
Lemma step_command_witness :
  let s := initial_session (hears []) in
  let s' := snd (handle_command ("-v" ++ nl) s) in
  current_profile_velocity s' = 5466
  /\ acts (trace (sock (prog s')))
     = [inl (sdo_request_frame (prog s) 0x6081 0 5466 1)].
Proof.
  cbv zeta.
  assert (Hv : 0 <= parameter_of "v" (initial_session (hears [])) < 2 ^ 32)
    by (vm_compute; split; [discriminate|reflexivity]).
  destruct (step_command ("-v" ++ nl) false "v" "" 0x6081
              (initial_session (hears [])) eq_refl eq_refl Hv)
    as (_ & Hval & Hacts & _).
  split; [exact Hval|exact Hacts].
Defined.

(** X16: only the position command can start a move.  A command line
    that does not start with the letter p leaves the target position as
    it is and writes no download for the target position 0x607A; and it
    writes to the control word 0x6040 only when it starts with the
    letter s, a single download of 0x06. *)
Theorem motion_needs_the_position_command (buf : string) (s : session) :
  String.prefix "p" (cut_lf (cstr buf)) = false ->
  let s' := snd (handle_command buf s) in
  current_target_position s' = current_target_position s
  /\ downloads_to 0x607A (trace (sock (prog s')))
     = downloads_to 0x607A (trace (sock (prog s)))
  /\ downloads_to 0x6040 (trace (sock (prog s')))
     = downloads_to 0x6040 (trace (sock (prog s)))
       ++ (if String.prefix "s" (cut_lf (cstr buf))
           then [sdo_request_frame (prog s) 0x6040 0 0x06 1] else []).
Proof.
  intros Hp. cbv zeta.
  destruct (cut_lf (cstr buf)) as [|cmd rest] eqn:Hin.
  { rewrite (handle_empty buf s Hin). cbn [String.prefix].
    now rewrite app_nil_r. }
  destruct (command_cases cmd) as [Hc|[[plus ->]|Hno]].
  - cbn [In] in Hc.
    destruct Hc as [<-|[<-|[<-|[<-|[<-|[<-|[]]]]]]].
    + cbn in Hp. destruct rest; discriminate.
    + rewrite (handle_v buf rest s Hin).
      destruct (argument_of rest >? 0);
        cbn [prog current_target_position];
        rewrite !downloads_to_help, ?downloads_to_write by lia;
        simpl (_ =? _); simpl (String.prefix _ _); rewrite ?app_nil_r; auto.
    + rewrite (handle_a buf rest s Hin).
      destruct (argument_of rest >? 0);
        cbn [prog current_target_position];
        rewrite !downloads_to_help, ?downloads_to_write by lia;
        simpl (_ =? _); simpl (String.prefix _ _); rewrite ?app_nil_r; auto.
    + rewrite (handle_d buf rest s Hin).
      destruct (argument_of rest >? 0);
        cbn [prog current_target_position];
        rewrite !downloads_to_help, ?downloads_to_write by lia;
        simpl (_ =? _); simpl (String.prefix _ _); rewrite ?app_nil_r; auto.
    + rewrite (handle_s buf rest s Hin). cbn [prog current_target_position].
      rewrite !downloads_to_help, !downloads_to_write by lia.
      simpl (_ =? _). rewrite ?app_nil_r.
      replace (String.prefix "s" (String "s" rest)) with true
        by (cbn; now destruct rest).
      auto.
    + rewrite (handle_q buf rest s Hin). cbn [prog current_target_position].
      simpl (String.prefix _ _). rewrite ?app_nil_r. auto.
  - rewrite (handle_step buf plus rest s Hin).
    replace (String.prefix "s" (String (if plus then "+"%char else "-"%char) rest))
      with false by (now destruct plus).
    rewrite app_nil_r.
    destruct rest as [|w2 r]; [auto|].
    destruct (parameter_object w2) as [idx2|] eqn:Hobj2;
      [|rewrite (adjust_unknown plus w2 s Hobj2); auto].
    pose proof (adjust_known plus w2 idx2 s Hobj2) as Hadj. cbv zeta in Hadj.
    destruct (plus || (parameter_of w2 s >? 100)); [|rewrite Hadj; auto].
    destruct Hadj as (_ & Hprog & Ht & _ & _).
    assert (Hidx2 : 0 <= idx2 < 2 ^ 16 /\ idx2 <> 0x607A /\ idx2 <> 0x6040).
    { destruct (parameter_object_cases w2 idx2 Hobj2)
        as [[_ ->]|[[_ ->]|[_ ->]]]; lia. }
    destruct Hidx2 as (Hr & H1 & H2).
    rewrite Hprog, !downloads_to_write by exact Hr.
    apply Z.eqb_neq in H1, H2. rewrite H1, H2, !app_nil_r. auto.
  - rewrite (handle_other buf cmd rest s Hin Hno).
    replace (String.prefix "s" (String cmd rest)) with false.
    + rewrite app_nil_r. auto.
    + symmetry. cbn [String.prefix].
      destruct (ascii_dec "s" cmd) as [<-|]; [|reflexivity].
      exfalso. apply Hno. cbn [In]. tauto.
Qed.

(** X16 on the line "s" with a drive that does not answer. *)
Lemma motion_needs_the_position_command_witness :
  let s := initial_session (hears []) in
  let s' := snd (handle_command ("s" ++ nl) s) in
  downloads_to 0x607A (trace (sock (prog s'))) = []
  /\ downloads_to 0x6040 (trace (sock (prog s')))
     = [sdo_request_frame (prog s) 0x6040 0 0x06 1].
Proof.
  cbv zeta.
  destruct (motion_needs_the_position_command ("s" ++ nl)
              (initial_session (hears [])) eq_refl) as (_ & H1 & H2).
  split; [exact H1|exact H2].
Defined.

End CommandLoop5.

Section MainFurther.
Import PP Sdo Frames Move PPMain Further Commands Samples SampleFrames.

Lemma handle_command_running (buf : string) (s : session) :
  running (snd (handle_command buf s))
  = (if String.prefix "q" (cut_lf (cstr buf)) then 0 else running s).
Proof.
  destruct (cut_lf (cstr buf)) as [|cmd rest] eqn:Hin.
  { rewrite (handle_empty buf s Hin). cbn [String.prefix]. reflexivity. }
  destruct (command_cases cmd) as [Hc|[[plus ->]|Hno]].
  - cbn [In] in Hc.
    destruct Hc as [<-|[<-|[<-|[<-|[<-|[<-|[]]]]]]].
    + rewrite (handle_p buf rest s Hin). simpl (String.prefix _ _).
      now destruct rest as [|c [|x r]].
    + rewrite (handle_v buf rest s Hin). simpl (String.prefix _ _).
      now destruct (argument_of rest >? 0).
    + rewrite (handle_a buf rest s Hin). simpl (String.prefix _ _).
      now destruct (argument_of rest >? 0).
    + rewrite (handle_d buf rest s Hin). simpl (String.prefix _ _).
      now destruct (argument_of rest >? 0).
    + rewrite (handle_s buf rest s Hin). simpl (String.prefix _ _).
      reflexivity.
    + rewrite (handle_q buf rest s Hin).
      replace (String.prefix "q" (String "q" rest)) with true
        by (cbn; now destruct rest).
      reflexivity.
  - rewrite (handle_step buf plus rest s Hin).
    replace (String.prefix "q" (String (if plus then "+"%char else "-"%char) rest))
      with false by (now destruct plus).
    destruct rest as [|w2 r]; [reflexivity|].
    destruct (parameter_object w2) as [idx2|] eqn:Hobj2;
      [|now rewrite (adjust_unknown plus w2 s Hobj2)].
    pose proof (adjust_known plus w2 idx2 s Hobj2) as Hadj. cbv zeta in Hadj.
    destruct (plus || (parameter_of w2 s >? 100)); [|now rewrite Hadj].
    now destruct Hadj as (_ & _ & _ & Hr & _).
  - rewrite (handle_other buf cmd rest s Hin Hno).
    replace (String.prefix "q" (String cmd rest)) with false; [reflexivity|].
    symmetry. cbn [String.prefix].
    destruct (ascii_dec "q" cmd) as [<-|]; [|reflexivity].
    exfalso. apply Hno. cbn [In]. tauto.
Qed.

(** X17: the command loop ends on [q] only.  Whatever the line and
    whatever the drive answers, [running] after a command is 0 when the
    line starts with the letter q and is what it was before otherwise;
    and the q command changes nothing else and sends nothing. *)
Theorem only_q_ends_the_loop (buf : string) (s : session) :
  let s' := snd (handle_command buf s) in
  running s'
  = (if String.prefix "q" (cut_lf (cstr buf)) then 0 else running s)
  /\ (if String.prefix "q" (cut_lf (cstr buf)) then
        s' = mk_session (current_target_position s) (current_profile_velocity s)
               (current_profile_acceleration s) (current_profile_deceleration s)
               0 (prog s)
      else True).
Proof.
  cbv zeta. split; [apply handle_command_running|].
  destruct (cut_lf (cstr buf)) as [|cmd rest] eqn:Hin; [exact I|].
  cbn [String.prefix]. destruct (ascii_dec "q" cmd) as [<-|]; [|exact I].
  replace (String.prefix "" rest) with true by (now destruct rest).
  exact (handle_q buf rest s Hin).
Qed.

Lemma choose_node_in_range (argv1 : option string) (stdin : string) (node : Z) :
  choose_node argv1 stdin = Some node -> 1 <= node <= 127.
Proof.
  assert (Hu8 : forall v, (v >=? 1) && (v <=? 127) = true -> 1 <= u8 v <= 127).
  { intros v H. apply andb_prop in H as [H1 H2].
    rewrite Z.geb_leb in H1. apply Z.leb_le in H1, H2.
    unfold u8. rewrite Z.mod_small; lia. }
  unfold choose_node, MOTOR_NODE_ID. destruct argv1 as [arg|].
  - destruct ((atoi (cstr arg) >=? 1) && (atoi (cstr arg) <=? 127)) eqn:E;
      [|discriminate]. intros [= <-]. now apply Hu8.
  - destruct (scan_d stdin) as [[v r]|]; [|intros [= <-]; lia].
    destruct ((v >=? 1) && (v <=? 127)) eqn:E; intros [= <-]; [now apply Hu8|lia].
Qed.

(** X18: the node chosen at start-up.  Whatever the argument or the
    text typed, the node id the program goes on with is in 1..127; the
    program stops ([None]) only when an argument is given whose [atoi]
    is outside 1..127, while text typed at the prompt that is no number
    or is out of range gives the default node 2. *)
Theorem choose_node_range (argv1 : option string) (stdin : string) :
  match choose_node argv1 stdin with
  | Some node => 1 <= node <= 127
  | None =>
      exists arg, argv1 = Some arg
                  /\ ~ (1 <= atoi (cstr arg) <= 127)
  end
  /\ (argv1 = None ->
      (scan_d stdin = None -> choose_node argv1 stdin = Some 2)
      /\ (forall v r, scan_d stdin = Some (v, r) -> ~ (1 <= v <= 127) ->
                      choose_node argv1 stdin = Some 2)).
Proof.
  assert (Hout : forall v, (v >=? 1) && (v <=? 127) = false ->
                           ~ (1 <= v <= 127)).
  { intros v H [H1 H2]. apply andb_false_iff in H as [H|H].
    - rewrite Z.geb_leb in H. apply Z.leb_gt in H. lia.
    - apply Z.leb_gt in H. lia. }
  split.
  - destruct (choose_node argv1 stdin) as [node|] eqn:E;
      [exact (choose_node_in_range argv1 stdin node E)|].
    unfold choose_node in E. destruct argv1 as [arg|].
    + exists arg. split; [reflexivity|]. apply Hout.
      now destruct ((atoi (cstr arg) >=? 1) && (atoi (cstr arg) <=? 127)).
    + destruct (scan_d stdin) as [[v r]|]; [|discriminate].
      now destruct ((v >=? 1) && (v <=? 127)).
  - intros ->. unfold choose_node. split.
    + intros ->. reflexivity.
    + intros v r -> Hv.
      destruct ((v >=? 1) && (v <=? 127)) eqn:E; [|reflexivity].
      exfalso. apply Hv. apply andb_prop in E as [H1 H2].
      rewrite Z.geb_leb in H1. apply Z.leb_le in H1, H2. lia.
Qed.

Lemma check_can_connection_result (w : world) :
  fst (check_can_connection w) = (if send_ok (sock w) then 0 else -1).
Proof.
  unfold check_can_connection. rewrite bind_fst, on_sock_sock. cbn [fst snd].
  unfold sock_write, send_ok.
  destruct (wr (sock w)) as [|x more]; cbn [fst snd]; [reflexivity|].
  rewrite Z.ltb_antisym. destruct (0 <=? x); reflexivity.
Qed.

(** X19: the connection check listens to nobody.  It writes the NMT
    start frame for all nodes and returns 0 with a 500 ms pause when
    the write succeeds, -1 when it fails; it reads nothing, so what is
    waiting on the socket is still there and the check passes on a bus
    with no node at all. *)
Theorem connection_check_only_writes (w : world) :
  let r := fst (check_can_connection w) in
  let w' := snd (check_can_connection w) in
  rx (sock w') = rx (sock w)
  /\ same_globals w w'
  /\ r = (if send_ok (sock w) then 0 else -1)
  /\ acts (trace (sock w'))
     = acts (trace (sock w))
       ++ inl (nmt_frame 0x01 0x00)
          :: (if send_ok (sock w) then [inr 500000] else []).
Proof.
  cbv zeta. unfold check_can_connection.
  rewrite bind_fst, bind_snd.
  pose proof (acts_sock_write (nmt_frame 0x01 0x00) w) as Ha.
  pose proof (keeps_on_sock (sock_write (nmt_frame 0x01 0x00)) w) as Hg.
  assert (Hrx : rx (sock (snd (on_sock (sock_write (nmt_frame 0x01 0x00)) w)))
                = rx (sock w)).
  { rewrite on_sock_sock. cbn [snd]. 
    destruct (sock_write_trace (nmt_frame 0x01 0x00) (sock w)) as [_ H].
    exact H. }
  assert (Hr : (fst (on_sock (sock_write (nmt_frame 0x01 0x00)) w) <? 0)
               = negb (send_ok (sock w))).
  { rewrite on_sock_sock. cbn [fst]. unfold sock_write, send_ok.
    destruct (wr (sock w)) as [|x more]; [reflexivity|]. cbn [fst].
    rewrite Z.ltb_antisym. reflexivity. }
  change (mk_frame 0 2 [1; 0]) with (nmt_frame 0x01 0x00).
  set (w1 := snd (on_sock (sock_write (nmt_frame 0x01 0x00)) w)) in *.
  rewrite Hr. destruct (send_ok (sock w)); cbn [negb].
  - rewrite bind_fst, bind_snd. cbn [ret fst snd].
    pose proof (acts_usleep 500000 w1) as Hs.
    pose proof (keeps_on_sock (usleep 500000) w1) as Hg2.
    split; [|split; [|split]].
    + rewrite on_sock_sock. cbn [snd]. exact Hrx.
    + exact (same_globals_trans _ _ _ Hg Hg2).
    + reflexivity.
    + rewrite Hs, Ha, <- app_assoc. reflexivity.
  - cbn [ret fst snd]. auto.
Qed.

End MainFurther.

Section MonitorFurther.
Import PP Sdo Frames Move PPMain Further Commands Samples SampleFrames.




End MonitorFurther.

Section ScanFurther.
Import QuickScan QuickScanMain Sdo Discovery Further Scan Samples SampleFrames.


Lemma sleeps_of_app (t1 t2 : list event) :
  sleeps_of (t1 ++ t2) = sleeps_of t1 ++ sleeps_of t2.
Proof. unfold sleeps_of. apply flat_map_app. Qed.

(** What the polling loop of the scanner has done when it returns. *)
Lemma quick_poll_answers (node : Z) (rx : list slice) (value : Z) :
  let res := QuickScan.sdo_poll node rx value in
  let r := fst (fst (fst res)) in
  let d := snd (fst (fst res)) in
  writes_of (snd res) = [] /\ sleeps_of (snd res) = []
  /\ ((r = 0
       /\ exists skipped f,
            rx = skipped ++ Received f :: snd (fst res)
            /\ forallb (passes (upload_response_of node)) skipped = true
            /\ upload_response_of node f = true
            /\ answers node (snd res) = [f] /\ d = payload_u32 f)
      \/ (r = -1 /\ d = value /\ answers node (snd res) = []
          /\ forall skipped f rest,
               rx = skipped ++ Received f :: rest ->
               forallb (passes (upload_response_of node)) skipped = true ->
               upload_response_of node f = false)).
Proof.
  cbv zeta. induction rx as [|s rx IH].
  - cbn. repeat split. right. repeat split.
    intros [|x sk] f rest H; discriminate H.
  - destruct IH as (Hw & Hs & IH). destruct s as [| | |f].
    + cbn. repeat split. right. repeat split.
      intros [|x sk] f rest H Hp; [discriminate H|].
      injection H as <- _. discriminate Hp.
    + cbn [QuickScan.sdo_poll]. split; [exact Hw|]. split; [exact Hs|].
      destruct IH as [(Hr & sk & f & E & Hp & Hf & Ha & Hd)|(Hr & Hd & Ha & Hno)].
      * left. split; [exact Hr|]. exists (Idle :: sk), f.
        rewrite <- app_comm_cons, <- E. auto.
      * right. repeat split; try assumption.
        intros [|x sk] f rest H Hp; [discriminate H|].
        injection H as <- H. apply (Hno sk f rest H).
        cbn [forallb] in Hp. now apply andb_prop in Hp as [_ Hp].
    + cbn [QuickScan.sdo_poll]. split; [exact Hw|]. split; [exact Hs|].
      destruct IH as [(Hr & sk & f & E & Hp & Hf & Ha & Hd)|(Hr & Hd & Ha & Hno)].
      * left. split; [exact Hr|]. exists (ReadFailed :: sk), f.
        rewrite <- app_comm_cons, <- E. auto.
      * right. repeat split; try assumption.
        intros [|x sk] f rest H Hp; [discriminate H|].
        injection H as <- H. apply (Hno sk f rest H).
        cbn [forallb] in Hp. now apply andb_prop in Hp as [_ Hp].
    + destruct (upload_response_of node f) eqn:Hf.
      * rewrite (quick_poll_accept node f rx value Hf). cbn [fst snd].
        split; [reflexivity|]. split; [reflexivity|].
        left. split; [reflexivity|]. exists [], f.
        cbn [app forallb answers flat_map]. rewrite Hf. auto.
      * rewrite (quick_poll_ignore node f rx value Hf).
        destruct (QuickScan.sdo_poll node rx value) as [[[r d] rx'] evs].
        cbn [fst snd] in *.
        split; [exact Hw|]. split; [exact Hs|].
        destruct IH as [(Hr & sk & g & E & Hp & Hg & Ha & Hd)|(Hr & Hd & Ha & Hno)].
        -- left. split; [exact Hr|]. exists (Received f :: sk), g.
           cbn [forallb passes answers flat_map]. rewrite Hf.
           rewrite <- app_comm_cons, <- E. cbn [negb andb app].
           change (flat_map _ evs) with (answers node evs). auto.
        -- right. split; [exact Hr|]. split; [exact Hd|].
           split.
           ++ cbn [answers flat_map]. rewrite Hf. exact Ha.
           ++ intros [|x sk] g rest H Hp.
              ** injection H as <- _. exact Hf.
              ** injection H as <- H. apply (Hno sk g rest H).
                 cbn [forallb] in Hp. now apply andb_prop in Hp as [_ Hp].
Qed.

Lemma quick_send (node idx sub : Z) (b : bus) :
  let res := QuickScan.send_sdo_request node idx sub b in
  ((fst res <? 0) = negb (send_ok b))
  /\ rx (snd res) = rx b
  /\ trace (snd res)
     = trace b ++ [EvWrite (QuickScan.sdo_request_frame node idx sub) (fst res)].
Proof.
  cbv zeta. unfold QuickScan.send_sdo_request, sock_write, send_ok.
  destruct (wr b) as [|x more]; cbn [fst snd rx trace]; repeat split.
  rewrite Z.ltb_antisym. reflexivity.
Qed.

Lemma quick_receive (node data tmo : Z) (b : bus) :
  QuickScan.receive_sdo_response node data tmo b
  = let res := QuickScan.sdo_poll node (rx b) data in
    ((fst (fst (fst res)), snd (fst (fst res))),
     mk_bus (snd (fst res)) (wr b) (trace b ++ snd res)).
Proof.
  unfold QuickScan.receive_sdo_response.
  now destruct (QuickScan.sdo_poll node (rx b) data) as [[[r d] rx'] evs].
Qed.

Lemma accepts_low16 (data : Z) :
  accepts_device_type data
  = (Z.land data 0xFFFF =? 0x92) || (Z.land data 0xFFFF =? 0x0192).
Proof.
  unfold accepts_device_type. cbv zeta.
  assert (H : u16 (Z.land data 0xFFFF) = Z.land data 0xFFFF).
  { unfold u16. change 0xFFFF with (Z.ones 16). rewrite Z.land_ones by lia.
    apply Z.mod_mod. lia. }
  rewrite H. now destruct (_ =? 0x92), (_ =? 0x0192).
Qed.

Lemma quick_scan_node_spec (node : Z) (b : bus) :
  let r := fst (quick_scan_node node b) in
  let b' := snd (quick_scan_node node b) in
  (r = 0 \/ r = -1)
  /\ sleeps_of (trace b') = sleeps_of (trace b)
  /\ writes_of (trace b')
     = writes_of (trace b) ++ [QuickScan.sdo_request_frame node 0x1000 0]
  /\ (r = 0 <->
      send_ok b = true
      /\ exists skipped f rest,
           rx b = skipped ++ Received f :: rest
           /\ forallb (passes (upload_response_of node)) skipped = true
           /\ upload_response_of node f = true
           /\ (Z.land (payload_u32 f) 0xFFFF = 0x92
               \/ Z.land (payload_u32 f) 0xFFFF = 0x0192)).
Proof.
  cbv zeta. unfold quick_scan_node, bind.
  destruct (quick_send node 0x1000 0 b) as (Hr & Hrx & Ht).
  destruct (QuickScan.send_sdo_request node 0x1000 0 b) as [r1 b1].
  cbn [fst snd] in *. rewrite Hr.
  destruct (send_ok b) eqn:Hok; cbn [negb].
  2: { unfold ret. cbn [fst snd]. split; [now right|].
       split; [rewrite Ht, sleeps_of_app; cbn; now rewrite app_nil_r|].
       split; [rewrite Ht, writes_of_app; reflexivity|].
       split; [discriminate|]. intros [H _]. discriminate H. }
  rewrite quick_receive. cbv zeta. rewrite Hrx.
  destruct (quick_poll_answers node (rx b) 0) as (Hw & Hsl & Hcase).
  set (res := QuickScan.sdo_poll node (rx b) 0) in *.
  assert (Hwr : writes_of (trace b1 ++ snd res)
                = writes_of (trace b) ++ [QuickScan.sdo_request_frame node 0x1000 0]).
  { rewrite writes_of_app, Hw, Ht, writes_of_app. cbn. now rewrite !app_nil_r. }
  assert (Hsr : sleeps_of (trace b1 ++ snd res) = sleeps_of (trace b)).
  { rewrite sleeps_of_app, Hsl, Ht, sleeps_of_app. cbn. now rewrite !app_nil_r. }
  destruct Hcase as [(H0 & sk & f & E & Hp & Hf & _ & Hd)|(H1 & _ & _ & Hno)].
  - rewrite H0, Hd. change (0 <? 0) with false. unfold ret. cbv beta iota.
    replace (negb (u16 (Z.land (payload_u32 f) 0xFFFF) =? 0x92)
               && negb (u16 (Z.land (payload_u32 f) 0xFFFF) =? 0x0192))
      with (negb (accepts_device_type (payload_u32 f)))
      by (unfold accepts_device_type; cbv zeta; now rewrite negb_involutive).
    rewrite accepts_low16.
    destruct ((Z.land (payload_u32 f) 0xFFFF =? 0x92)
              || (Z.land (payload_u32 f) 0xFFFF =? 0x0192)) eqn:Hacc; cbn [negb fst snd trace].
    + split; [now left|]. split; [exact Hsr|]. split; [exact Hwr|]. split; [|reflexivity].
      intros _. split; [reflexivity|]. exists sk, f, (snd (fst res)).
      repeat split; try assumption.
      apply orb_prop in Hacc as [H|H]; apply Z.eqb_eq in H; auto.
    + split; [now right|]. split; [exact Hsr|]. split; [exact Hwr|]. split; [discriminate|].
      intros (_ & sk' & f' & rest' & E' & Hp' & Hf' & Hv).
      assert (Hsame : sk' = sk /\ f' = f).
      { clear - E E' Hp Hp' Hf Hf'. rewrite E' in E. clear E'.
        revert sk E Hp. induction sk' as [|x sk' IH]; intros [|y sk] E Hp.
        - injection E as E _. auto.
        - injection E as <- _. cbn [forallb passes] in Hp.
          rewrite Hf' in Hp. discriminate Hp.
        - injection E as -> _. cbn [forallb passes] in Hp'.
          rewrite Hf in Hp'. discriminate Hp'.
        - injection E as <- E. cbn [forallb] in Hp, Hp'.
          apply andb_prop in Hp as [_ Hp]. apply andb_prop in Hp' as [_ Hp'].
          destruct (IH Hp' sk E Hp) as [-> ->]. auto. }
      destruct Hsame as [_ ->].
      apply orb_false_iff in Hacc as [A1 A2].
      apply Z.eqb_neq in A1, A2. destruct Hv; contradiction.
  - rewrite H1. change (-1 <? 0) with true. unfold ret. cbn [fst snd trace].
    split; [now right|]. split; [exact Hsr|]. split; [exact Hwr|]. split; [discriminate|].
    intros (_ & sk' & f' & rest' & E' & Hp' & Hf' & _).
    rewrite (Hno sk' f' rest' E' Hp') in Hf'. discriminate.
Qed.

(** X21: the verdict of [quick_scan_node].  It writes one frame, the
    upload request for 0x1000:0 of the node, and returns 0 or -1.  It
    returns 0 exactly when the write succeeded and the first upload
    response of the node that arrives before the deadline carries a
    value whose low 16 bits are 0x0092 or 0x0192; the upper 16 bits of
    the device type play no part. *)
Theorem quick_scan_node_verdict (node : Z) (b : bus) :
  let r := fst (quick_scan_node node b) in
  let b' := snd (quick_scan_node node b) in
  (r = 0 \/ r = -1)
  /\ writes_of (trace b')
     = writes_of (trace b) ++ [QuickScan.sdo_request_frame node 0x1000 0]
  /\ (r = 0 <->
      send_ok b = true
      /\ exists skipped f rest,
           rx b = skipped ++ Received f :: rest
           /\ forallb (passes (upload_response_of node)) skipped = true
           /\ upload_response_of node f = true
           /\ (Z.land (payload_u32 f) 0xFFFF = 0x92
               \/ Z.land (payload_u32 f) 0xFFFF = 0x0192)).
Proof.
  destruct (quick_scan_node_spec node b) as (H1 & _ & H2 & H3). cbv zeta. auto.
Qed.

End ScanFurther.

Section ScanFurther2.
Import QuickScan QuickScanMain Sdo Discovery Further Scan Samples SampleFrames.

(** X22: the two programs do not agree on what a motor drive is.  The
    scan of pp_mode_control.c takes the device types 0x00020192 to
    0x00020195, the one of quick_scan.c every device type whose low 16
    bits are 0x0092 or 0x0192: 0x00020192 is the only value both take. *)
Theorem scanners_agree_on_one_device_type (device_type : Z) :
  (PP.is_cia402_motor device_type && accepts_device_type device_type = true
   <-> device_type = 0x00020192)
  /\ (PP.is_cia402_motor device_type = true -> device_type <> 0x00020192 ->
      accepts_device_type device_type = false)
  /\ (exists other, accepts_device_type other = true
                    /\ PP.is_cia402_motor other = false).
Proof.
  assert (Hiff : PP.is_cia402_motor device_type && accepts_device_type device_type = true
                 <-> device_type = 0x00020192).
  { split.
    - intros H. apply andb_prop in H as [Hm Ha].
      apply (proj1 (is_hit_spec (Some device_type))) in Hm.
      destruct Hm as (dt & [= <-] & [H|[H|[H|H]]]); subst; try reflexivity;
        discriminate Ha.
    - intros ->. reflexivity. }
  split; [exact Hiff|]. split.
  - intros Hm Hne. destruct (accepts_device_type device_type) eqn:Ha; [|reflexivity].
    exfalso. apply Hne, Hiff. now rewrite Hm.
  - exists 0x92. split; reflexivity.
Qed.




End ScanFurther2.

Section ScanFurther3.
Import QuickScan QuickScanMain Sdo Discovery Further Scan Samples SampleFrames.

Lemma scan_nodes_spec (nodes : list Z) (found_count : Z) (b : bus) :
  let c := fst (scan_nodes nodes found_count b) in
  let b' := snd (scan_nodes nodes found_count b) in
  found_count <= c <= found_count + Z.of_nat (List.length nodes)
  /\ writes_of (trace b')
     = writes_of (trace b)
       ++ map (fun n => QuickScan.sdo_request_frame (u8 n) 0x1000 0) nodes
  /\ sleeps_of (trace b')
     = sleeps_of (trace b) ++ repeat 10000 (List.length nodes).
Proof.
  cbv zeta. revert found_count b.
  induction nodes as [|n nodes IH]; intros c b.
  - cbn. rewrite !app_nil_r. repeat split; lia.
  - cbn [scan_nodes]. unfold bind.
    destruct (quick_scan_node_spec (u8 n) b) as (Hr & Hs & Hw & _).
    destruct (quick_scan_node (u8 n) b) as [r b1]. cbn [fst snd] in *.
    unfold usleep, emit.
    match goal with
    | |- context [scan_nodes nodes ?c' ?b'] =>
        destruct (IH c' b') as (Hc & Hw' & Hs')
    end.
    cbn [trace] in Hw', Hs'.
    rewrite writes_of_app, Hw in Hw'. rewrite sleeps_of_app, Hs in Hs'.
    cbn [writes_of sleeps_of flat_map app] in Hw', Hs'.
    rewrite app_nil_r in Hw'.
    split; [|split].
    + cbn [List.length]. destruct (r =? 0); lia.
    + rewrite Hw'. cbn [map]. rewrite <- app_assoc. reflexivity.
    + rewrite Hs'. cbn [List.length repeat]. rewrite <- app_assoc. reflexivity.
Qed.

Lemma atoi_range (s : string) : - 2 ^ 31 <= atoi s < 2 ^ 31.
Proof.
  unfold atoi. destruct (scan_d s) as [[v r]|] eqn:E; [|lia].
  exact (scan_d_range s v r E).
Qed.

(** X24: the scan loop of quick_scan.c.  The number of nodes it is
    given is at most 127 (20 without a second argument; an argument
    that is not a number, or not positive, gives no node at all).  When
    no signal interrupts it, every node from 1 to that number is asked
    for its device type once, in order, with a 10 ms pause after each,
    whatever the earlier nodes answered and whether or not the writes
    succeed; the count of drives found is between 0 and the number of
    nodes. *)
Theorem quick_scan_visits_every_node (argv2 : option string) (b : bus) :
  let max_nodes := max_nodes_of argv2 in
  let found_count := fst (quick_scan max_nodes b) in
  let b' := snd (quick_scan max_nodes b) in
  - 2 ^ 31 <= max_nodes <= 127
  /\ (argv2 = None -> max_nodes = 20)
  /\ writes_of (trace b')
     = writes_of (trace b)
       ++ map (fun k => QuickScan.sdo_request_frame (Z.of_nat k) 0x1000 0)
              (seq 1 (Z.to_nat max_nodes))
  /\ sleeps_of (trace b')
     = sleeps_of (trace b) ++ repeat 10000 (Z.to_nat max_nodes)
  /\ 0 <= found_count <= Z.max 0 max_nodes.
Proof.
  cbv zeta.
  assert (Hmax : - 2 ^ 31 <= max_nodes_of argv2 <= 127).
  { unfold max_nodes_of. destruct argv2 as [a|]; [|lia].
    pose proof (atoi_range (cstr a)) as Ha.
    destruct (atoi (cstr a) >? 127) eqn:E; [lia|].
    rewrite Z.gtb_ltb in E. apply Z.ltb_ge in E. lia. }
  split; [exact Hmax|]. split; [now intros ->|].
  unfold quick_scan.
  destruct (scan_nodes_spec (map Z.of_nat (seq 1 (Z.to_nat (max_nodes_of argv2)))) 0 b)
    as (Hc & Hw & Hs).
  rewrite length_map, length_seq in Hc, Hs.
  split; [|split; [exact Hs|lia]].
  rewrite Hw, map_map. f_equal. apply map_ext_in.
  intros k Hk. apply in_seq in Hk. unfold u8.
  rewrite Z.mod_small by (change (2 ^ 8) with 256; lia). reflexivity.
Qed.

End ScanFurther3.

Section Addressing.
Import PP Sdo Frames Move PPMain Further Commands PPRun Samples SampleFrames.

Lemma sends_to_ret {A} (node : Z) (a : A) : sends_to node (ret a).
Proof.
  intros w Hn. split; [exact Hn|]. split; [reflexivity|].
  exists []. cbn. now rewrite app_nil_r.
Qed.

Lemma sends_to_bind {A B} (node : Z) (m : IO world A) (k : A -> IO world B) :
  sends_to node m -> (forall a, sends_to node (k a)) -> sends_to node (bind m k).
Proof.
  intros Hm Hk w Hn. unfold bind.
  destruct (Hm w Hn) as (N1 & D1 & l1 & E1 & P1).
  destruct (m w) as [a w1]. cbn [snd] in *.
  destruct (Hk a w1 N1) as (N2 & D2 & l2 & E2 & P2).
  split; [exact N2|]. split; [congruence|].
  exists (l1 ++ l2). rewrite E2, E1, <- app_assoc. split; [reflexivity|].
  rewrite forallb_app, P1, P2. reflexivity.
Qed.

Lemma sends_to_if {A} (node : Z) (c : bool) (m1 m2 : IO world A) :
  sends_to node m1 -> sends_to node m2 -> sends_to node (if c then m1 else m2).
Proof. now destruct c. Qed.

Lemma request_addressed (w : world) (idx sub v rw : Z) :
  addressed (current_motor_id w) (inl (sdo_request_frame w idx sub v rw)) = true.
Proof.
  unfold addressed, sdo_request_frame.
  destruct (negb (rw =? 0)); cbn [can_id can_dlc];
    rewrite !Z.eqb_refl; apply orb_true_r.
Qed.

Lemma sends_to_write_sdo (node idx sub v : Z) : sends_to node (write_sdo idx sub v).
Proof.
  intros w Hn. destruct (keeps_write_sdo idx sub v w) as (_ & Hd & Hc & _).
  split; [congruence|]. split; [exact Hd|].
  exists [inl (sdo_request_frame w idx sub v 1)].
  split; [apply acts_write_sdo|]. cbn [forallb].
  rewrite <- Hn, request_addressed. reflexivity.
Qed.

Lemma sends_to_read_sdo (node idx sub v : Z) : sends_to node (read_sdo idx sub v).
Proof.
  intros w Hn. destruct (keeps_read_sdo idx sub v w) as (_ & Hd & Hc & _).
  split; [congruence|]. split; [exact Hd|].
  exists [inl (sdo_request_frame w idx sub 0 0)].
  split; [apply acts_read_sdo|]. cbn [forallb].
  rewrite <- Hn, request_addressed. reflexivity.
Qed.

Lemma sends_to_usleep (node usec : Z) : sends_to node (on_sock (usleep usec)).
Proof.
  intros w Hn. destruct (keeps_on_sock (usleep usec) w) as (_ & Hd & Hc & _).
  split; [congruence|]. split; [exact Hd|].
  exists [inr usec]. split; [apply acts_usleep|reflexivity].
Qed.

Lemma sends_to_sock_write (node : Z) (f : can_frame) :
  can_id f = 0x000 -> can_dlc f = 2 -> sends_to node (on_sock (sock_write f)).
Proof.
  intros Hi Hl w Hn. destruct (keeps_on_sock (sock_write f) w) as (_ & Hd & Hc & _).
  split; [congruence|]. split; [exact Hd|].
  exists [inl f]. split; [apply acts_sock_write|].
  cbn [forallb addressed]. rewrite Hi, Hl. reflexivity.
Qed.

Lemma sends_to_nmt (node command : Z) :
  sends_to node (fun w => send_nmt_command command (current_motor_id w) w).
Proof.
  intros w Hn. unfold send_nmt_command.
  now apply (sends_to_sock_write node (mk_frame 0 2 [command; current_motor_id w])).
Qed.

Lemma sends_to_set_motor_enabled (node r v : Z) :
  sends_to node (fun w => (r, set_motor_enabled v w)).
Proof.
  intros w Hn. cbn [snd]. split; [exact Hn|]. split; [reflexivity|].
  exists []. cbn. now rewrite app_nil_r.
Qed.

Lemma sends_to_poll_loop (node : Z) (seen : Z -> Z -> bool) (fuel : nat) (tc sw : Z) :
  sends_to node (poll_loop seen fuel tc sw).
Proof.
  revert tc sw. induction fuel as [|fuel IH]; intros tc sw.
  - apply sends_to_ret.
  - cbn [poll_loop]. apply sends_to_if; [|apply sends_to_ret].
    apply sends_to_bind; [apply sends_to_read_sdo|]. intros [r sw'].
    apply sends_to_if; [apply sends_to_ret|].
    apply sends_to_bind; [apply sends_to_usleep|]. intros _. apply IH.
Qed.

Lemma sends_to_wait_ack (node : Z) (fuel : nat) (tc sw : Z) :
  sends_to node (wait_setpoint_ack fuel tc sw).
Proof.
  intros w. rewrite wait_setpoint_ack_loop. apply sends_to_poll_loop.
Qed.

Lemma sends_to_wait_clear (node : Z) (fuel : nat) (tc sw : Z) :
  sends_to node (wait_setpoint_clear fuel tc sw).
Proof.
  intros w. rewrite wait_setpoint_clear_loop. apply sends_to_poll_loop.
Qed.

End Addressing.

Create HintDb sending.
#[export] Hint Resolve sends_to_ret sends_to_write_sdo sends_to_read_sdo
  sends_to_usleep sends_to_nmt sends_to_set_motor_enabled sends_to_wait_ack
  sends_to_wait_clear : sending.

Ltac sending :=
  repeat first
    [ progress auto with sending
    | apply sends_to_bind; [|intros ?]
    | apply sends_to_if
    | match goal with
      | |- PPRun.sends_to _ (match ?x with _ => _ end) => destruct x
      end ].

Section Addressing2.
Import PP Sdo Frames Move PPMain Further Commands PPRun Samples SampleFrames.

Lemma sends_to_help (node : Z) : sends_to node print_command_help.
Proof. unfold print_command_help. sending. Qed.

Lemma sends_to_move (node t : Z) : sends_to node (execute_position_move t).
Proof. unfold execute_position_move. sending. Qed.

Lemma sends_to_init (node : Z) : sends_to node init_pp_mode.
Proof. unfold init_pp_mode. sending. Qed.

Lemma sends_to_check (node : Z) : sends_to node check_can_connection.
Proof.
  unfold check_can_connection.
  apply sends_to_bind; [now apply sends_to_sock_write|]. intros r. sending.
Qed.

End Addressing2.

Section Run.
Import PP Sdo Frames Move PPMain Further Commands PPRun Samples SampleFrames.

(** What a command does to the program state is an action that stays
    with the node. *)
Lemma handle_command_prog (buf : string) (s : session) :
  exists M : IO world unit,
    (forall node, sends_to node M)
    /\ prog (snd (handle_command buf s)) = snd (M (prog s)).
Proof.
  assert (Hnone : exists M : IO world unit,
             (forall node, sends_to node M) /\ prog s = snd (M (prog s))).
  { exists (ret tt). split; [intros; apply sends_to_ret|reflexivity]. }
  assert (Hwrite : forall idx v, exists M : IO world unit,
             (forall node, sends_to node M)
             /\ snd (write_sdo idx 0 v (prog s)) = snd (M (prog s))).
  { intros idx v. exists (bind (write_sdo idx 0 v) (fun _ => ret tt)).
    split; [intros; sending|]. now rewrite bind_snd. }
  assert (Hwh : forall idx v, exists M : IO world unit,
             (forall node, sends_to node M)
             /\ snd (print_command_help (snd (write_sdo idx 0 v (prog s))))
                = snd (M (prog s))).
  { intros idx v. exists (bind (write_sdo idx 0 v) (fun _ => print_command_help)).
    split; [intros; apply sends_to_bind; [sending|intros; apply sends_to_help]|].
    now rewrite bind_snd. }
  assert (Hh : exists M : IO world unit,
             (forall node, sends_to node M)
             /\ snd (print_command_help (prog s)) = snd (M (prog s))).
  { exists print_command_help. split; [intros; apply sends_to_help|reflexivity]. }
  destruct (cut_lf (cstr buf)) as [|cmd rest] eqn:Hin.
  { now rewrite (handle_empty buf s Hin). }
  destruct (command_cases cmd) as [Hc|[[plus ->]|Hno]].
  - cbn [In] in Hc.
    destruct Hc as [<-|[<-|[<-|[<-|[<-|[<-|[]]]]]]].
    + rewrite (handle_p buf rest s Hin).
      destruct rest as [|c [|x r]]; [exact Hnone|exact Hnone|]. cbn [prog].
      exists (bind (execute_position_move (argument_of (String c (String x r))))
                   (fun _ => ret tt)).
      split; [intros; apply sends_to_bind;
                [apply sends_to_move|intros; apply sends_to_ret]|].
      now rewrite bind_snd.
    + rewrite (handle_v buf rest s Hin).
      destruct (argument_of rest >? 0); cbn [prog]; [apply Hwh|exact Hh].
    + rewrite (handle_a buf rest s Hin).
      destruct (argument_of rest >? 0); cbn [prog]; [apply Hwh|exact Hh].
    + rewrite (handle_d buf rest s Hin).
      destruct (argument_of rest >? 0); cbn [prog]; [apply Hwh|exact Hh].
    + rewrite (handle_s buf rest s Hin). cbn [prog]. apply Hwh.
    + rewrite (handle_q buf rest s Hin). cbn [prog]. exact Hnone.
  - rewrite (handle_step buf plus rest s Hin).
    destruct rest as [|w2 r]; [exact Hnone|].
    destruct (parameter_object w2) as [idx2|] eqn:Hobj2;
      [|rewrite (adjust_unknown plus w2 s Hobj2); exact Hnone].
    pose proof (adjust_known plus w2 idx2 s Hobj2) as Hadj. cbv zeta in Hadj.
    destruct (plus || (parameter_of w2 s >? 100)); [|rewrite Hadj; exact Hnone].
    destruct Hadj as (_ & -> & _). apply Hwrite.
  - rewrite (handle_other buf cmd rest s Hin Hno). exact Hnone.
Qed.

Lemma command_loop_prog (lines : list string) (s : session) :
  exists M : IO world unit,
    (forall node, sends_to node M)
    /\ prog (snd (command_loop lines s)) = snd (M (prog s)).
Proof.
  revert s. induction lines as [|buf lines IH]; intros s.
  - exists (ret tt). split; [intros; apply sends_to_ret|reflexivity].
  - cbn [command_loop]. destruct (running s =? 0).
    + exists (ret tt). split; [intros; apply sends_to_ret|reflexivity].
    + rewrite bind_snd.
      destruct (handle_command_prog buf s) as (M1 & H1 & E1).
      destruct (IH (snd (handle_command buf s))) as (M2 & H2 & E2).
      exists (bind M1 (fun _ => M2)).
      split; [intros; apply sends_to_bind; auto|].
      rewrite bind_snd, <- E1. exact E2.
Qed.

Lemma command_loop_running (lines : list string) (s : session) :
  running (snd (command_loop lines s))
  = if (running s =? 0) || negb (existsb quits lines) then running s else 0.
Proof.
  revert s. induction lines as [|buf lines IH]; intros s.
  - cbn. now rewrite orb_true_r.
  - cbn [command_loop existsb]. destruct (running s =? 0) eqn:Hr; [reflexivity|].
    rewrite bind_snd, IH. cbn [orb].
    pose proof (handle_command_running buf s) as Hq.
    rewrite Hq. unfold quits.
    destruct (String.prefix "q" (cut_lf (cstr buf))); cbn [orb negb].
    + reflexivity.
    + rewrite Hr. cbn [orb]. reflexivity.
Qed.

Lemma command_loop_stops (before after : list string) (buf : string) (s : session) :
  quits buf = true ->
  command_loop (before ++ buf :: after) s = command_loop (before ++ [buf]) s.
Proof.
  intros Hq. revert s. induction before as [|l before IH]; intros s.
  - cbn [app command_loop]. destruct (running s =? 0); [reflexivity|].
    unfold bind. pose proof (handle_command_running buf s) as Hr.
    unfold quits in Hq. rewrite Hq in Hr.
    destruct (handle_command buf s) as [[] s1]. cbn [snd] in Hr.
    destruct after as [|l after]; cbn [command_loop]; [reflexivity|].
    rewrite Hr. reflexivity.
  - cbn [app command_loop]. destruct (running s =? 0); [reflexivity|].
    unfold bind. destruct (handle_command l s) as [[] s1]. apply IH.
Qed.

Lemma init_pp_mode_returns_0 (w : world) : fst (init_pp_mode w) = 0.
Proof. unfold init_pp_mode. repeat rewrite bind_fst. reflexivity. Qed.

Lemma shutdown_prog (s : session) :
  prog (snd (shutdown s))
  = snd (on_sock (usleep 200000) (snd (write_sdo 0x6040 0 0x06 (prog s)))).
Proof. unfold shutdown. run_session. reflexivity. Qed.

(** [main_run] step by step. *)
Lemma main_run_eq (argv1 : option string) (stdin : string)
    (eds : option string) (lines : list string) (b : bus) (node : Z) :
  choose_node argv1 stdin = Some node ->
  let w1 := snd (parse_eds_file eds (set_motor_ids 0 node (initial_world b))) in
  let w2 := snd (check_can_connection w1) in
  let w4 := snd (print_command_help (snd (init_pp_mode w2))) in
  let s := snd (command_loop lines (initial_session w4)) in
  main_run argv1 stdin eds lines b
  = if send_ok b then
      if existsb quits lines then (Some 0, prog (snd (shutdown s)))
      else (None, prog s)
    else (Some 1, w2).
Proof.
  intros Hnode. cbv zeta. unfold main_run. rewrite Hnode.
  change (detected_motor_id (initial_world b)) with 0.
  set (w1 := snd (parse_eds_file eds (set_motor_ids 0 node (initial_world b)))).
  assert (Hsock : sock w1 = b) by (unfold w1, parse_eds_file; now destruct eds).
  pose proof (check_can_connection_result w1) as Hr.
  rewrite Hsock in Hr.
  destruct (check_can_connection w1) as [r w2]. cbn [fst snd] in *. subst r.
  destruct (send_ok b); [|reflexivity]. change (0 <? 0) with false. cbv iota.
  pose proof (init_pp_mode_returns_0 w2) as Hi.
  destruct (init_pp_mode w2) as [r3 w3]. cbn [fst snd] in *. subst r3.
  change (0 <? 0) with false. cbv iota zeta.
  rewrite command_loop_running. cbn [running initial_session].
  change (1 =? 0) with false. cbn [orb].
  destruct (existsb quits lines); reflexivity.
Qed.

(** X25: every frame goes to the node chosen at start-up.  When [main]
    does not stop on its argument, the node it has chosen is in 1..127
    and stays the current node to the end; whatever the commands and
    whatever the drive answers, every frame written is an NMT frame
    (COB-ID 0, two bytes) or an eight-byte SDO request with COB-ID
    0x600 + node; and no node is ever recorded as detected:
    [auto_detect_motor] is not part of a run. *)
Theorem every_frame_goes_to_the_chosen_node (argv1 : option string)
    (stdin : string) (eds : option string) (lines : list string) (b : bus) :
  match choose_node argv1 stdin with
  | None => main_run argv1 stdin eds lines b = (Some 1, initial_world b)
  | Some node =>
      let w' := snd (main_run argv1 stdin eds lines b) in
      1 <= node <= 127
      /\ current_motor_id w' = node
      /\ detected_motor_id w' = 0
      /\ exists more,
           acts (trace (sock w')) = acts (trace b) ++ more
           /\ forallb (addressed node) more = true
  end.
Proof.
  destruct (choose_node argv1 stdin) as [node|] eqn:Hnode.
  2: { unfold main_run. now rewrite Hnode. }
  cbv zeta. split; [exact (choose_node_in_range argv1 stdin node Hnode)|].
  rewrite (main_run_eq argv1 stdin eds lines b node Hnode). cbv zeta.
  set (w1 := snd (parse_eds_file eds (set_motor_ids 0 node (initial_world b)))).
  assert (H1 : current_motor_id w1 = node /\ detected_motor_id w1 = 0
               /\ sock w1 = b)
    by (unfold w1, parse_eds_file; now destruct eds).
  destruct H1 as (N1 & D1 & S1).
  destruct (sends_to_check node w1 N1) as (N2 & D2 & l2 & E2 & P2).
  set (w2 := snd (check_can_connection w1)) in *.
  rewrite S1 in E2. rewrite D1 in D2.
  destruct (send_ok b).
  2: { cbn [snd]. split; [exact N2|]. split; [exact D2|]. exists l2. auto. }
  destruct (sends_to_init node w2 N2) as (N3 & D3 & l3 & E3 & P3).
  set (w3 := snd (init_pp_mode w2)) in *.
  destruct (sends_to_help node w3 N3) as (N4 & D4 & l4 & E4 & P4).
  set (w4 := snd (print_command_help w3)) in *.
  destruct (command_loop_prog lines (initial_session w4)) as (M & HM & EM).
  cbn [prog initial_session] in EM.
  destruct (HM node w4 N4) as (N5 & D5 & l5 & E5 & P5).
  rewrite <- EM in N5, D5, E5.
  set (s := snd (command_loop lines (initial_session w4))) in *.
  assert (Hloop : acts (trace (sock (prog s)))
                  = acts (trace b) ++ (l2 ++ l3 ++ l4 ++ l5)
                  /\ forallb (addressed node) (l2 ++ l3 ++ l4 ++ l5) = true).
  { split; [rewrite E5, E4, E3, E2, <- !app_assoc; reflexivity|].
    rewrite !forallb_app, P2, P3, P4, P5. reflexivity. }
  destruct Hloop as [EL PL].
  destruct (existsb quits lines); cbn [snd].
  - rewrite shutdown_prog.
    destruct (sends_to_write_sdo node 0x6040 0 0x06 (prog s) N5)
      as (N6 & D6 & l6 & E6 & P6).
    destruct (sends_to_usleep node 200000 _ N6) as (N7 & D7 & l7 & E7 & P7).
    split; [exact N7|]. split; [congruence|].
    exists ((l2 ++ l3 ++ l4 ++ l5) ++ l6 ++ l7).
    split; [rewrite E7, E6, EL, <- !app_assoc; reflexivity|].
    rewrite forallb_app, PL, forallb_app, P6, P7. reflexivity.
  - split; [exact N5|]. split; [congruence|]. exists (l2 ++ l3 ++ l4 ++ l5). auto.
Qed.

(** X26: how [main] ends.  It exits with 1 when its argument is no node
    id in 1..127 or when the first write, the NMT start to all nodes,
    fails; nothing the drive does or fails to do can end it otherwise:
    [init_pp_mode] never reports a failure.  It exits with 0 once a
    line that starts with the letter q is read, after a last download
    of 0x06 to the control word and a pause of 200 ms; and it stays in
    its loop when the input ends without such a line. *)
Theorem main_exit_status (argv1 : option string) (stdin : string)
    (eds : option string) (lines : list string) (b : bus) :
  let r := fst (main_run argv1 stdin eds lines b) in
  let w' := snd (main_run argv1 stdin eds lines b) in
  r = match choose_node argv1 stdin with
      | None => Some 1
      | Some _ =>
          if send_ok b then (if existsb quits lines then Some 0 else None)
          else Some 1
      end
  /\ (r = Some 0 ->
      exists before,
        acts (trace (sock w'))
        = before ++ [inl (sdo_request_frame w' 0x6040 0 0x06 1); inr 200000]).
Proof.
  cbv zeta. destruct (choose_node argv1 stdin) as [node|] eqn:Hnode.
  2: { unfold main_run. rewrite Hnode. cbn [fst]. split; [reflexivity|discriminate]. }
  rewrite (main_run_eq argv1 stdin eds lines b node Hnode). cbv zeta.
  destruct (send_ok b); [|split; [reflexivity|discriminate]].
  destruct (existsb quits lines); cbn [fst snd]; [|split; [reflexivity|discriminate]].
  split; [reflexivity|]. intros _. rewrite shutdown_prog.
  set (s := snd (command_loop lines _)).
  pose proof (keeps_write_sdo 0x6040 0 0x06 (prog s)) as G1.
  pose proof (keeps_on_sock (usleep 200000) (snd (write_sdo 0x6040 0 0x06 (prog s)))) as G2.
  pose proof (same_globals_wire _ _ (same_globals_trans _ _ _ G1 G2)) as Hwire.
  rewrite (request_frame_wire _ _ 0x6040 0 0x06 1 Hwire).
  exists (acts (trace (sock (prog s)))).
  rewrite acts_usleep, acts_write_sdo, <- app_assoc. reflexivity.
Qed.

(** X27: nothing is read after the q command.  The lines that follow
    the first line starting with the letter q have no effect on the
    run. *)
Theorem lines_after_q_are_not_read (argv1 : option string) (stdin : string)
    (eds : option string) (before after : list string) (buf : string) (b : bus) :
  quits buf = true ->
  main_run argv1 stdin eds (before ++ buf :: after) b
  = main_run argv1 stdin eds (before ++ [buf]) b.
Proof.
  intros Hq. unfold main_run.
  destruct (choose_node argv1 stdin) as [node|]; [|reflexivity].
  cbv zeta. destruct (check_can_connection _) as [r w2].
  destruct (r <? 0); [reflexivity|].
  destruct (init_pp_mode w2) as [r3 w3]. destruct (r3 <? 0); [reflexivity|].
  now rewrite (command_loop_stops before after buf _ Hq).
Qed.

(** X27 with a stop command typed after the q. *)
Lemma lines_after_q_are_not_read_witness :
  main_run (Some "3"%string) ""%string None
           ([("v 300" ++ nl)%string] ++ ("q" ++ nl)%string :: [("s" ++ nl)%string])
           silent_bus
  = main_run (Some "3"%string) ""%string None
             ([("v 300" ++ nl)%string] ++ [("q" ++ nl)%string]) silent_bus.
Proof.
  apply (lines_after_q_are_not_read (Some "3"%string) ""%string None
           [("v 300" ++ nl)%string] [("s" ++ nl)%string] ("q" ++ nl)%string
           silent_bus).
  reflexivity.
Defined.

End Run.
